(** * Traceleft: the syscall schema compiler and the generated decoder

    A shallow embedding of [metagenerator/metagenerator.go].  The first half
    embeds the schema compiler ([ToCamel], [parseLine], [parseSyscall],
    [GatherSyscalls]) together with its three type tables.  The second half
    embeds the Go code that the generator emits into package [tracer]: the
    descriptor table [FdMap], the buffer helpers and the dispatch function
    [GetStruct], read off the templates as an interpreter over a compiled
    [Syscall].

    Go strings are byte sequences and are modelled by [string]; fixed-width
    integers are [Z] with the conversions written out. *)

From Stdlib Require Import ZArith String Ascii Strings.Byte List Lia Bool.
From Stdlib Require Import Numbers.DecimalString.
From stdpp Require Import base option gmap strings list.

Open Scope string_scope.
Open Scope Z_scope.

(** ** Fixed-width integer conversions *)

Module Conv.

(** [uint32(x)], [uint64(x)]: reduction modulo the width. *)
Definition uint32 (x : Z) : Z := x mod 2 ^ 32.
Definition uint64 (x : Z) : Z := x mod 2 ^ 64.

(** [int32(x)], [int64(x)]: two's complement reading of the low bits. *)
Definition int32 (x : Z) : Z := (x + 2 ^ 31) mod 2 ^ 32 - 2 ^ 31.
Definition int64 (x : Z) : Z := (x + 2 ^ 63) mod 2 ^ 64 - 2 ^ 63.

End Conv.

(** ** The pieces of Go's [strings] package that the generator calls *)

Module Strings.

Definition is_space (c : ascii) : bool := Ascii.eqb c " ".

Fixpoint TrimLeft_space (s : string) : string :=
  match s with
  | String c s' => if is_space c then TrimLeft_space s' else s
  | EmptyString => EmptyString
  end.

(** Drops the trailing run of spaces: a space is kept only when something
    that is kept follows it. *)
Fixpoint TrimRight_space (s : string) : string :=
  match s with
  | String c s' =>
      match TrimRight_space s' with
      | EmptyString => if is_space c then EmptyString else String c EmptyString
      | r => String c r
      end
  | EmptyString => EmptyString
  end.

(** [strings.Trim(s, " ")] *)
Definition Trim_space (s : string) : string :=
  TrimRight_space (TrimLeft_space s).

(** [strings.HasPrefix(s, prefix)] *)
Fixpoint HasPrefix (s prefix : string) : bool :=
  match prefix, s with
  | EmptyString, _ => true
  | String p prefix', String c s' => Ascii.eqb c p && HasPrefix s' prefix'
  | String _ _, EmptyString => false
  end.

Fixpoint drop (n : nat) (s : string) : string :=
  match n, s with
  | O, _ => s
  | S n', String _ s' => drop n' s'
  | S _, EmptyString => EmptyString
  end.

(** [strings.TrimPrefix(s, prefix)] *)
Definition TrimPrefix (s prefix : string) : string :=
  if HasPrefix s prefix then drop (String.length prefix) s else s.

(** [strings.Split(s, "\n")]: the pieces between line feeds; the result
    always has one piece more than there are line feeds. *)
Definition newline : ascii := ascii_of_nat 10.

Fixpoint Split_lines (s : string) : list string :=
  match s with
  | EmptyString => [EmptyString]
  | String c s' =>
      if Ascii.eqb c newline then EmptyString :: Split_lines s'
      else match Split_lines s' with
           | cur :: rest => String c cur :: rest
           | [] => [String c EmptyString]
           end
  end.

(** [strings.ToUpper] on one ASCII lower-case letter. *)
Definition upper (c : ascii) : ascii :=
  ascii_of_nat (nat_of_ascii c - 32).

End Strings.

(** ** A backtracking matcher for the fragment of Go's [regexp] syntax used

    Go's [regexp] picks, among the matches starting at the leftmost possible
    offset, the one a backtracking search finds first (greedy operators try
    the longer alternative first, lazy ones the shorter).  The pattern is
    held as a flat instruction list; [Mark] records the current offset in a
    numbered slot, slots [2i] and [2i+1] delimiting group [i] as in
    [FindStringSubmatchIndex]. *)

Module Regexp.

Inductive inst : Type :=
| Char (c : ascii)                 (* a literal byte *)
| Class (p : ascii -> bool)        (* one byte of a class *)
| Star (p : ascii -> bool)         (* greedy repetition of a class *)
| StarLazy (p : ascii -> bool)     (* lazy repetition of a class *)
| Mark (slot : nat).

Definition marks := list (nat * nat).

(** [x+] is [x x*]. *)
Definition Plus (p : ascii -> bool) : list inst := [Class p; Star p].

Fixpoint Lit (s : string) : list inst :=
  match s with
  | EmptyString => []
  | String c s' => Char c :: Lit s'
  end.

(** [\s]: tab, line feed, form feed, carriage return, space. *)
Definition perl_space (c : ascii) : bool :=
  let n := nat_of_ascii c in
  (n =? 9)%nat || (n =? 10)%nat || (n =? 12)%nat || (n =? 13)%nat
  || (n =? 32)%nat.

(** [.]: anything but a line feed. *)
Definition any_but_nl (c : ascii) : bool :=
  negb (nat_of_ascii c =? 10)%nat.

(** Runs the program at the head of [s], which starts at offset [pos] of
    the subject; returns the end offset and the marks of the first
    successful path. *)
Fixpoint exec (prog : list inst) (s : string) (pos : nat) (m : marks)
  {struct prog} : option (nat * marks) :=
  match prog with
  | [] => Some (pos, m)
  | Char c :: k =>
      match s with
      | String a s' => if Ascii.eqb a c then exec k s' (S pos) m else None
      | EmptyString => None
      end
  | Class p :: k =>
      match s with
      | String a s' => if p a then exec k s' (S pos) m else None
      | EmptyString => None
      end
  | Mark slot :: k => exec k s pos ((slot, pos) :: m)
  | Star p :: k =>
      (fix more (s : string) (pos : nat) {struct s} : option (nat * marks) :=
         match s with
         | String a s' =>
             if p a then
               match more s' (S pos) with
               | Some r => Some r
               | None => exec k s pos m
               end
             else exec k s pos m
         | EmptyString => exec k s pos m
         end) s pos
  | StarLazy p :: k =>
      (fix more (s : string) (pos : nat) {struct s} : option (nat * marks) :=
         match exec k s pos m with
         | Some r => Some r
         | None =>
             match s with
             | String a s' => if p a then more s' (S pos) else None
             | EmptyString => None
             end
         end) s pos
  end.

(** The leftmost match: the first start offset at which [exec] succeeds. *)
Fixpoint search (prog : list inst) (s : string) (pos : nat)
  : option (nat * marks) :=
  match exec (Mark 0 :: prog ++ [Mark 1]) s pos [] with
  | Some r => Some r
  | None =>
      match s with
      | String _ s' => search prog s' (S pos)
      | EmptyString => None
      end
  end.

Fixpoint slot (m : marks) (i : nat) : option nat :=
  match m with
  | [] => None
  | (j, p) :: m' => if (i =? j)%nat then Some p else slot m' i
  end.

(** The text of group [i]; a group that took no part in the match is the
    empty string. *)
Definition group (subject : string) (m : marks) (i : nat) : string :=
  match slot m (2 * i), slot m (2 * i + 1) with
  | Some b, Some e => String.substring b (e - b) subject
  | _, _ => EmptyString
  end.

(** [re.FindStringSubmatch(s)] for a pattern with [ngroups] groups: [None]
    for no match, else the whole match followed by the groups. *)
Definition FindStringSubmatch (prog : list inst) (ngroups : nat)
  (s : string) : option (list string) :=
  match search prog s 0 with
  | None => None
  | Some (_, m) => Some (List.map (group s m) (seq 0 (S ngroups)))
  end.

End Regexp.

(** ** The schema compiler *)

Module Metagenerator.

Definition maxBufferSize : Z := 256.

(** A Go [map[string]string] written as a literal: the association list of
    the literal, turned into a finite map. *)
Definition table (entries : list (string * string)) : gmap string string :=
  list_to_map entries.

(** [m[k]] on a Go map: the zero value when the key is absent. *)
Definition index (m : gmap string string) (k : string) : string :=
  default "" (m !! k).

Definition protoTypeConversions_entries : list (string * string) := [
  ("BpfAttr", "todo");
  ("CapUserData", "todo");
  ("CapUserHeader", "todo");
  ("FileHandle", "todo");
  ("GetCPUCache", "todo");
  ("IoCb", "todo");
  ("IoEvent", "todo");
  ("Itimerspec", "todo");
  ("KexecSegment", "todo");
  ("MqAttr", "todo");
  ("Msgbuf", "todo");
  ("Pollfd", "todo");
  ("RobustListHead", "todo");
  ("SigSet", "todo");
  ("Sigaction", "todo");
  ("Sigevent", "todo");
  ("Stack", "todo");
  ("SysctlArgs", "todo");
  ("Timezone", "todo");
  ("[256]byte", "bytes");
  ("[]IoCb", "todo");
  ("[]RobustListHead", "todo");
  ("int16", "int32");
  ("int32", "int32");
  ("int64", "int64");
  ("syscall.Dirent", "todo");
  ("syscall.EpollEvent", "todo");
  ("syscall.FdSet", "todo");
  ("syscall.Iovec", "todo");
  ("syscall.Msghdr", "todo");
  ("syscall.Rlimit", "todo");
  ("syscall.Rusage", "todo");
  ("syscall.Sockaddr", "todo");
  ("syscall.Stat_t", "todo");
  ("syscall.Statfs_t", "todo");
  ("syscall.Sysinfo_t", "todo");
  ("syscall.Timespec", "todo");
  ("syscall.Timeval", "todo");
  ("syscall.Timex", "todo");
  ("syscall.Tms", "todo");
  ("syscall.Ustat_t", "todo");
  ("syscall.Utimbuf", "todo");
  ("syscall.Utsname", "todo");
  ("uint16", "uint32");
  ("uint32", "uint32");
  ("uint64", "uint64");
  ("unsafe.Pointer", "todo")
].

Definition goTypeConversions_entries : list (string * string) := [
  ("aio_context_t *", "uint64");
  ("aio_context_t", "uint64");
  ("cap_user_data_t", "CapUserData");
  ("cap_user_header_t", "CapUserHeader");
  ("char *", "[256]byte");
  ("const cap_user_data_t", "CapUserData");
  ("const char *", "[256]byte");
  ("const clockid_t", "uint32");
  ("const int *", "int64");
  ("const sigset_t *", "SigSet");
  ("const stack_t *", "Stack");
  ("const struct iovec *", "syscall.Iovec");
  ("const struct itimerspec *", "Itimerspec");
  ("const struct mq_attr *", "MqAttr");
  ("const struct rlimit64 *", "syscall.Rlimit");
  ("const struct sigaction *", "Sigaction");
  ("const struct sigevent *", "Sigevent");
  ("const struct timespec *", "syscall.Timespec");
  ("const unsigned long *", "uint64");
  ("const void * *", "unsafe.Pointer");
  ("const void *", "unsafe.Pointer");
  ("fd_set *", "syscall.FdSet");
  ("gid_t *", "uint64");
  ("gid_t", "uint32");
  ("int *", "int64");
  ("int", "int64");
  ("key_serial_t", "int32");
  ("key_t", "int64");
  ("loff_t *", "int64");
  ("loff_t", "int64");
  ("long", "int64");
  ("mqd_t", "int64");
  ("off_t", "int64");
  ("pid_t", "int64");
  ("qid_t", "uint32");
  ("__s32", "uint32");
  ("siginfo_t *", "unsafe.Pointer");
  ("sigset_t *", "SigSet");
  ("size_t *", "int64");
  ("size_t", "int64");
  ("stack_t *", "Stack");
  ("struct epoll_event *", "syscall.EpollEvent");
  ("struct file_handle *", "FileHandle");
  ("struct getcpu_cache *", "GetCPUCache");
  ("struct iocb * *", "IoCb");
  ("struct iocb *", "[]IoCb");
  ("struct io_event *", "IoEvent");
  ("struct itimerspec *", "Itimerspec");
  ("struct itimerval *", "Itimerspec");
  ("struct kexec_segment *", "KexecSegment");
  ("struct linux_dirent64 *", "syscall.Dirent");
  ("struct linux_dirent *", "syscall.Dirent");
  ("struct mmsghdr *", "syscall.Msghdr");
  ("struct mq_attr *", "MqAttr");
  ("struct msgbuf *", "Msgbuf");
  ("struct msqid_ds *", "unsafe.Pointer");
  ("struct new_utsname *", "syscall.Utsname");
  ("struct perf_event_attr *", "unsafe.Pointer");
  ("struct pollfd *", "Pollfd");
  ("struct rlimit64 *", "syscall.Rlimit");
  ("struct rlimit *", "syscall.Rlimit");
  ("struct robust_list_head * *", "[]RobustListHead");
  ("struct robust_list_head *", "RobustListHead");
  ("struct rusage *", "syscall.Rusage");
  ("struct sched_attr *", "unsafe.Pointer");
  ("struct sched_param *", "unsafe.Pointer");
  ("struct sembuf *", "unsafe.Pointer");
  ("struct shmid_ds *", "unsafe.Pointer");
  ("struct sigaction *", "unsafe.Pointer");
  ("struct sigevent *", "unsafe.Pointer");
  ("struct siginfo *", "unsafe.Pointer");
  ("struct sockaddr *", "syscall.Sockaddr");
  ("struct stat *", "syscall.Stat_t");
  ("struct statfs *", "syscall.Statfs_t");
  ("struct __sysctl_args *", "SysctlArgs");
  ("struct sysinfo *", "syscall.Sysinfo_t");
  ("struct timespec *", "syscall.Timespec");
  ("struct timeval *", "syscall.Timeval");
  ("struct timex *", "syscall.Timex");
  ("struct timezone *", "Timezone");
  ("struct tms *", "syscall.Tms");
  ("struct user_msghdr *", "unsafe.Pointer");
  ("struct ustat *", "syscall.Ustat_t");
  ("struct utimbuf *", "syscall.Utimbuf");
  ("timer_t *", "int64");
  ("timer_t", "int64");
  ("time_t *", "int64");
  ("u32 *", "uint32");
  ("u32", "uint32");
  ("u64", "uint64");
  ("__u64", "uint64");
  ("uid_t *", "uint64");
  ("uid_t", "uint32");
  ("umode_t", "uint64");
  ("union bpf_attr *", "BpfAttr");
  ("unsigned char *", "[256]byte");
  ("unsigned *", "uint64");
  ("unsigned", "uint64");
  ("unsigned int *", "uint64");
  ("unsigned int", "uint64");
  ("unsigned long *", "uint64");
  ("unsigned long", "uint64");
  ("void *", "unsafe.Pointer")
].

Definition cTypeConversions_entries : list (string * string) := [
  ("aio_context_t *", "u64");
  ("aio_context_t", "aio_context_t");
  ("cap_user_data_t", "cap_user_data_t");
  ("cap_user_header_t", "cap_user_header_t");
  ("char *", "char");
  ("const cap_user_data_t", "cap_user_data_t");
  ("const char *", "char");
  ("const clockid_t", "u32");
  ("const int *", "s64");
  ("const sigset_t *", "u64");
  ("const stack_t *", "u64");
  ("const struct iovec *", "u64");
  ("const struct itimerspec *", "u64");
  ("const struct mq_attr *", "u64");
  ("const struct rlimit64 *", "u64");
  ("const struct sigaction *", "u64");
  ("const struct sigevent *", "u64");
  ("const struct timespec *", "u64");
  ("const unsigned long *", "u64");
  ("const void * *", "u64");
  ("const void *", "u64");
  ("fd_set *", "u64");
  ("gid_t *", "u64");
  ("gid_t", "gid_t");
  ("int *", "u64");
  ("int", "s64");
  ("key_serial_t", "key_serial_t");
  ("key_t", "key_t");
  ("loff_t *", "s64");
  ("loff_t", "loff_t");
  ("long", "s64");
  ("mqd_t", "mdq_t");
  ("off_t", "off_t");
  ("pid_t", "pid_t");
  ("qid_t", "qid_t");
  ("__s32", "s32");
  ("siginfo_t *", "u64");
  ("sigset_t *", "u64");
  ("size_t *", "u64");
  ("size_t", "int64_t");
  ("stack_t *", "u64");
  ("struct epoll_event *", "u64");
  ("struct file_handle *", "u64");
  ("struct getcpu_cache *", "u64");
  ("struct iocb * *", "u64");
  ("struct iocb *", "u64");
  ("struct io_event *", "u64");
  ("struct itimerspec *", "u64");
  ("struct itimerval *", "u64");
  ("struct kexec_segment *", "u64");
  ("struct linux_dirent64 *", "u64");
  ("struct linux_dirent *", "u64");
  ("struct mmsghdr *", "u64");
  ("struct mq_attr *", "u64");
  ("struct msgbuf *", "u64");
  ("struct msqid_ds *", "u64");
  ("struct new_utsname *", "u64");
  ("struct perf_event_attr *", "u64");
  ("struct pollfd *", "u64");
  ("struct rlimit64 *", "u64");
  ("struct rlimit *", "u64");
  ("struct robust_list_head * *", "u64");
  ("struct robust_list_head *", "u64");
  ("struct rusage *", "u64");
  ("struct sched_attr *", "u64");
  ("struct sched_param *", "u64");
  ("struct sembuf *", "u64");
  ("struct shmid_ds *", "u64");
  ("struct sigaction *", "u64");
  ("struct sigevent *", "u64");
  ("struct siginfo *", "u64");
  ("struct sockaddr *", "u64");
  ("struct stat *", "u64");
  ("struct statfs *", "u64");
  ("struct __sysctl_args *", "u64");
  ("struct sysinfo *", "u64");
  ("struct timespec *", "u64");
  ("struct timeval *", "u64");
  ("struct timex *", "u64");
  ("struct timezone *", "u64");
  ("struct tms *", "u64");
  ("struct user_msghdr *", "u64");
  ("struct ustat *", "u64");
  ("struct utimbuf *", "u64");
  ("timer_t *", "u64");
  ("timer_t", "timer_t");
  ("time_t *", "u64");
  ("u32 *", "s64");
  ("u32", "u32");
  ("u64", "u64");
  ("__u64", "u64");
  ("uid_t *", "u64");
  ("uid_t", "uid_t");
  ("umode_t", "u64");
  ("union bpf_attr *", "u64");
  ("unsigned char *", "char");
  ("unsigned *", "u64");
  ("unsigned", "unsigned");
  ("unsigned int *", "u64");
  ("unsigned int", "u64");
  ("unsigned long *", "u64");
  ("unsigned long", "unsigned long");
  ("void *", "u64")
].

Definition protoTypeConversions := table protoTypeConversions_entries.
Definition goTypeConversions := table goTypeConversions_entries.
Definition cTypeConversions := table cTypeConversions_entries.

Global Arguments protoTypeConversions : simpl never.
Global Arguments goTypeConversions : simpl never.
Global Arguments cTypeConversions : simpl never.

Record Param : Type := mkParam {
  Position : Z;
  Name : string;
  Type_ : string;
  Suffix : string;
  HashFunc : string;
  NeedsPath : bool
}.

Record Syscall : Type := mkSyscall {
  SName : string;
  RawName : string;
  Params : list Param
}.

Definition consideredSyscalls : gset string :=
  list_to_set
    ["open"; "close"; "read"; "write"; "mkdir"; "mkdirat"; "chmod";
     "fchmod"; "fchmodat"; "chown"; "fchown"; "fchownat"].

Global Arguments consideredSyscalls : simpl never.

Definition in_range (lo hi : nat) (v : ascii) : bool :=
  let n := nat_of_ascii v in (lo <=? n)%nat && (n <=? hi)%nat.

Definition snoc (n : string) (v : ascii) : string :=
  n ++ String v EmptyString.

(** The body of the [for _, v := range s] loop of [ToCamel], threading
    [n] and [capNext].  The loop ranges over runes; every test it makes
    is on an ASCII value, and a byte of a multi-byte rune fails all of
    them just as the rune does, so ranging over bytes gives the same
    result. *)
Fixpoint ToCamel_loop (s : string) (n : string) (capNext : bool) : string :=
  match s with
  | EmptyString => n
  | String v s' =>
      let n1 :=
        if in_range 65 90 v || in_range 48 57 v then snoc n v else n in
      let n2 :=
        if in_range 97 122 v then
          (if capNext then snoc n1 (Strings.upper v) else snoc n1 v)
        else n1 in
      let capNext' := Ascii.eqb v "_" || Ascii.eqb v " " in
      ToCamel_loop s' n2 capNext'
  end.

Definition ToCamel (s : string) : string :=
  ToCamel_loop (Strings.Trim_space s) "" true.

(** [[a-z_0-9]] *)
Definition name_char (v : ascii) : bool :=
  in_range 97 122 v || Ascii.eqb v "_" || in_range 48 57 v.

(** [\s+field:(?P<type>.*?) (?P<name>[a-z_0-9]+);.*] *)
Definition re : list Regexp.inst :=
  Regexp.Plus Regexp.perl_space ++ Regexp.Lit "field:"
  ++ [Regexp.Mark 2; Regexp.StarLazy Regexp.any_but_nl; Regexp.Mark 3]
  ++ Regexp.Lit " "
  ++ [Regexp.Mark 4] ++ Regexp.Plus name_char ++ [Regexp.Mark 5]
  ++ Regexp.Lit ";" ++ [Regexp.Star Regexp.any_but_nl].

(** [re.SubexpNames()] *)
Definition re_SubexpNames : list string := [""; "type"; "name"].

(** A Go [error]: one raised by the operating system, or one built by
    [fmt.Errorf] around another. *)
Inductive error : Type :=
| OSError (errno : string)
| Errorf (format : string) (arg : error).

(** The [for i, n := range res { mp[n1[i]] = n }] loop. *)
Fixpoint fill (n1 res : list string) (mp : gmap string string)
  : gmap string string :=
  match n1, res with
  | k :: n1', n :: res' => fill n1' res' (<[k := n]> mp)
  | _, _ => mp
  end.

Definition parseLine (l : string) (idx : Z)
  : option Param * option Param * option Param * option error :=
  let n1 := re_SubexpNames in
  match Regexp.FindStringSubmatch re 2 l with
  | None => (None, None, None, None)
  | Some res =>
      let mp := fill n1 res ∅ in
      match mp !! "type", mp !! "name" with
      | None, _ => (None, None, None, None)
      | _, None => (None, None, None, None)
      | Some _, Some _ =>
          if String.eqb (index mp "name") "__syscall_nr" then
            (None, None, None, None)
          else
            let goName := ToCamel (index mp "name") in
            let goType := index goTypeConversions (index mp "type") in
            let goParam :=
              mkParam 0 goName goType "" ""
                (String.eqb goName "Fd" || String.eqb goName "Dfd") in
            let cType := index cTypeConversions (index mp "type") in
            let cSuffix :=
              if String.eqb cType "char" then "[256]" else "" in
            let cParam :=
              mkParam (idx - 8) (index mp "name") cType cSuffix "" false in
            let protoParam :=
              mkParam 0 (index mp "name")
                (index protoTypeConversions goType) "" "" false in
            (Some goParam, Some cParam, Some protoParam, None)
      end
  end.

(** [if p != nil { ps = append(ps, *p) }] *)
Definition append_if (ps : list Param) (p : option Param) : list Param :=
  match p with
  | Some x => ps ++ [x]
  | None => ps
  end.

(** The [for idx, line := range syscallParts] loop of [parseSyscall]. *)
Fixpoint parseSyscall_loop (lines : list string) (idx : Z) (skipped : bool)
  (goParams cParams protoParams : list Param)
  : (list Param * list Param * list Param) + error :=
  match lines with
  | [] => inl (goParams, cParams, protoParams)
  | line :: rest =>
      if negb skipped && negb (String.length line =? 0)%nat then
        parseSyscall_loop rest (idx + 1) skipped
          goParams cParams protoParams
      else
        match parseLine line idx with
        | (_, _, _, Some err) => inr err
        | (gp, cp, protop, None) =>
            parseSyscall_loop rest (idx + 1) true
              (append_if goParams gp) (append_if cParams cp)
              (append_if protoParams protop)
        end
  end.

Definition parseSyscall (name format : string)
  : (Syscall * Syscall * Syscall) + error :=
  let syscallParts := Strings.Split_lines format in
  match parseSyscall_loop syscallParts 0 false [] [] [] with
  | inr err => inr err
  | inl (goParams, cParams, protoParams) =>
      inl (mkSyscall (ToCamel name ++ "Event") name goParams,
           mkSyscall name name cParams,
           mkSyscall ("Protobuf" ++ ToCamel name ++ "Event") name
             protoParams)
  end.

(** The kernel type and field name that [parseLine] reads off a line:
    [mp["type"]] and [mp["name"]]. *)
Definition line_fields (l : string) : option (string * string) :=
  match Regexp.FindStringSubmatch re 2 l with
  | None => None
  | Some res =>
      let mp := fill re_SubexpNames res ∅ in
      Some (index mp "type", index mp "name")
  end.

(** *** Walking the tracepoint directory

    [filepath.Walk] and the file system are outside the repository.  A
    walk is the sequence of calls it makes to the callback, each with what
    the callback would find on opening and reading the entry's [format]
    file; [Walk] stops at the first error the callback returns (the
    callback never returns [filepath.SkipDir]). *)

Inductive FormatFile : Type :=
| OpenError                        (* [os.Open] fails *)
| ReadError (e : error)            (* [ioutil.ReadAll] fails *)
| Contents (formatBytes : string).

Record Visit : Type := mkVisit {
  walk_err : option error;         (* the callback's [err] argument *)
  path : string;
  f_Name : string;
  f_IsDir : bool;
  format : FormatFile              (* [<syscallsPath>/<f.Name()>/format] *)
}.

Definition Gathered : Type :=
  (list Syscall * list Syscall * list Syscall)%type.

(** The function literal passed to [filepath.Walk]; [None] is [return
    nil]. *)
Definition walkFn (v : Visit) (acc : Gathered) : Gathered * option error :=
  let '(goSyscalls, cSyscalls, protoSyscalls) := acc in
  match walk_err v with
  | Some err => (acc, Some err)
  | None =>
      if String.eqb (path v) "syscalls" then (acc, None)
      else if negb (f_IsDir v) then (acc, None)
      else
        let eventName := f_Name v in
        if Strings.HasPrefix eventName "sys_exit" then (acc, None)
        else
          let syscallName := Strings.TrimPrefix eventName "sys_enter_" in
          if negb (bool_decide (syscallName ∈ consideredSyscalls)) then
            (acc, None)
          else
            match format v with
            | OpenError => (acc, None)
            | ReadError err => (acc, Some err)
            | Contents formatBytes =>
                match parseSyscall syscallName formatBytes with
                | inr err => (acc, Some err)
                | inl (goSyscall, cSyscall, protoSyscall) =>
                    (((goSyscalls ++ [goSyscall])%list,
                      (cSyscalls ++ [cSyscall])%list,
                      (protoSyscalls ++ [protoSyscall])%list), None)
                end
            end
  end.

Fixpoint Walk (visits : list Visit) (acc : Gathered)
  : Gathered * option error :=
  match visits with
  | [] => (acc, None)
  | v :: rest =>
      match walkFn v acc with
      | (acc', None) => Walk rest acc'
      | (acc', Some err) => (acc', Some err)
      end
  end.

Definition GatherSyscalls (visits : list Visit) : Gathered + error :=
  match Walk visits ([], [], []) with
  | (_, Some err) => inr (Errorf "error walking %q: %v" err)
  | (acc, None) => inl acc
  end.

End Metagenerator.

(** ** The generated decoder (package [tracer])

    What follows embeds the Go text held in the generator's string
    constants and templates: [kernelStructs], [helpers],
    [eventStringsTemplate], [getStructPreamble], [getStructTemplate] and
    [getStructEpilogue].  A template is embedded as a function of the
    [Syscall] it is executed on.  The lock of [FdMap] is not modelled: calls
    are taken one at a time. *)

Module Tracer.

Import Metagenerator.

Record FdInfo : Type := mkFdInfo {
  Path : string;
  Ino : Z;
  Major : Z;
  Minor : Z
}.

Definition zeroFdInfo : FdInfo := mkFdInfo "" 0 0 0.

(** A [*FdInfo]: the address of a variable that escaped to the heap. *)
Definition ptr := nat.

(** The [FdMap] object together with the variables its callers hold
    pointers to.  [items] is [map[uint32]map[uint32]FdInfo]; a Go map holds
    its values by value and they are not addressable. *)
Record FdMap : Type := mkFdMap {
  items : gmap Z (gmap Z FdInfo);
  cells : list FdInfo
}.

Definition NewFdMap : FdMap := mkFdMap ∅ [].

(** [info, ok := inner[fd]; return &info, ok]: [info] is a fresh variable
    holding a copy of the stored value (the zero value when [fd] is
    absent), and the result is its address. *)
Definition Get (pid fd : Z) (f : FdMap) : option ptr * bool * FdMap :=
  match items f !! pid with
  | None => (None, false, f)
  | Some inner =>
      let info := default zeroFdInfo (inner !! fd) in
      let ok := bool_decide (is_Some (inner !! fd)) in
      (Some (length (cells f)), ok, mkFdMap (items f) (cells f ++ [info]))
  end.

(** Reading and writing through a [*FdInfo]. *)
Definition load (p : ptr) (f : FdMap) : option FdInfo := cells f !! p.

Definition store (p : ptr) (v : FdInfo) (f : FdMap) : FdMap :=
  mkFdMap (items f) (<[p := v]> (cells f)).

Definition Put (pid fd : Z) (info : FdInfo) (f : FdMap) : FdMap :=
  let inner := default ∅ (items f !! pid) in
  mkFdMap (<[pid := <[fd := info]> inner]> (items f)) (cells f).

Definition Delete (pid fd : Z) (f : FdMap) : FdMap :=
  match items f !! pid with
  | Some m => mkFdMap (<[pid := delete fd m]> (items f)) (cells f)
  | None => f
  end.

Definition DeletePid (pid : Z) (f : FdMap) : FdMap :=
  mkFdMap (delete pid (items f)) (cells f).

Definition Clear (f : FdMap) : FdMap := mkFdMap ∅ (cells f).

(** [Get] as its caller sees it: the pointed-to value and the flag. *)
Definition lookup_fd (pid fd : Z) (f : FdMap) : option FdInfo * bool :=
  let '(p, ok, f') := Get pid fd f in
  (p ≫= (λ a, load a f'), ok).

(** *** Helpers *)

Definition min (x y : Z) : Z := if x >? y then y else x.

Definition is_zero (b : byte) : bool := Byte.eqb b x00.

(** [bufLen]: the index of the first zero byte, else the length. *)
Fixpoint bufLen_from (buf : list byte) (idx : Z) : Z :=
  match buf with
  | [] => idx
  | b :: rest => if is_zero b then idx else bufLen_from rest (idx + 1)
  end.

Definition bufLen (buf : list byte) : Z := bufLen_from buf 0.

(** [C.GoStringN(buffer, length)], for [buffer] pointing at the array
    [e.<Name>]: a Go string made of exactly [length] bytes read from that
    address on, zero bytes included.  A negative [length], or one beyond
    the array, does not stay inside the array: [None]. *)
Definition GoStringN (buffer : list byte) (len : Z) : option string :=
  if (0 <=? len) && (len <=? Z.of_nat (length buffer)) then
    Some (string_of_list_byte (take (Z.to_nat len) buffer))
  else None.

(** The length decision shared by [String] and [GetArgN]: read and write
    events are cut at the returned byte count, the others at the first
    zero byte. *)
Definition size_bounded (name : string) : bool :=
  String.eqb name "ReadEvent" || String.eqb name "WriteEvent".

Definition argLength (name : string) (ret : Z) (buf : list byte) : Z :=
  if size_bounded name then
    (if ret >? 0 then min ret (Z.of_nat (length buf)) else 0)
  else bufLen buf.

Definition bufferGo (name : string) (ret : Z) (buf : list byte)
  : option string :=
  GoStringN buf (argLength name ret buf).

(** *** Events *)

(** The value of one field of a generated event struct. *)
Inductive Value : Type :=
| VBytes (b : list byte)     (* [256]byte *)
| VInt (z : Z)               (* uint32, int32, uint64, int64 *)
| VZero.                     (* another type: never assigned *)

Record Field : Type := mkField {
  fparam : Param;
  fvalue : Value;
  fpath : option string      (* the [<Name>Path] field, when there is one *)
}.

Inductive Event : Type :=
| SyscallEvent (name : string) (fields : list Field)
| FileEvent (Fd Ino Major Minor : Z)
| ConnectV4Event (Saddr Daddr Sport Dport Netns : Z)
| ConnectV6Event (Saddr Daddr : list byte) (Sport Dport Netns : Z)
| DefaultEvent.

Record CommonEvent : Type := mkCommonEvent {
  Timestamp : Z;
  Pid : Z;
  Ret : Z;
  CName : string
}.

Inductive GetArgN_result : Type :=
| Arg (s : string)           (* [s, nil] *)
| ArgError                   (* ["", fmt.Errorf ...] *)
| ArgOutside                 (* [C.GoStringN] leaves the array *)
| ArgIllTyped.               (* the generated case does not type-check *)

Definition printed_as_number (ty : string) : bool :=
  String.eqb ty "uint64" || String.eqb ty "int64" || String.eqb ty "uint32".

(** [fmt.Sprintf("%v", z)] for an integer. *)
Definition format_int (z : Z) : string :=
  NilEmpty.string_of_int (Z.to_int z).

Definition GetArgN (e : Event) (n : Z) (ret : Z) : GetArgN_result :=
  match e with
  | SyscallEvent name fields =>
      if n <? 0 then ArgError else
      match fields !! Z.to_nat n with
      | None => ArgError
      | Some fld =>
          if printed_as_number (Type_ (fparam fld)) then
            match fvalue fld with
            | VInt z => Arg (format_int z)
            | _ => ArgIllTyped
            end
          else
            match fvalue fld with
            | VBytes b =>
                match bufferGo name ret b with
                | Some s => Arg s
                | None => ArgOutside
                end
            | _ => ArgIllTyped
            end
      end
  | _ => ArgError
  end.

(** The [String] method of [eventStringsTemplate]. *)

Inductive String_result : Type :=
| Str (s : string)           (* the returned string *)
| StrOutside                 (* [C.GoStringN] leaves the array *)
| StrIllTyped.               (* the generated method does not build *)

Definition buffer_named (name : string) : bool :=
  String.eqb name "Buf" || String.eqb name "Filename"
  || String.eqb name "Pathname".

Definition descriptor_named (name : string) : bool :=
  String.eqb name "Fd" || String.eqb name "Dfd".

(** A Go identifier, of the ASCII letters, digits and underscores the
    schema compiler can put in a name: [e.<Name>] is a selector, and the
    name stands for itself in the format string, for such a name only. *)
Definition letter (v : ascii) : bool :=
  in_range 65 90 v || in_range 97 122 v || Ascii.eqb v "_".

Fixpoint identifier_tail (s : string) : bool :=
  match s with
  | EmptyString => true
  | String v s' => (letter v || in_range 48 57 v) && identifier_tail s'
  end.

Definition identifier (s : string) : bool :=
  match s with
  | EmptyString => false
  | String v s' => letter v && identifier_tail s'
  end.

(** The statements ahead of [return]: every parameter named [Buf],
    [Filename] or [Pathname] declares [buffer], [length] and [bufferGo].
    [inl None]: there is no such parameter and nothing is declared;
    [inl (Some s)]: [bufferGo] is [s].  Two such parameters declare the
    three variables twice in one scope, and [bufLen] and [len] accept a
    byte array only. *)
Definition String_bufferGo (name : string) (ret : Z) (fields : list Field)
  : option string + String_result :=
  match List.filter (λ fld, buffer_named (Name (fparam fld))) fields with
  | [] => inl None
  | [fld] =>
      match fvalue fld with
      | VBytes b =>
          match bufferGo name ret b with
          | Some s => inl (Some s)
          | None => inr StrOutside
          end
      | _ => inr StrIllTyped
      end
  | _ :: _ :: _ => inr StrIllTyped
  end.

Section Formatting.

(** [strconv.Quote]: what the [%q] verb prints for a Go string. *)
Variable Quote : string -> string.

(** What the [%q] verb prints for a field of the given decoder type that
    is handed to [fmt.Sprintf] as it is. *)
Variable Sprintf_q : string -> Value -> string.

(** What [fmt.Sprintf] writes for one parameter: its name, a space, the
    operand under [%d] or [%q], and then [<path>] and a space for a
    descriptor, a space for another parameter. *)
Definition String_param (bufferGo : option string) (fld : Field)
  : option string :=
  let p := fparam fld in
  if negb (identifier (Name p)) then None else
  let operand :=
    if printed_as_number (Type_ p) then
      match fvalue fld with
      | VInt z => Some (format_int z)
      | _ => None
      end
    else if buffer_named (Name p) then Quote <$> bufferGo
    else Some (Sprintf_q (Type_ p) (fvalue fld)) in
  let tail :=
    if descriptor_named (Name p) then
      (λ path, "<" ++ path ++ "> ") <$> fpath fld
    else Some " " in
  match operand, tail with
  | Some o, Some t => Some (Name p ++ " " ++ o ++ t)
  | _, _ => None
  end.

Fixpoint String_params (bufferGo : option string) (fields : list Field)
  : option string :=
  match fields with
  | [] => Some ""
  | fld :: rest =>
      match String_param bufferGo fld, String_params bufferGo rest with
      | Some s, Some r => Some (s ++ r)
      | _, _ => None
      end
  end.

(** [func (e <Name>) String(ret int64) string] *)
Definition String_ (name : string) (fields : list Field) (ret : Z)
  : String_result :=
  match String_bufferGo name ret fields with
  | inr r => r
  | inl bufferGo =>
      match String_params bufferGo fields with
      | Some s => Str s
      | None => StrIllTyped
      end
  end.

End Formatting.

(** *** The operating system, as the decoder sees it *)

Inductive StatResult : Type :=
| StatOk (ino dev : Z)       (* [err == nil], with [stat.Ino], [stat.Dev] *)
| StatErr (enoent : bool).   (* [err != nil]; is it [syscall.ENOENT]? *)

Record OS : Type := mkOS {
  (** [os.Readlink(fmt.Sprintf("/proc/%d/fd/%d", pid, fd))]; [None] is an
      error. *)
  Readlink : Z -> Z -> option string;
  (** [syscall.Stat(filepath.Join("/proc", pid, "root", path), &stat)] *)
  Stat : Z -> string -> StatResult
}.

(** The ways a generated case stops short of a [return]. *)
Inductive abort : Type :=
| Panic                      (* index out of range, nil dereference *)
| IllTyped.                  (* the generated case does not type-check *)

Inductive outcome : Type :=
| Done (ev : Event)          (* [return ev, nil] *)
| Failed                     (* [return nil, err] *)
| Aborted (a : abort).

(** [buf.Next(n)]: the next [n] bytes, or what is left. *)
Definition Next (n : nat) (buf : list byte) : list byte * list byte :=
  (take n buf, drop n buf).

Fixpoint le (bs : list byte) : Z :=
  match bs with
  | [] => 0
  | b :: rest => Z.of_N (Byte.to_N b) + 256 * le rest
  end.

(** [binary.LittleEndian.Uint16/32/64(b)]: [None] is the index-out-of-range
    panic on a short slice. *)
Definition LittleEndian_Uint (width : nat) (b : list byte) : option Z :=
  if (length b <? width)%nat then None else Some (le (take width b)).

(** [copy(dst[:], src)] into a zeroed array of [n] bytes. *)
Definition copy_into (n : nat) (src : list byte) : list byte :=
  take n src ++ replicate (n - length src) x00.

Section Decode.

(** [strconv.Quote], behind the [%q] verb. *)
Variable Quote : string -> string.

Variable os : OS.
Variable ce : CommonEvent.

(** The assignment to one field [ev.<Name>] in [getStructTemplate]. *)
Definition readField (ty : string) (buf : list byte)
  : option Value * list byte :=
  if String.eqb ty "[256]byte" then
    let '(b, buf') := Next 256 buf in (Some (VBytes (copy_into 256 b)), buf')
  else if String.eqb ty "uint32" || String.eqb ty "int32" then
    let '(b, buf') := Next 4 buf in
    (v ← LittleEndian_Uint 4 b;
     Some (VInt (if String.eqb ty "uint32" then Conv.uint32 v
                 else Conv.int32 v)), buf')
  else if String.eqb ty "uint64" || String.eqb ty "int64" then
    let '(b, buf') := Next 8 buf in
    (v ← LittleEndian_Uint 8 b;
     Some (VInt (if String.eqb ty "uint64" then Conv.uint64 v
                 else Conv.int64 v)), buf')
  else (Some VZero, buf).

(** The identity test against the recorded [info]. *)
Definition same_file (info : FdInfo) (stat_ino stat_dev : Z) : bool :=
  (Ino info =? stat_ino) && (Major info =? Z.shiftr stat_dev 8)
  && (Minor info =? Z.land stat_dev 255).

(** [fileName] once [ctx.Fds.Get] has said [ok]: [stat] keeps its zero
    value when the call fails. *)
Definition fileName_tracked (info : FdInfo) : string :=
  let fileName := "unknown" in
  let '(err, stat_ino, stat_dev) :=
    match Stat os (Pid ce) (Path info) with
    | StatOk ino dev => (None, ino, dev)
    | StatErr enoent => (Some enoent, 0, 0)
    end in
  let fileName :=
    match err with
    | Some true => "[deleted] (" ++ Quote (Path info) ++ ")?"
    | _ => fileName
    end in
  if same_file info stat_ino stat_dev then Path info else fileName.

(** The block emitted for a parameter with [NeedsPath]; [fdv] is the
    value of [ev.<Name>]. *)
Definition resolvePath (fdv : Z) (f : FdMap) : option string * FdMap :=
  let '(info, ok, f') :=
    Get (Conv.uint32 (Pid ce)) (Conv.uint32 fdv) f in
  if ok then (fileName_tracked <$> (info ≫= (λ p, load p f')), f')
  else (Some "unknown", f').

(** Has a parameter before this one had the block for [NeedsPath], which
    declares [fileName], [info] and [ok] in the scope of the case? *)
Definition declared_fileName (ev : list Field) : bool :=
  existsb (λ fld, NeedsPath (fparam fld)) ev.

(** The [range .Params] loop of [getStructTemplate].  A parameter whose
    decoder type is the empty string is a field declared without a type,
    and a second parameter with [NeedsPath] declares [fileName], [info]
    and [ok] again with [:=]: neither builds. *)
Fixpoint readParams (ps : list Param) (ev : list Field) (f : FdMap)
  (buf : list byte) : (list Field + abort) * FdMap * list byte :=
  match ps with
  | [] => (inl ev, f, buf)
  | p :: ps' =>
      if String.eqb (Type_ p) "" then (inr IllTyped, f, buf) else
      match readField (Type_ p) buf with
      | (None, buf') => (inr Panic, f, buf')
      | (Some v, buf') =>
          if NeedsPath p then
            if declared_fileName ev then (inr IllTyped, f, buf') else
            match v with
            | VInt fdv =>
                match resolvePath fdv f with
                | (None, f') => (inr Panic, f', buf')
                | (Some fileName, f') =>
                    readParams ps' (ev ++ [mkField p v (Some fileName)])
                      f' buf'
                end
            | _ => (inr IllTyped, f, buf')
            end
          else readParams ps' (ev ++ [mkField p v None]) f buf'
      end
  end.

(** [ev.Fd] *)
Definition field_Fd (ev : list Field) : option Z :=
  match List.find (λ fld, String.eqb (Name (fparam fld)) "Fd") ev with
  | Some (mkField _ (VInt z) _) => Some z
  | _ => None
  end.

(** One [case "<RawName>":] of the switch. *)
Definition decodeSyscall (sc : Syscall) (f : FdMap) (buf : list byte)
  : outcome * FdMap * list byte :=
  match readParams (Params sc) [] f buf with
  | (inr a, f', buf') => (Aborted a, f', buf')
  | (inl ev, f', buf') =>
      if String.eqb (SName sc) "CloseEvent" then
        match field_Fd ev with
        | Some fdv =>
            (Done (SyscallEvent (SName sc) ev),
             Delete (Conv.uint32 (Pid ce)) (Conv.uint32 fdv) f', buf')
        | None => (Aborted IllTyped, f', buf')
        end
      else (Done (SyscallEvent (SName sc) ev), f', buf')
  end.

(** [case "fd_install":] *)
Definition decodeFdInstall (f : FdMap) (buf : list byte)
  : outcome * FdMap * list byte :=
  if (length buf <? 32)%nat then (Failed, f, [])
  else
    let Fd := le (take 8 buf) in
    let Ino := le (take 8 (drop 8 buf)) in
    let Major := le (take 8 (drop 16 buf)) in
    let Minor := le (take 8 (drop 24 buf)) in
    let name :=
      match Readlink os (Conv.uint32 (Pid ce)) (Conv.uint32 Fd) with
      | Some name => name
      | None => "unknown"
      end in
    let fdInfo := mkFdInfo name Ino Major Minor in
    let f' :=
      if Strings.HasPrefix (Path fdInfo) "/" then
        Put (Conv.uint32 (Pid ce)) (Conv.uint32 Fd) fdInfo f
      else f in
    (Done (FileEvent Fd Ino Major Minor), f', drop 32 buf).

Definition decodeConnectV4 (f : FdMap) (buf : list byte)
  : outcome * FdMap * list byte :=
  let '(b1, buf1) := Next 4 buf in
  let '(b2, buf2) := Next 4 buf1 in
  let '(b3, buf3) := Next 2 buf2 in
  let '(b4, buf4) := Next 2 buf3 in
  let '(b5, buf5) := Next 4 buf4 in
  match LittleEndian_Uint 4 b1, LittleEndian_Uint 4 b2,
        LittleEndian_Uint 2 b3, LittleEndian_Uint 2 b4,
        LittleEndian_Uint 4 b5 with
  | Some s, Some d, Some sp, Some dp, Some ns =>
      (Done (ConnectV4Event s d sp dp ns), f, buf5)
  | _, _, _, _, _ => (Aborted Panic, f, buf5)
  end.

Definition decodeConnectV6 (f : FdMap) (buf : list byte)
  : outcome * FdMap * list byte :=
  let '(b1, buf1) := Next 16 buf in
  let '(b2, buf2) := Next 16 buf1 in
  let '(b3, buf3) := Next 2 buf2 in
  let '(b4, buf4) := Next 2 buf3 in
  let '(b5, buf5) := Next 4 buf4 in
  match LittleEndian_Uint 2 b3, LittleEndian_Uint 2 b4,
        LittleEndian_Uint 4 b5 with
  | Some sp, Some dp, Some ns =>
      (Done (ConnectV6Event (copy_into 16 b1) (copy_into 16 b2) sp dp ns),
       f, buf5)
  | _, _, _ => (Aborted Panic, f, buf5)
  end.

Definition connect_v4_names : list string :=
  ["close_v4"; "accept_v4"; "connect_v4"].
Definition connect_v6_names : list string :=
  ["close_v6"; "accept_v6"; "connect_v6"].

Definition name_in (n : string) (l : list string) : bool :=
  existsb (String.eqb n) l.

(** [GetStruct]: the generated cases in the order of [goSyscalls], then
    the cases of [getStructEpilogue]. *)
Definition GetStruct (goSyscalls : list Syscall) (f : FdMap)
  (buf : list byte) : outcome * FdMap * list byte :=
  match List.find (λ sc, String.eqb (CName ce) (RawName sc)) goSyscalls
  with
  | Some sc => decodeSyscall sc f buf
  | None =>
      if String.eqb (CName ce) "fd_install" then decodeFdInstall f buf
      else if name_in (CName ce) connect_v4_names then
        decodeConnectV4 f buf
      else if name_in (CName ce) connect_v6_names then
        decodeConnectV6 f buf
      else (Done DefaultEvent, f, buf)
  end.

End Decode.

End Tracer.

(** ** Sample inputs *)

Module Samples.

Import Metagenerator Tracer.

Definition tab : string := String (ascii_of_nat 9) "".
Definition nl : string := String Strings.newline "".
Definition dq : string := String (ascii_of_nat 34) "".

(** One line of a tracepoint [format] file. *)
Definition field_line (decl offset size signed : string) : string :=
  tab ++ "field:" ++ decl ++ ";" ++ tab ++ "offset:" ++ offset ++ ";"
  ++ tab ++ "size:" ++ size ++ ";" ++ tab ++ "signed:" ++ signed ++ ";"
  ++ nl.

Definition common_header (event id : string) : string :=
  "name: " ++ event ++ nl ++ "ID: " ++ id ++ nl ++ "format:" ++ nl
  ++ field_line "unsigned short common_type" "0" "2" "0"
  ++ field_line "unsigned char common_flags" "2" "1" "0"
  ++ field_line "unsigned char common_preempt_count" "3" "1" "0"
  ++ field_line "int common_pid" "4" "4" "1"
  ++ nl.

(** [/sys/kernel/debug/tracing/events/syscalls/sys_enter_open/format] *)
Definition open_format : string :=
  common_header "sys_enter_open" "614"
  ++ field_line "int __syscall_nr" "8" "4" "1"
  ++ field_line "const char * filename" "16" "8" "0"
  ++ field_line "int flags" "24" "8" "0"
  ++ field_line "umode_t mode" "32" "8" "0"
  ++ nl
  ++ "print fmt: " ++ dq ++ "filename: 0x%08lx, flags: 0x%08lx, mode: 0x%08lx"
  ++ dq ++ ", "
  ++ "((unsigned long)(REC->filename)), ((unsigned long)(REC->flags)), "
  ++ "((unsigned long)(REC->mode))" ++ nl.

(** A format whose second argument has a kernel type that none of the
    tables lists. *)
Definition odd_format : string :=
  common_header "sys_enter_open" "614"
  ++ field_line "int __syscall_nr" "8" "4" "1"
  ++ field_line "const char * filename" "16" "8" "0"
  ++ field_line "struct open_how * how" "24" "8" "0"
  ++ nl.

(** A tracker that knows descriptor 5 of process 100. *)
Definition tracked_fds : FdMap :=
  Put 100 5 (mkFdInfo "/tmp/a" 42 8 1) NewFdMap.

(** A stand-in for [strconv.Quote] that only adds the quotes. *)
Definition plain_Quote (s : string) : string := dq ++ s ++ dq.

(** An operating system in which every descriptor reads back as
    [/tmp/a] and every path is inode 43 on device 8:1. *)
Definition reused_os : OS :=
  mkOS (λ _ _, Some "/tmp/a") (λ _ _, StatOk 43 2049).

(** The decoder schema of [fchmod(unsigned int fd, umode_t mode)]. *)
Definition FchmodEvent : Syscall :=
  mkSyscall "FchmodEvent" "fchmod"
    [mkParam 0 "Fd" "uint64" "" "" true;
     mkParam 0 "Mode" "uint64" "" "" false].

(** [fd = 5], [mode = 0644], as the probe writes them. *)
Definition fchmod_payload : list byte :=
  [x05; x00; x00; x00; x00; x00; x00; x00;
   xa4; x01; x00; x00; x00; x00; x00; x00].

(** [FileEvent{Fd: 5, Ino: 42, Major: 8, Minor: 1}] *)
Definition fd_install_payload : list byte :=
  [x05; x00; x00; x00; x00; x00; x00; x00;
   x2a; x00; x00; x00; x00; x00; x00; x00;
   x08; x00; x00; x00; x00; x00; x00; x00;
   x01; x00; x00; x00; x00; x00; x00; x00].

(** Entries of a walk of the tracepoint directory. *)
Definition syscalls_dir : string :=
  "/sys/kernel/debug/tracing/events/syscalls/".

Definition root_visit : Visit :=
  mkVisit None syscalls_dir "syscalls" true OpenError.

Definition open_visit (fmt : FormatFile) : Visit :=
  mkVisit None (syscalls_dir ++ "sys_enter_open") "sys_enter_open" true fmt.

Definition close_visit (fmt : FormatFile) : Visit :=
  mkVisit None (syscalls_dir ++ "sys_enter_close") "sys_enter_close" true
    fmt.

End Samples.

(** ** Notions used in the statements *)

Module MetagenNotions.

Import Metagenerator.

(** The three parameters [parseLine] builds from a field of kernel type
    [ty] and name [nm] found at line [idx]. *)
Definition goParam_of (ty nm : string) : Param :=
  let goName := ToCamel nm in
  mkParam 0 goName (index goTypeConversions ty) "" ""
    (String.eqb goName "Fd" || String.eqb goName "Dfd").

Definition cParam_of (idx : Z) (ty nm : string) : Param :=
  let cType := index cTypeConversions ty in
  mkParam (idx - 8) nm cType
    (if String.eqb cType "char" then "[256]" else "") "" false.

Definition protoParam_of (ty nm : string) : Param :=
  mkParam 0 nm
    (index protoTypeConversions (index goTypeConversions ty)) "" "" false.

(** The decoder parameter [gp] and the kernel-record parameter [cp] come
    from the same field line of [lines]. *)
Definition same_argument (lines : list string) (gp cp : Param) : Prop :=
  Name gp = ToCamel (Name cp) /\
  exists (idx : nat) line ty,
    lines !! idx = Some line /\
    line_fields line = Some (ty, Name cp) /\
    Type_ gp = index goTypeConversions ty /\
    Type_ cp = index cTypeConversions ty /\
    Position cp = Z.of_nat idx - 8.

(** The entry is a directory of a traced syscall's entry tracepoint. *)
Definition considered (v : Visit) : bool :=
  negb (String.eqb (path v) "syscalls") && f_IsDir v
  && negb (Strings.HasPrefix (f_Name v) "sys_exit")
  && bool_decide
       (Strings.TrimPrefix (f_Name v) "sys_enter_" ∈ consideredSyscalls).

(** The visits on which the callback returns an error. *)
Definition fatal (v : Visit) : bool :=
  match walk_err v with
  | Some _ => true
  | None =>
      considered v
      && match format v with ReadError _ => true | _ => false end
  end.

End MetagenNotions.

Module TracerNotions.

Import Metagenerator Tracer.

(** The table has [info] for descriptor [fd] of process [pid]. *)
Definition tracked (it : gmap Z (gmap Z FdInfo)) (pid fd : Z)
  (info : FdInfo) : Prop :=
  exists inner, it !! pid = Some inner /\ inner !! fd = Some info.

(** Inode, major and minor of [info] are those of a file with inode
    [ino] on device [dev]. *)
Definition identity_matches (info : FdInfo) (ino dev : Z) : Prop :=
  Ino info = ino /\ Major info = Z.shiftr dev 8
  /\ Minor info = Z.land dev 255.

(** The path annotation of the decoded field [fld] is the right one for
    the table [it] the decode started from: the recorded path when the
    identity matches the stat result, ["unknown"] otherwise. *)
Definition resolved_ok (os : OS) (ce : CommonEvent)
  (it : gmap Z (gmap Z FdInfo)) (fld : Field) : Prop :=
  forall fdv info ino dev,
    NeedsPath (fparam fld) = true ->
    fvalue fld = VInt fdv ->
    tracked it (Conv.uint32 (Pid ce)) (Conv.uint32 fdv) info ->
    Stat os (Pid ce) (Path info) = StatOk ino dev ->
    fpath fld =
    Some (if same_file info ino dev then Path info else "unknown").

(** [n] is the index of the first zero byte of [b], or the length of [b]
    when it has none. *)
Definition first_zero (b : list byte) (n : nat) : Prop :=
  (n <= length b)%nat /\
  (forall (i : nat) x, (i < n)%nat -> b !! i = Some x -> x <> x00) /\
  ((n < length b)%nat -> b !! n = Some x00).

(** The names the epilogue of [GetStruct] has a case for. *)
Definition epilogue_names : list string :=
  "fd_install" :: connect_v4_names ++ connect_v6_names.

(** Every recorded path starts with a slash. *)
Definition all_absolute (it : gmap Z (gmap Z FdInfo)) : Prop :=
  forall pid inner fd info,
    it !! pid = Some inner -> inner !! fd = Some info ->
    Strings.HasPrefix (Path info) "/" = true.

(** What can happen to a tracker: a buffer is decoded, a process exit is
    notified, the table is emptied. *)
Inductive call : Type :=
| Decode (os : OS) (ce : CommonEvent) (buf : list byte)
| ProcessExit (pid : Z)
| Reset.

Definition step (Quote : string -> string) (goSyscalls : list Syscall)
  (f : FdMap) (c : call) : FdMap :=
  match c with
  | Decode os ce buf => (GetStruct Quote os ce goSyscalls f buf).1.2
  | ProcessExit pid => DeletePid pid f
  | Reset => Clear f
  end.

Definition run (Quote : string -> string) (goSyscalls : list Syscall)
  (calls : list call) (f : FdMap) : FdMap :=
  foldl (step Quote goSyscalls) f calls.

End TracerNotions.

(** ** More of the generated decoder: the network helpers *)

Module TracerNet.

Import Tracer.

(** [byte(x)]: the low eight bits. *)
Definition byte_of (x : Z) : Z := x mod 256.

(** [inet_ntoa]:
    [fmt.Sprintf("%d.%d.%d.%d", byte(ip), byte(ip >> 8), byte(ip >> 16),
    byte(ip >> 24))] *)
Definition inet_ntoa (ip : Z) : string :=
  format_int (byte_of ip) ++ "."
  ++ format_int (byte_of (Z.shiftr ip 8)) ++ "."
  ++ format_int (byte_of (Z.shiftr ip 16)) ++ "."
  ++ format_int (byte_of (Z.shiftr ip 24)).

(** A byte as [%d] prints it. *)
Definition dec (b : byte) : string := format_int (Z.of_N (Byte.to_N b)).

End TracerNet.

(** ** Notions used in the further statements *)

Module MetagenMore.

Import Metagenerator MetagenNotions.

(** A letter or a digit. *)
Definition alnum (c : ascii) : bool :=
  in_range 65 90 c || in_range 97 122 c || in_range 48 57 c.

(** Every character of [s] satisfies [p]. *)
Fixpoint all_chars (p : ascii -> bool) (s : string) : bool :=
  match s with
  | EmptyString => true
  | String c s' => p c && all_chars p s'
  end.

(** A row of [goTypeConversions] is matched in the other two tables: its
    kernel type has a kernel-record type, which is [char] exactly when the
    decoder type is the byte buffer, and its decoder type has a wire type,
    which is [bytes] exactly then; none of the three is empty. *)
Definition go_row_ok (kv : string * string) : bool :=
  let '(k, v) := kv in
  negb (String.eqb v "")
  && match cTypeConversions !! k with
     | Some cv =>
         negb (String.eqb cv "")
         && Bool.eqb (String.eqb cv "char") (String.eqb v "[256]byte")
     | None => false
     end
  && match protoTypeConversions !! v with
     | Some pv =>
         negb (String.eqb pv "")
         && Bool.eqb (String.eqb v "[256]byte") (String.eqb pv "bytes")
     | None => false
     end.

(** The kernel type of a row of [cTypeConversions] has a decoder type. *)
Definition c_row_ok (kv : string * string) : bool :=
  let '(k, v) := kv in
  match goTypeConversions !! k with Some _ => true | None => false end.

(** The three lists of a gathering, from the list of triples. *)
Definition unzip3 (l : list (Syscall * Syscall * Syscall)) : Gathered :=
  ((λ r, r.1.1) <$> l, (λ r, r.1.2) <$> l, (λ r, r.2) <$> l).

(** What a visit contributes to the gathered lists: the three variants of
    its syscall when the entry is a traced syscall's directory whose format
    file can be read, nothing otherwise. *)
Definition compiled (v : Visit) : option (Syscall * Syscall * Syscall) :=
  if considered v then
    match format v with
    | Contents formatBytes =>
        match parseSyscall (Strings.TrimPrefix (f_Name v) "sys_enter_")
                formatBytes with
        | inl r => Some r
        | inr _ => None
        end
    | _ => None
    end
  else None.

(** The pattern as [search] runs it, cut before the name group. *)
Definition re_head : list Regexp.inst :=
  Regexp.Mark 0 :: Regexp.Plus Regexp.perl_space ++ Regexp.Lit "field:"
  ++ [Regexp.Mark 2; Regexp.StarLazy Regexp.any_but_nl; Regexp.Mark 3]
  ++ Regexp.Lit " ".

Definition re_tail : list Regexp.inst :=
  [Regexp.Mark 4; Regexp.Class name_char; Regexp.Star name_char;
   Regexp.Mark 5; Regexp.Char ";"; Regexp.Star Regexp.any_but_nl;
   Regexp.Mark 1].

(** A field name as the pattern admits it: one or more of [[a-z_0-9]]. *)
Definition kernel_name (nm : string) : Prop :=
  nm <> "" /\ all_chars name_char nm = true.

(** One compiled field: the index of its line, its kernel type and its
    name. *)
Definition row : Type := (Z * string * string)%type.

Definition go_of_row (r : row) : Param := goParam_of r.1.2 r.2.
Definition c_of_row (r : row) : Param := cParam_of r.1.1 r.1.2 r.2.
Definition proto_of_row (r : row) : Param := protoParam_of r.1.2 r.2.

(** The line at [idx] is a field line that comes after a blank line, and
    the kernel-record parameter [cp] is read off it. *)
Definition follows_blank (lines : list string) (cp : Param) : Prop :=
  exists (b idx : nat) line ty,
    (b < idx)%nat /\ lines !! b = Some "" /\
    lines !! idx = Some line /\
    line_fields line = Some (ty, Name cp) /\
    Position cp = Z.of_nat idx - 8.

End MetagenMore.

Module TracerMore.

Import Metagenerator Tracer.

(** The number of bytes the generated case takes from the buffer for a
    field of decoder type [ty]. *)
Definition width (ty : string) : nat :=
  if String.eqb ty "[256]byte" then 256
  else if String.eqb ty "uint32" || String.eqb ty "int32" then 4
  else if String.eqb ty "uint64" || String.eqb ty "int64" then 8
  else 0.

Definition schema_width (ps : list Param) : nat :=
  foldr (λ p n, (width (Type_ p) + n)%nat) 0%nat ps.

(** The decoder types read with [binary.LittleEndian]. *)
Definition numeric (ty : string) : bool :=
  String.eqb ty "uint32" || String.eqb ty "int32"
  || String.eqb ty "uint64" || String.eqb ty "int64".





(** The decoder types for which both [GetStruct] and [GetArgN] have a
    well-typed case. *)
Definition printable (ty : string) : bool :=
  String.eqb ty "[256]byte" || String.eqb ty "uint64"
  || String.eqb ty "int64" || String.eqb ty "uint32".

(** The value of a field agrees with its decoder type. *)
Definition value_fits (fld : Field) : Prop :=
  match fvalue fld with
  | VBytes b => Type_ (fparam fld) = "[256]byte" /\ length b = 256%nat
  | VInt z => numeric (Type_ (fparam fld)) = true
  | VZero => width (Type_ (fparam fld)) = 0%nat
  end.

(** The value of a field of decoder type [ty] when [rest] is the part of
    the buffer that starts at the field: a byte array holds the next 256
    bytes, or the bytes that are left followed by zero bytes; an integer
    is the next 4 or 8 bytes, least significant first, converted to the
    type of the field; a field of another type has its zero value. *)
Definition value_at (ty : string) (rest : list byte) : Value :=
  if String.eqb ty "[256]byte" then
    VBytes (take 256 rest ++ replicate (256 - length rest) x00)
  else if String.eqb ty "uint32" then VInt (Conv.uint32 (le (take 4 rest)))
  else if String.eqb ty "int32" then VInt (Conv.int32 (le (take 4 rest)))
  else if String.eqb ty "uint64" then VInt (Conv.uint64 (le (take 8 rest)))
  else if String.eqb ty "int64" then VInt (Conv.int64 (le (take 8 rest)))
  else VZero.

(** Field number [i] of [fields] holds what the buffer [buf] has at the
    offset of the field, the sum of the widths of the fields before it. *)
Definition read_from (buf : list byte) (fields : list Field) : Prop :=
  forall (i : nat) fld,
    fields !! i = Some fld ->
    fvalue fld
    = value_at (Type_ (fparam fld))
        (drop (schema_width (take i (fparam <$> fields))) buf).

(** The identity the table [it] records for descriptor [fdv] of the
    process of [ce], if it has one. *)
Definition recorded (ce : CommonEvent) (it : gmap Z (gmap Z FdInfo))
  (fdv : Z) : option FdInfo :=
  it !! Conv.uint32 (Pid ce) ≫= (λ inner, inner !! Conv.uint32 fdv).

(** The path annotation the decoder gives descriptor [fdv]: ["unknown"]
    when the table has no entry, else what the stat of the recorded path
    decides. *)
Definition annotation (Quote : string -> string) (os : OS)
  (ce : CommonEvent) (it : gmap Z (gmap Z FdInfo)) (fdv : Z) : string :=
  match recorded ce it fdv with
  | Some info => fileName_tracked Quote os ce info
  | None => "unknown"
  end.

(** The [<Name>Path] field of [fld] is there exactly for a parameter that
    needs path resolution and holds the annotation of its descriptor. *)
Definition annotated (Quote : string -> string) (os : OS)
  (ce : CommonEvent) (it : gmap Z (gmap Z FdInfo)) (fld : Field) : Prop :=
  if NeedsPath (fparam fld) then
    exists fdv, fvalue fld = VInt fdv /\
                fpath fld = Some (annotation Quote os ce it fdv)
  else fpath fld = None.

(** Inode, major and minor of [info] are all zero. *)
Definition zero_identity (info : FdInfo) : Prop :=
  Ino info = 0 /\ Major info = 0 /\ Minor info = 0.

(** The first parameter named [Fd], the one [ev.Fd] refers to. *)
Definition fd_param (ps : list Param) : option Param :=
  List.find (λ p, String.eqb (Name p) "Fd") ps.

End TracerMore.

Module MoreSamples.

Import Metagenerator Tracer.

(** The decoder schema of [close(unsigned int fd)]. *)
Definition CloseEvent : Syscall :=
  mkSyscall "CloseEvent" "close" [mkParam 0 "Fd" "uint64" "" "" true].

(** [fd = 5] *)
Definition close_payload : list byte :=
  [x05; x00; x00; x00; x00; x00; x00; x00].


(** 10.0.0.1:8080 to 10.0.0.2:443 in namespace 7, as the probe writes
    it. *)
Definition connect_v4_payload : list byte :=
  [x0a; x00; x00; x01;  x0a; x00; x00; x02;
   x90; x1f;  xbb; x01;  x07; x00; x00; x00].

(** An operating system in which descriptors read back as [/tmp/a] and
    that file is inode 42 on device 8:1. *)
Definition steady_os : OS :=
  mkOS (λ _ _, Some "/tmp/a") (λ _ _, StatOk 42 2049).

(** An operating system in which every stat fails with [ENOENT]. *)
Definition gone_os : OS :=
  mkOS (λ _ _, None) (λ _ _, StatErr true).

(** The header of an [fchmod] event of process 100. *)
Definition fchmod_header : CommonEvent := mkCommonEvent 1 100 0 "fchmod".

(** What [fchmod_payload] decodes to when descriptor 5 resolves to
    [path]. *)
Definition fchmod_fields (path : string) : list Field :=
  [mkField (mkParam 0 "Fd" "uint64" "" "" true) (VInt 5) (Some path);
   mkField (mkParam 0 "Mode" "uint64" "" "" false) (VInt 420) None].

(** The three variants [open] compiles to. *)
Definition open_go : Syscall :=
  mkSyscall "OpenEvent" "open"
    [mkParam 0 "Filename" "[256]byte" "" "" false;
     mkParam 0 "Flags" "int64" "" "" false;
     mkParam 0 "Mode" "uint64" "" "" false].

Definition open_c : Syscall :=
  mkSyscall "open" "open"
    [mkParam 1 "filename" "char" "[256]" "" false;
     mkParam 2 "flags" "s64" "" "" false;
     mkParam 3 "mode" "u64" "" "" false].

Definition open_proto : Syscall :=
  mkSyscall "ProtobufOpenEvent" "open"
    [mkParam 0 "filename" "bytes" "" "" false;
     mkParam 0 "flags" "int64" "" "" false;
     mkParam 0 "mode" "uint64" "" "" false].

(** A walk that meets the directory itself, a file, an exit tracepoint, a
    syscall off the allow-list, and the entry tracepoints of [open] and
    [close], the second without a format file. *)
Definition sample_walk : list Visit :=
  [Samples.root_visit;
   mkVisit None (Samples.syscalls_dir ++ "enable") "enable" false OpenError;
   mkVisit None (Samples.syscalls_dir ++ "sys_exit_open") "sys_exit_open"
     true (Contents Samples.open_format);
   mkVisit None (Samples.syscalls_dir ++ "sys_enter_execve")
     "sys_enter_execve" true (Contents Samples.open_format);
   Samples.open_visit (Contents Samples.open_format);
   Samples.close_visit OpenError].

End MoreSamples.

(** * The embedding on concrete inputs *)

Module Checks.

Import Metagenerator Tracer Samples MoreSamples.

Example ToCamel_words :
  ToCamel "  foo_bar baz9_x " = "FooBarBaz9X" /\ ToCamel "dfd" = "Dfd"
  /\ ToCamel "__syscall_nr" = "SyscallNr".
Proof. repeat split. Qed.

Example Split_lines_keeps_empty_pieces :
  Strings.Split_lines ("a" ++ nl ++ nl ++ "b" ++ nl) = ["a"; ""; "b"; ""]
  /\ Strings.Split_lines "" = [""].
Proof. split; reflexivity. Qed.

(** The type group is lazy but must leave a name before the semicolon. *)
Example re_type_with_spaces :
  Regexp.FindStringSubmatch re 2 ("x " ++ tab ++ "field:a b c; field:d e;")
  = Some [" " ++ tab ++ "field:a b c; field:d e;"; "a b"; "c"].
Proof. vm_compute. reflexivity. Qed.

Example re_needs_leading_space :
  Regexp.FindStringSubmatch re 2 "field:int fd;" = None
  /\ Regexp.FindStringSubmatch re 2 (tab ++ "field:int Fd;") = None.
Proof. split; vm_compute; reflexivity. Qed.

Example parseLine_descriptor :
  parseLine (field_line "unsigned int fd" "16" "8" "0") 9
  = (Some (mkParam 0 "Fd" "uint64" "" "" true),
     Some (mkParam 1 "fd" "u64" "" "" false),
     Some (mkParam 0 "fd" "uint64" "" "" false), None).
Proof. vm_compute. reflexivity. Qed.

Example parseLine_syscall_nr :
  parseLine (field_line "int __syscall_nr" "8" "4" "1") 8
  = (None, None, None, None).
Proof. vm_compute. reflexivity. Qed.

(** A tracked descriptor whose path is gone is reported as deleted. *)
Example GetStruct_deleted_path :
  (GetStruct plain_Quote (mkOS (λ _ _, None) (λ _ _, StatErr true))
     (mkCommonEvent 1 100 0 "fchmod") [FchmodEvent] tracked_fds
     fchmod_payload).1.1
  = Done (SyscallEvent "FchmodEvent"
            [mkField (mkParam 0 "Fd" "uint64" "" "" true) (VInt 5)
               (Some ("[deleted] (" ++ dq ++ "/tmp/a" ++ dq ++ ")?"));
             mkField (mkParam 0 "Mode" "uint64" "" "" false) (VInt 420)
               None]).
Proof. vm_compute. reflexivity. Qed.

(** A payload shorter than the schema makes the generated case panic. *)
Example GetStruct_short_payload :
  (GetStruct plain_Quote reused_os (mkCommonEvent 1 100 0 "fchmod")
     [FchmodEvent] tracked_fds [x01; x02]).1.1
  = Aborted Panic.
Proof. vm_compute. reflexivity. Qed.

(** A socket is not recorded. *)
Example GetStruct_fd_install_socket :
  (GetStruct plain_Quote
     (mkOS (λ _ _, Some "socket:[123]") (λ _ _, StatOk 42 2049))
     (mkCommonEvent 1 100 0 "fd_install") [FchmodEvent] NewFdMap
     fd_install_payload).1
  = (Done (FileEvent 5 42 8 1), NewFdMap).
Proof. vm_compute. reflexivity. Qed.

(** [C.GoStringN] copies the length it is given, zero bytes included, and
    the array does not bound that length. *)
Example GoStringN_lengths :
  GoStringN [x2f; x61; x00; x62] 3
  = Some (string_of_list_byte [x2f; x61; x00])
  /\ GoStringN [x2f; x61] 3 = None /\ GoStringN [x2f; x61] (-1) = None.
Proof. repeat split. Qed.

(** A byte buffer at the end of a short payload is filled up with zero
    bytes. *)
Example GetStruct_short_buffer_field :
  (GetStruct plain_Quote reused_os (mkCommonEvent 1 100 0 "chdir")
     [mkSyscall "ChdirEvent" "chdir"
        [mkParam 0 "Filename" "[256]byte" "" "" false]]
     tracked_fds [x2f; x61]).1.1
  = Done (SyscallEvent "ChdirEvent"
            [mkField (mkParam 0 "Filename" "[256]byte" "" "" false)
               (VBytes ([x2f; x61] ++ replicate 254 x00)) None]).
Proof. vm_compute. reflexivity. Qed.

(** The case of a schema with two descriptors to resolve does not
    build. *)
Example GetStruct_two_descriptors :
  (GetStruct plain_Quote reused_os (mkCommonEvent 1 100 0 "linkat")
     [mkSyscall "LinkatEvent" "linkat"
        [mkParam 0 "Fd" "uint64" "" "" true;
         mkParam 0 "Dfd" "uint64" "" "" true]]
     tracked_fds (fchmod_payload ++ fchmod_payload)).1.1
  = Aborted IllTyped.
Proof. vm_compute. reflexivity. Qed.

(** A read that returned two bytes prints two bytes of its buffer, and
    its descriptor with the resolved path. *)
Example String_read_event :
  String_ plain_Quote (λ _ _, "") "ReadEvent"
    [mkField (mkParam 0 "Fd" "uint64" "" "" true) (VInt 5)
       (Some "/tmp/a");
     mkField (mkParam 0 "Buf" "[256]byte" "" "" false)
       (VBytes ([x68; x69; x21] ++ replicate 253 x00)) None;
     mkField (mkParam 0 "Count" "int64" "" "" false) (VInt 256) None] 2
  = Str ("Fd 5</tmp/a> Buf " ++ dq ++ "hi" ++ dq ++ " Count 256 ").
Proof. vm_compute. reflexivity. Qed.

(** Two parameters named for buffers declare [bufferGo] twice. *)
Example String_two_buffers :
  String_ plain_Quote (λ _ _, "") "RenameEvent"
    [mkField (mkParam 0 "Filename" "[256]byte" "" "" false)
       (VBytes (replicate 256 x00)) None;
     mkField (mkParam 0 "Pathname" "[256]byte" "" "" false)
       (VBytes (replicate 256 x00)) None] 0
  = StrIllTyped.
Proof. vm_compute. reflexivity. Qed.

End Checks.

(** * Properties of the schema compiler *)

Module MetagenProps.

Import Metagenerator Samples MetagenNotions.

Lemma FindStringSubmatch_groups l res :
  Regexp.FindStringSubmatch re 2 l = Some res ->
  exists whole ty nm, res = [whole; ty; nm].
Proof.
  unfold Regexp.FindStringSubmatch.
  destruct (Regexp.search re l 0) as [[e m]|]; [|discriminate].
  intros [= <-]. simpl. eauto.
Qed.

Lemma fill_groups whole ty nm :
  let mp := fill re_SubexpNames [whole; ty; nm] ∅ in
  mp !! "type" = Some ty /\ mp !! "name" = Some nm.
Proof.
  simpl. split.
  - rewrite lookup_insert_ne by discriminate. apply lookup_insert_eq.
  - apply lookup_insert_eq.
Qed.

(** [parseLine] by cases on what the pattern finds. *)
Lemma parseLine_cases l idx :
  parseLine l idx =
  match line_fields l with
  | None => (None, None, None, None)
  | Some (ty, nm) =>
      if String.eqb nm "__syscall_nr" then (None, None, None, None)
      else (Some (goParam_of ty nm), Some (cParam_of idx ty nm),
            Some (protoParam_of ty nm), None)
  end.
Proof.
  unfold parseLine, line_fields.
  destruct (Regexp.FindStringSubmatch re 2 l) as [res|] eqn:Hres;
    [|reflexivity].
  destruct (FindStringSubmatch_groups _ _ Hres) as (whole & ty & nm & ->).
  destruct (fill_groups whole ty nm) as [Hty Hnm].
  cbv zeta in Hty, Hnm. cbv zeta.
  set (mp := fill re_SubexpNames [whole; ty; nm] ∅) in *.
  assert (Ety : index mp "type" = ty)
    by (unfold index; rewrite Hty; reflexivity).
  assert (Enm : index mp "name" = nm)
    by (unfold index; rewrite Hnm; reflexivity).
  rewrite Hty, Hnm, Ety, Enm.
  unfold goParam_of, cParam_of, protoParam_of. reflexivity.
Qed.

Lemma parseLine_no_error l idx : (parseLine l idx).2 = None.
Proof.
  rewrite parseLine_cases.
  destruct (line_fields l) as [[ty nm]|]; [|done].
  by destruct (String.eqb nm "__syscall_nr").
Qed.

Lemma parseSyscall_loop_total lines :
  forall idx skipped G C P,
    exists r, parseSyscall_loop lines idx skipped G C P = inl r.
Proof.
  induction lines as [|line rest IH]; intros idx skipped G C P; simpl.
  - eauto.
  - destruct (negb skipped && negb (String.length line =? 0)%nat).
    + apply IH.
    + pose proof (parseLine_no_error line idx) as He.
      destruct (parseLine line idx) as [[[gp cp] pp] e].
      simpl in He. subst e. apply IH.
Qed.

Lemma parseSyscall_total name format :
  exists r, parseSyscall name format = inl r.
Proof.
  unfold parseSyscall.
  destruct (parseSyscall_loop_total (Strings.Split_lines format)
              0 false [] [] []) as [[[G C] P] ->].
  eauto.
Qed.

(** *** Unmapped kernel types *)

(** C1, as the code has it: the compiler has no failure path for a kernel
    type that a table does not list.  [parseLine] returns a nil error on
    every line and [parseSyscall] succeeds on every format text; a field
    line other than the syscall number always yields its three
    parameters, and a parameter whose type is looked up under a key the
    table lacks gets the empty string as its type. *)
Theorem C1_unmapped_type_not_rejected :
  (forall l idx, (parseLine l idx).2 = None) /\
  (forall name format, exists r, parseSyscall name format = inl r) /\
  (forall l idx ty nm,
      line_fields l = Some (ty, nm) ->
      nm <> "__syscall_nr" ->
      exists g c p,
        parseLine l idx = (Some g, Some c, Some p, None) /\
        (goTypeConversions !! ty = None -> Type_ g = "") /\
        (cTypeConversions !! ty = None -> Type_ c = "") /\
        (protoTypeConversions !! Type_ g = None -> Type_ p = "")).
Proof.
  split; [exact parseLine_no_error|].
  split; [exact parseSyscall_total|].
  intros l idx ty nm Hf Hnm.
  exists (goParam_of ty nm), (cParam_of idx ty nm), (protoParam_of ty nm).
  split.
  - rewrite parseLine_cases, Hf.
    destruct (String.eqb_spec nm "__syscall_nr"); [contradiction|done].
  - unfold goParam_of, cParam_of, protoParam_of, index; cbn [Type_].
    repeat split; intros ->; reflexivity.
Qed.

Lemma C1_unmapped_type_witness :
  exists g c p,
    parseLine (field_line "struct open_how * how" "24" "8" "0") 10
    = (Some g, Some c, Some p, None)
    /\ Type_ g = "" /\ Type_ c = "" /\ Type_ p = "".
Proof.
  destruct C1_unmapped_type_not_rejected as (_ & _ & H).
  destruct (H (field_line "struct open_how * how" "24" "8" "0") 10
              "struct open_how *" "how") as (g & c & p & Hp & Hg & Hc & Hq).
  - vm_compute; reflexivity.
  - discriminate.
  - exists g, c, p. split; [exact Hp|].
    assert (Eg : Type_ g = "") by (apply Hg; vm_compute; reflexivity).
    split; [exact Eg|]. split.
    + apply Hc; vm_compute; reflexivity.
    + apply Hq. rewrite Eg. vm_compute; reflexivity.
Defined.

(** C1 fails as stated: ["struct open_how *"] is in no table, and compiling
    a format that declares an argument of that type succeeds, with the
    empty string as the type of that parameter in all three variants. *)
Lemma C1_counterexample :
  goTypeConversions !! "struct open_how *" = None /\
  cTypeConversions !! "struct open_how *" = None /\
  parseSyscall "open" odd_format =
  inl (mkSyscall "OpenEvent" "open"
         [mkParam 0 "Filename" "[256]byte" "" "" false;
          mkParam 0 "How" "" "" "" false],
       mkSyscall "open" "open"
         [mkParam 1 "filename" "char" "[256]" "" false;
          mkParam 2 "how" "" "" "" false],
       mkSyscall "ProtobufOpenEvent" "open"
         [mkParam 0 "filename" "bytes" "" "" false;
          mkParam 0 "how" "" "" "" false]).
Proof. vm_compute. repeat split. Qed.

(** *** The [open] scenario *)

(** C7: compiling [open] from its format text gives the decoder schema
    [Filename [256]byte], [Flags int64], [Mode uint64], in that order, and
    none of them needs path resolution. *)
Theorem C7_open_decoder_schema :
  exists cSyscall protoSyscall,
    parseSyscall "open" open_format =
    inl (mkSyscall "OpenEvent" "open"
           [mkParam 0 "Filename" "[256]byte" "" "" false;
            mkParam 0 "Flags" "int64" "" "" false;
            mkParam 0 "Mode" "uint64" "" "" false],
         cSyscall, protoSyscall)
    /\ line_fields (field_line "const char * filename" "16" "8" "0")
       = Some ("const char *", "filename")
    /\ line_fields (field_line "int flags" "24" "8" "0")
       = Some ("int", "flags")
    /\ line_fields (field_line "umode_t mode" "32" "8" "0")
       = Some ("umode_t", "mode").
Proof.
  eexists _, _. vm_compute. repeat split.
Qed.

(** *** Alignment of the variants *)

Lemma same_argument_parseLine lines (idx : nat) line gp cp pp e :
  lines !! idx = Some line ->
  parseLine line (Z.of_nat idx) = (Some gp, Some cp, pp, e) ->
  same_argument lines gp cp.
Proof.
  intros Hl. rewrite parseLine_cases.
  destruct (line_fields line) as [[ty nm]|] eqn:Hf; [|discriminate].
  destruct (String.eqb nm "__syscall_nr"); [discriminate|].
  intros [= <- <- _ _]. split; [reflexivity|].
  exists idx, line, ty. simpl. by rewrite Hf.
Qed.

Lemma parseLine_both line idx :
  match parseLine line idx with
  | (Some _, Some _, _, _) | (None, None, _, _) => True
  | _ => False
  end.
Proof.
  rewrite parseLine_cases.
  destruct (line_fields line) as [[ty nm]|]; [|done].
  by destruct (String.eqb nm "__syscall_nr").
Qed.

Lemma parseSyscall_loop_aligned rest :
  forall pre skipped G C P G' C' P',
    Forall2 (same_argument (pre ++ rest)) G C ->
    parseSyscall_loop rest (Z.of_nat (length pre)) skipped G C P
    = inl (G', C', P') ->
    Forall2 (same_argument (pre ++ rest)) G' C'.
Proof.
  induction rest as [|line rest IH]; intros pre skipped G C P G' C' P' HF;
    simpl.
  - by intros [= <- <- _].
  - assert (Hnext : Z.of_nat (length pre) + 1
                    = Z.of_nat (length (pre ++ [line])%list))
      by (rewrite length_app; simpl; lia).
    assert (Hlines : (pre ++ line :: rest = (pre ++ [line]) ++ rest)%list)
      by (by rewrite <- app_assoc).
    destruct (negb skipped && negb (String.length line =? 0)%nat).
    + rewrite Hnext, Hlines. apply IH. by rewrite <- Hlines.
    + pose proof (parseLine_both line (Z.of_nat (length pre))) as Hb.
      destruct (parseLine line (Z.of_nat (length pre)))
        as [[[gp cp] pp] e] eqn:Hp.
      destruct e; [discriminate|].
      rewrite Hnext, Hlines. apply IH. rewrite <- Hlines.
      destruct gp as [gp|], cp as [cp|]; try contradiction; simpl;
        [|done].
      apply Forall2_app; [done|]. constructor; [|constructor].
      eapply same_argument_parseLine; [|exact Hp].
      rewrite lookup_app_r by lia. by rewrite Nat.sub_diag.
Qed.

(** C3, as the code has it: the decoder and kernel-record variants of a
    compiled syscall have the same number of parameters, and at every
    index the two parameters come from the same field line, hence the
    same kernel argument; the kernel-record name is the field's name as
    the kernel spells it and the decoder name is the [ToCamel] form of
    that name, so the two names are equal only where [ToCamel] leaves the
    name as it is. *)
Theorem C3_variants_aligned name format g c p :
  parseSyscall name format = inl (g, c, p) ->
  length (Params g) = length (Params c) /\
  forall (N : nat) gp cp,
    Params g !! N = Some gp ->
    Params c !! N = Some cp ->
    same_argument (Strings.Split_lines format) gp cp.
Proof.
  unfold parseSyscall.
  destruct (parseSyscall_loop (Strings.Split_lines format) 0 false
              [] [] []) as [[[G C] P]|] eqn:Hloop; [|discriminate].
  intros [= <- <- <-]. simpl.
  assert (HF : Forall2 (same_argument (Strings.Split_lines format)) G C).
  { apply (parseSyscall_loop_aligned _ [] false [] [] [] G C P);
      [constructor|exact Hloop]. }
  split.
  - eapply Forall2_length, HF.
  - intros N gp cp Hg Hc. eapply Forall2_lookup_lr; eauto.
Qed.

Lemma C3_variants_aligned_witness :
  length [mkParam 0 "Filename" "[256]byte" "" "" false;
          mkParam 0 "Flags" "int64" "" "" false;
          mkParam 0 "Mode" "uint64" "" "" false] = 3%nat /\
  same_argument (Strings.Split_lines open_format)
    (mkParam 0 "Flags" "int64" "" "" false)
    (mkParam 2 "flags" "s64" "" "" false).
Proof.
  destruct (C3_variants_aligned "open" open_format
              (mkSyscall "OpenEvent" "open"
                 [mkParam 0 "Filename" "[256]byte" "" "" false;
                  mkParam 0 "Flags" "int64" "" "" false;
                  mkParam 0 "Mode" "uint64" "" "" false])
              (mkSyscall "open" "open"
                 [mkParam 1 "filename" "char" "[256]" "" false;
                  mkParam 2 "flags" "s64" "" "" false;
                  mkParam 3 "mode" "u64" "" "" false])
              (mkSyscall "ProtobufOpenEvent" "open"
                 [mkParam 0 "filename" "bytes" "" "" false;
                  mkParam 0 "flags" "int64" "" "" false;
                  mkParam 0 "mode" "uint64" "" "" false]))
    as [_ H].
  - vm_compute; reflexivity.
  - split; [reflexivity|]. apply (H 1%nat); reflexivity.
Defined.

(** C3 fails as stated: for [open], the names of the decoder variant and
    of the kernel-record variant differ at every index. *)
Lemma C3_counterexample :
  exists g c p,
    parseSyscall "open" open_format = inl (g, c, p) /\
    Name <$> Params g = ["Filename"; "Flags"; "Mode"] /\
    Name <$> Params c = ["filename"; "flags"; "mode"] /\
    ~ (forall (N : nat) gp cp,
          Params g !! N = Some gp -> Params c !! N = Some cp ->
          Name gp = Name cp).
Proof.
  destruct (parseSyscall "open" open_format) as [[[g c] p]|] eqn:E;
    vm_compute in E; [|discriminate].
  injection E as <- <- <-.
  eexists _, _, _. split; [reflexivity|].
  split; [reflexivity|]. split; [reflexivity|].
  intros H. specialize (H 0%nat _ _ eq_refl eq_refl). discriminate.
Qed.

(** *** Walking the tracepoint directory *)

Lemma walkFn_error_iff v acc :
  (walkFn v acc).2 <> None <-> fatal v = true.
Proof.
  unfold walkFn, fatal, considered.
  destruct acc as [[G C] P].
  destruct (walk_err v); [simpl; split; [done|discriminate]|].
  destruct (String.eqb (path v) "syscalls"); [simpl; split; done|].
  destruct (f_IsDir v); [|simpl; split; done].
  destruct (Strings.HasPrefix (f_Name v) "sys_exit");
    [simpl; split; done|].
  destruct (bool_decide _); [|simpl; split; done].
  destruct (format v) as [|e|formatBytes]; simpl.
  - split; done.
  - split; [done|discriminate].
  - destruct (parseSyscall_total
                (Strings.TrimPrefix (f_Name v) "sys_enter_") formatBytes)
      as [[[g c] p] ->].
    simpl; split; done.
Qed.

Lemma walkFn_skips v acc :
  walk_err v = None -> format v = OpenError -> walkFn v acc = (acc, None).
Proof.
  intros Hw Hf. unfold walkFn. destruct acc as [[G C] P].
  rewrite Hw, Hf.
  repeat match goal with |- context [if ?b then _ else _] =>
                           destruct b end; reflexivity.
Qed.

Lemma Walk_app pre post acc :
  Walk (pre ++ post) acc =
  match Walk pre acc with
  | (acc', None) => Walk post acc'
  | r => r
  end.
Proof.
  revert acc. induction pre as [|v pre IH]; intros acc; simpl; [done|].
  destruct (walkFn v acc) as [acc' [e|]]; [done|apply IH].
Qed.

Lemma Walk_error_iff visits :
  forall acc,
    (Walk visits acc).2 <> None <-> Exists (λ v, fatal v = true) visits.
Proof.
  induction visits as [|v rest IH]; intros acc; simpl.
  - rewrite Exists_nil. split; done.
  - rewrite Exists_cons, <- (walkFn_error_iff v acc).
    destruct (walkFn v acc) as [acc' [e|]] eqn:E; simpl.
    + split; [by left|done].
    + rewrite IH. split; [by right|]. by intros [?|?].
Qed.

(** C6, as the code has it: an entry whose [format] file cannot be opened
    is skipped, the result is what it would be without the entry.  An error
    that [filepath.Walk] reports for an entry, and a failure to read the
    opened [format] file of a traced syscall, are both returned as errors,
    and these are the only failures: nothing fails on a missing table
    entry. *)
Theorem C6_gather_failures :
  (forall pre v post,
      walk_err v = None -> format v = OpenError ->
      GatherSyscalls (pre ++ v :: post) = GatherSyscalls (pre ++ post)) /\
  (forall visits,
      (exists e, GatherSyscalls visits = inr e)
      <-> Exists (λ v, fatal v = true) visits).
Proof.
  split.
  - intros pre v post Hw Hf. unfold GatherSyscalls.
    rewrite !Walk_app.
    destruct (Walk pre ([], [], [])) as [acc [e|]]; [done|].
    simpl. by rewrite (walkFn_skips v acc Hw Hf).
  - intros visits. rewrite <- (Walk_error_iff visits ([], [], [])).
    unfold GatherSyscalls.
    destruct (Walk visits ([], [], [])) as [acc [e|]]; simpl.
    + split; [done|eauto].
    + split; [by intros [? ?]|done].
Qed.

Lemma C6_gather_failures_witness :
  GatherSyscalls ([root_visit] ++ close_visit OpenError
                    :: [open_visit (Contents open_format)])
  = GatherSyscalls ([root_visit] ++ [open_visit (Contents open_format)]).
Proof.
  apply (proj1 C6_gather_failures); reflexivity.
Defined.

(** C6 fails as stated: a [format] file that opens but cannot be read
    makes the whole compilation fail, and so does a tracepoint directory
    that [filepath.Walk] cannot read; and a format with an unmapped kernel
    type does not make it fail. *)
Lemma C6_counterexample :
  GatherSyscalls [root_visit; open_visit (ReadError (OSError "EIO"))]
  = inr (Errorf "error walking %q: %v" (OSError "EIO")) /\
  GatherSyscalls
    [mkVisit (Some (OSError "ENOENT")) syscalls_dir "" false OpenError]
  = inr (Errorf "error walking %q: %v" (OSError "ENOENT")) /\
  exists r, GatherSyscalls [root_visit; open_visit (Contents odd_format)]
            = inl r.
Proof.
  split; [vm_compute; reflexivity|]. split; [vm_compute; reflexivity|].
  eexists. vm_compute. reflexivity.
Qed.

End MetagenProps.

(** * Properties of the generated decoder *)

Module TracerProps.

Import Metagenerator Tracer TracerNotions.

(** *** The descriptor table *)

Lemma lookup_fd_items pid fd f :
  lookup_fd pid fd f =
  match items f !! pid with
  | None => (None, false)
  | Some inner =>
      (Some (default zeroFdInfo (inner !! fd)),
       bool_decide (is_Some (inner !! fd)))
  end.
Proof.
  unfold lookup_fd, Get.
  destruct (items f !! pid) as [inner|]; [|reflexivity].
  cbn [mbind option_bind]. unfold load. cbn [cells]. f_equal.
  rewrite lookup_app_r by lia. by rewrite Nat.sub_diag.
Qed.

Lemma Get_items pid fd f : items (Get pid fd f).2 = items f.
Proof. unfold Get. by destruct (items f !! pid). Qed.

Lemma lookup_fd_Put pid fd info f :
  lookup_fd pid fd (Put pid fd info f) = (Some info, true).
Proof.
  rewrite lookup_fd_items. unfold Put. cbn [items].
  rewrite !lookup_insert_eq. cbn [default].
  rewrite bool_decide_eq_true_2; eauto.
Qed.

(** C5: [Put] then [Get] gives the stored info and [true]; [Delete] then
    [Get] gives [false]; after [DeletePid] every [Get] for that process
    gives [false], and the entries of every other process are as
    before. *)
Theorem C5_tracker_operations pid fd info f :
  lookup_fd pid fd (Put pid fd info f) = (Some info, true) /\
  (lookup_fd pid fd (Delete pid fd f)).2 = false /\
  (forall fd', lookup_fd pid fd' (DeletePid pid f) = (None, false)) /\
  (forall pid', pid' <> pid ->
      items (DeletePid pid f) !! pid' = items f !! pid' /\
      forall fd', lookup_fd pid' fd' (DeletePid pid f)
                  = lookup_fd pid' fd' f).
Proof.
  repeat split.
  - apply lookup_fd_Put.
  - rewrite lookup_fd_items. unfold Delete.
    destruct (items f !! pid) as [m|] eqn:E; cbn [items].
    + rewrite lookup_insert_eq, lookup_delete_eq. cbn [snd].
      apply bool_decide_eq_false_2. by intros [? ?].
    + by rewrite E.
  - intros fd'. rewrite lookup_fd_items. unfold DeletePid. cbn [items].
    by rewrite lookup_delete_eq.
  - unfold DeletePid. cbn [items]. by rewrite lookup_delete_ne.
  - intros fd'. rewrite !lookup_fd_items. unfold DeletePid. cbn [items].
    by rewrite lookup_delete_ne.
Qed.

Lemma C5_tracker_operations_witness :
  lookup_fd 7 3 (DeletePid 100 (Put 7 3 (mkFdInfo "/etc/passwd" 11 8 1)
                                  (Put 100 5 (mkFdInfo "/tmp/a" 42 8 1)
                                     NewFdMap)))
  = (Some (mkFdInfo "/etc/passwd" 11 8 1), true).
Proof.
  destruct (C5_tracker_operations 100 5 (mkFdInfo "/tmp/a" 42 8 1)
              (Put 7 3 (mkFdInfo "/etc/passwd" 11 8 1)
                 (Put 100 5 (mkFdInfo "/tmp/a" 42 8 1) NewFdMap)))
    as (_ & _ & _ & H).
  destruct (H 7) as [_ H7]; [lia|].
  rewrite H7. vm_compute. reflexivity.
Defined.

(** C10: [Get] does not change the table, and what it returns points to a
    variable of its own: a write through the pointer reaches that variable
    and leaves the table, and hence every later [Get], as it was. *)
Theorem C10_Get_returns_copy pid fd f :
  items (Get pid fd f).2 = items f /\
  forall a v,
    (Get pid fd f).1.1 = Some a ->
    let f' := (Get pid fd f).2 in
    (exists inner, items f !! pid = Some inner /\
                   load a f' = Some (default zeroFdInfo (inner !! fd))) /\
    load a (store a v f') = Some v /\
    items (store a v f') = items f /\
    forall pid' fd',
      lookup_fd pid' fd' (store a v f') = lookup_fd pid' fd' f.
Proof.
  split; [apply Get_items|].
  intros a v. unfold Get.
  destruct (items f !! pid) as [inner|] eqn:E; [|discriminate].
  cbn [fst snd]. intros [= <-]. cbv zeta.
  assert (Hlen : (length (cells f) <
                  length (cells f ++ [default zeroFdInfo (inner !! fd)]))%nat)
    by (rewrite length_app; simpl; lia).
  repeat split.
  - exists inner. split; [reflexivity|].
    unfold load. cbn [cells].
    rewrite lookup_app_r by lia. by rewrite Nat.sub_diag.
  - unfold load, store. cbn [cells].
    by apply list_lookup_insert_eq.
  - intros pid' fd'. by rewrite !lookup_fd_items.
Qed.

Lemma C10_Get_returns_copy_witness :
  lookup_fd 100 5
    (store 0%nat (mkFdInfo "/tmp/b" 1 2 3) (Get 100 5 Samples.tracked_fds).2)
  = (Some (mkFdInfo "/tmp/a" 42 8 1), true).
Proof.
  destruct (C10_Get_returns_copy 100 5 Samples.tracked_fds) as [_ H].
  destruct (H 0%nat (mkFdInfo "/tmp/b" 1 2 3)) as (_ & _ & _ & H');
    [reflexivity|].
  rewrite H'. vm_compute. reflexivity.
Defined.

(** *** Path resolution *)

Section Resolution.

Variable Quote : string -> string.
Variable os : OS.
Variable ce : CommonEvent.

Lemma same_file_iff info ino dev :
  same_file info ino dev = true <-> identity_matches info ino dev.
Proof.
  unfold same_file, identity_matches.
  rewrite !andb_true_iff, !Z.eqb_eq. tauto.
Qed.

Lemma fileName_tracked_stat_ok info ino dev :
  Stat os (Pid ce) (Path info) = StatOk ino dev ->
  fileName_tracked Quote os ce info =
  if same_file info ino dev then Path info else "unknown".
Proof. unfold fileName_tracked. by intros ->. Qed.

Lemma resolvePath_items fdv f :
  items (resolvePath Quote os ce fdv f).2 = items f.
Proof.
  unfold resolvePath.
  pose proof (Get_items (Conv.uint32 (Pid ce)) (Conv.uint32 fdv) f) as H.
  destruct (Get _ _ f) as [[info ok] f']. cbn [snd] in H.
  by destruct ok.
Qed.

Lemma resolvePath_tracked fdv f info :
  tracked (items f) (Conv.uint32 (Pid ce)) (Conv.uint32 fdv) info ->
  (resolvePath Quote os ce fdv f).1
  = Some (fileName_tracked Quote os ce info).
Proof.
  intros (inner & Hpid & Hfd).
  pose proof (lookup_fd_items (Conv.uint32 (Pid ce)) (Conv.uint32 fdv) f)
    as H.
  unfold lookup_fd in H. unfold resolvePath.
  destruct (Get _ _ f) as [[p ok] f'].
  rewrite Hpid, Hfd in H. cbn [default] in H.
  rewrite bool_decide_eq_true_2 in H by eauto.
  injection H as Hp ->. cbn [fst]. by rewrite Hp.
Qed.

Lemma readParams_resolved ps :
  forall ev f buf ev' f' buf',
    Forall (resolved_ok os ce (items f)) ev ->
    readParams Quote os ce ps ev f buf = (inl ev', f', buf') ->
    items f' = items f /\ Forall (resolved_ok os ce (items f)) ev'.
Proof.
  induction ps as [|p ps IH]; intros ev f buf ev' f' buf' Hev;
    cbn [readParams].
  - by intros [= <- <- _].
  - destruct (String.eqb (Type_ p) ""); [discriminate|].
    destruct (readField (Type_ p) buf) as [[v|] buf1]; [|discriminate].
    destruct (NeedsPath p) eqn:Hneeds.
    + destruct (declared_fileName ev); [discriminate|].
      destruct v as [b|fdv|]; try discriminate.
      pose proof (resolvePath_items fdv f) as Hit.
      pose proof (resolvePath_tracked fdv f) as Htr.
      destruct (resolvePath Quote os ce fdv f) as [[fileName|] f1];
        [|discriminate].
      cbn [fst snd] in Hit, Htr.
      intros Hrun. apply IH in Hrun.
      * rewrite Hit in Hrun. destruct Hrun as [-> Hall]. done.
      * rewrite Hit. apply Forall_app. split; [done|].
        constructor; [|constructor].
        intros fdv' info ino dev _ Hv Htracked Hstat.
        cbn [fvalue] in Hv. injection Hv as <-.
        cbn [fpath]. rewrite (Htr info Htracked).
        by rewrite (fileName_tracked_stat_ok info ino dev Hstat).
    + intros Hrun. apply IH in Hrun; [done|].
      apply Forall_app. split; [done|].
      constructor; [|constructor].
      intros fdv info ino dev Hn. cbn [fparam] in Hn. congruence.
Qed.

(** C2: in a decoded syscall event, a descriptor field whose descriptor
    the table tracks, and whose recorded path can be stat-ed, carries the
    recorded path when inode, major and minor all match and
    ["unknown"] when one of them differs. *)
Theorem C2_stale_descriptor_is_unknown
  goSyscalls f buf name fields f' buf' :
  GetStruct Quote os ce goSyscalls f buf
  = (Done (SyscallEvent name fields), f', buf') ->
  forall (i : nat) fld fdv info ino dev,
    fields !! i = Some fld ->
    NeedsPath (fparam fld) = true ->
    fvalue fld = VInt fdv ->
    tracked (items f) (Conv.uint32 (Pid ce)) (Conv.uint32 fdv) info ->
    Stat os (Pid ce) (Path info) = StatOk ino dev ->
    (identity_matches info ino dev -> fpath fld = Some (Path info)) /\
    (~ identity_matches info ino dev -> fpath fld = Some "unknown") /\
    (fpath fld = Some (Path info) -> Path info <> "unknown" ->
     identity_matches info ino dev).
Proof.
  intros Hget i fld fdv info ino dev Hi Hneeds Hv Htracked Hstat.
  assert (Hfld : fpath fld =
            Some (if same_file info ino dev then Path info
                  else "unknown")).
  { unfold GetStruct in Hget.
    assert (Hsc : exists sc,
               decodeSyscall Quote os ce sc f buf
               = (Done (SyscallEvent name fields), f', buf')).
    { destruct (List.find _ goSyscalls) as [sc|]; [eauto|].
      destruct (String.eqb (CName ce) "fd_install").
      - unfold decodeFdInstall in Hget.
        destruct (length buf <? 32)%nat; discriminate.
      - destruct (name_in (CName ce) connect_v4_names).
        + unfold decodeConnectV4 in Hget. cbn in Hget.
          repeat match type of Hget with
                 | context [match ?x with _ => _ end] => destruct x
                 end; discriminate.
        + destruct (name_in (CName ce) connect_v6_names);
            [|discriminate].
          unfold decodeConnectV6 in Hget. cbn in Hget.
          repeat match type of Hget with
                 | context [match ?x with _ => _ end] => destruct x
                 end; discriminate. }
    destruct Hsc as [sc Hsc]. unfold decodeSyscall in Hsc.
    destruct (readParams Quote os ce (Params sc) [] f buf)
      as [[[ev|a] f1] buf1] eqn:Hread.
    - apply readParams_resolved in Hread; [|constructor].
      destruct Hread as [_ Hall].
      assert (ev = fields) as ->.
      { destruct (String.eqb (SName sc) "CloseEvent");
          [destruct (field_Fd ev)|]; congruence. }
      rewrite Forall_lookup in Hall.
      by apply (Hall i fld Hi fdv info ino dev).
    - discriminate. }
  rewrite Hfld. rewrite <- same_file_iff.
  destruct (same_file info ino dev); repeat split; try done.
  intros [= E]. by symmetry in E.
Qed.

End Resolution.

Lemma C2_stale_descriptor_witness :
  exists fields f' buf' fld,
    GetStruct Samples.plain_Quote Samples.reused_os
      (mkCommonEvent 1 100 0 "fchmod") [Samples.FchmodEvent]
      Samples.tracked_fds Samples.fchmod_payload
    = (Done (SyscallEvent "FchmodEvent" fields), f', buf')
    /\ fields !! 0%nat = Some fld
    /\ fpath fld = Some "unknown".
Proof.
  eexists _, _, _, _. split; [vm_compute; reflexivity|].
  split; [reflexivity|].
  refine (proj1 (proj2
    (C2_stale_descriptor_is_unknown Samples.plain_Quote Samples.reused_os
       (mkCommonEvent 1 100 0 "fchmod") [Samples.FchmodEvent]
       Samples.tracked_fds Samples.fchmod_payload "FchmodEvent" _ _ _ _
       0%nat _ 5 (mkFdInfo "/tmp/a" 42 8 1) 43 2049 _ _ _ _ _)) _).
  - vm_compute; reflexivity.
  - reflexivity.
  - reflexivity.
  - reflexivity.
  - eexists. split; vm_compute; reflexivity.
  - reflexivity.
  - intros [H _]. discriminate H.
Defined.

(** *** Decoding byte buffers *)

Lemma bufLen_from_first_zero b :
  forall idx,
    exists n : nat, bufLen_from b idx = idx + Z.of_nat n /\ first_zero b n.
Proof.
  induction b as [|x b IH]; intros idx; simpl.
  - exists 0%nat. split; [lia|].
    split; [done|]. split; [lia|simpl; lia].
  - unfold is_zero. destruct (Byte.eqb x x00) eqn:E.
    + exists 0%nat. split; [lia|].
      split; [simpl; lia|]. split; [lia|].
      intros _. simpl. f_equal. by apply Byte.byte_dec_bl.
    + destruct (IH (idx + 1)) as (n & Hn & Hle & Hnz & Hz).
      exists (S n). split; [lia|].
      split; [simpl; lia|]. split.
      * intros [|i] y Hi; simpl.
        -- intros [= <-]. by apply Byte.eqb_false.
        -- apply Hnz. lia.
      * simpl. intros Hlt. apply Hz. lia.
Qed.

Lemma bufLen_from_app_nonzero l rest :
  forall idx,
    Forall (λ x, x <> x00) l ->
    bufLen_from (l ++ rest) idx
    = bufLen_from rest (idx + Z.of_nat (length l)).
Proof.
  induction l as [|x l IH]; intros idx Hl; simpl.
  - f_equal. lia.
  - inversion Hl as [|? ? Hx Hl']; subst.
    unfold is_zero. destruct (Byte.eqb x x00) eqn:E.
    + apply Byte.byte_dec_bl in E. contradiction.
    + rewrite IH by done. f_equal. lia.
Qed.

Lemma bufLen_from_zeros k idx : bufLen_from (replicate k x00) idx = idx.
Proof. by destruct k. Qed.

Lemma first_zero_take_nonzero b n :
  first_zero b n -> Forall (λ x, x <> x00) (take n b).
Proof.
  intros (_ & Hnz & _). apply Forall_lookup. intros i x Hi.
  apply lookup_take_Some in Hi as [Hx Hlt]. by apply (Hnz i).
Qed.

Lemma argLength_range name ret b :
  0 <= argLength name ret b <= Z.of_nat (length b).
Proof.
  unfold argLength, min, bufLen.
  destruct (size_bounded name).
  - destruct (ret >? 0) eqn:E; [|lia].
    destruct (ret >? Z.of_nat (length b)) eqn:E'; lia.
  - destruct (bufLen_from_first_zero b 0) as (n & -> & Hle & _). lia.
Qed.

Lemma copy_into_take (b : list byte) (k : nat) :
  (k <= length b)%nat ->
  copy_into (length b) (take k b)
  = (take k b ++ replicate (length b - k) x00)%list.
Proof.
  intros Hk. unfold copy_into. rewrite length_take, Nat.min_l by lia.
  f_equal. apply take_ge. rewrite length_take. lia.
Qed.

Lemma argLength_reencoded name ret b :
  let k := Z.to_nat (argLength name ret b) in
  argLength name ret (copy_into (length b) (take k b))
  = argLength name ret b.
Proof.
  intros k. pose proof (argLength_range name ret b) as Hr.
  assert (Hk : (k <= length b)%nat) by lia.
  pose proof (copy_into_take b k Hk) as Hcopy.
  assert (Hlen : length (copy_into (length b) (take k b)) = length b).
  { rewrite Hcopy, length_app, length_take, length_replicate. lia. }
  unfold argLength in *. destruct (size_bounded name).
  - by rewrite Hlen.
  - rewrite Hcopy. unfold bufLen in *.
    destruct (bufLen_from_first_zero b 0) as (n & Hn & Hfz).
    assert (k = n) as -> by (subst k; rewrite Hn; lia).
    rewrite bufLen_from_app_nonzero
      by (by apply first_zero_take_nonzero).
    rewrite bufLen_from_zeros, length_take, Hn. lia.
Qed.

Lemma GoStringN_inside (b : list byte) (len : Z) :
  0 <= len <= Z.of_nat (length b) ->
  GoStringN b len = Some (string_of_list_byte (take (Z.to_nat len) b)).
Proof.
  intros H. unfold GoStringN.
  destruct (Z.leb_spec 0 len); [|lia].
  destruct (Z.leb_spec len (Z.of_nat (length b))); [done|lia].
Qed.

Lemma bufferGo_defined name ret (b : list byte) :
  bufferGo name ret b
  = Some (string_of_list_byte
            (take (Z.to_nat (argLength name ret b)) b)).
Proof. apply GoStringN_inside, argLength_range. Qed.

Lemma append_empty (s : string) : s ++ "" = s.
Proof.
  induction s as [|c s IH]; [done|].
  change (String c s ++ "") with (String c (s ++ "")). by rewrite IH.
Qed.

Lemma buffer_named_cases nm :
  buffer_named nm = true ->
  nm = "Buf" \/ nm = "Filename" \/ nm = "Pathname".
Proof.
  unfold buffer_named.
  destruct (String.eqb_spec nm "Buf"); [by left|].
  destruct (String.eqb_spec nm "Filename"); [by right; left|].
  destruct (String.eqb_spec nm "Pathname"); [by right; right|done].
Qed.

(** C4: the length handed to [C.GoStringN] for a byte-buffer argument is
    the index of its first zero byte (its capacity when there is none) in
    events other than read and write, and [min(ret, capacity)] in read and
    write events, 0 when [ret <= 0]; it never leaves the array, and the
    decoded string is the bytes of the buffer up to that length.  The
    string depends on the buffer, the event name and [ret] only, and
    decoding is idempotent: the decoded string, written back to a zeroed
    buffer of the same capacity and decoded again, comes out the same.
    [GetArgN] returns this string for a [[256]byte] field, and [String]
    declares it as [bufferGo] for the parameter named [Buf], [Filename] or
    [Pathname] and prints it quoted. *)
Theorem C4_buffer_decoding name ret (b : list byte) :
  exists s,
    bufferGo name ret b = Some s /\
    (size_bounded name = false ->
       exists n : nat,
         first_zero b n /\
         argLength name ret b = Z.of_nat n /\
         s = string_of_list_byte (take n b)) /\
    (size_bounded name = true ->
       (ret <= 0 -> argLength name ret b = 0 /\ s = "") /\
       (0 < ret ->
          argLength name ret b = Z.min ret (Z.of_nat (length b)) /\
          s = string_of_list_byte
                (take (Z.to_nat (Z.min ret (Z.of_nat (length b)))) b))) /\
    bufferGo name ret (copy_into (length b) (list_byte_of_string s))
    = Some s /\
    (forall fields n fld,
        0 <= n ->
        fields !! Z.to_nat n = Some fld ->
        Type_ (fparam fld) = "[256]byte" ->
        fvalue fld = VBytes b ->
        GetArgN (SyscallEvent name fields) n ret = Arg s) /\
    (forall fields fld,
        List.filter (λ fld, buffer_named (Name (fparam fld))) fields
        = [fld] ->
        fvalue fld = VBytes b ->
        String_bufferGo name ret fields = inl (Some s)) /\
    (forall Quote Sprintf_q p,
        buffer_named (Name p) = true ->
        Type_ p = "[256]byte" ->
        String_ Quote Sprintf_q name [mkField p (VBytes b) None] ret
        = Str (Name p ++ " " ++ Quote s ++ " ")).
Proof.
  pose proof (bufferGo_defined name ret b) as Hs.
  pose proof (argLength_range name ret b) as Hr.
  eexists. split; [exact Hs|].
  split; [|split; [|split; [|split; [|split]]]].
  - intros Hb. unfold argLength, bufLen. rewrite Hb.
    destruct (bufLen_from_first_zero b 0) as (n & -> & Hfz).
    exists n. split; [done|]. split; [lia|]. do 2 f_equal. lia.
  - intros Hb. unfold argLength, min. rewrite Hb.
    split; intros Hret.
    + destruct (ret >? 0) eqn:E; [lia|]. done.
    + destruct (ret >? 0) eqn:E; [|lia].
      destruct (ret >? Z.of_nat (length b)) eqn:E';
        (split; [lia|]); do 2 f_equal; lia.
  - rewrite list_byte_of_string_of_list_byte, bufferGo_defined.
    rewrite argLength_reencoded. do 2 f_equal.
    rewrite copy_into_take by lia.
    apply take_app_length'. rewrite length_take. lia.
  - intros fields n fld Hn Hfld Hty Hv. unfold GetArgN.
    destruct (n <? 0) eqn:E; [lia|].
    rewrite Hfld, Hty, Hv. cbn [printed_as_number String.eqb orb].
    by rewrite Hs.
  - intros fields fld Hone Hv. unfold String_bufferGo.
    by rewrite Hone, Hv, Hs.
  - intros Quote Sprintf_q p Hnamed Hty.
    unfold String_, String_bufferGo.
    cbn [List.filter fparam]. rewrite Hnamed. cbn [fvalue]. rewrite Hs.
    cbn [String_params]. unfold String_param.
    cbn [fparam fvalue fpath]. rewrite Hty, Hnamed.
    replace (identifier (Name p)) with true
      by (by destruct (buffer_named_cases _ Hnamed) as [->|[->| ->]]).
    replace (descriptor_named (Name p)) with false
      by (by destruct (buffer_named_cases _ Hnamed) as [->|[->| ->]]).
    change (printed_as_number "[256]byte") with false.
    cbn [negb fmap option_fmap option_map].
    by rewrite append_empty.
Qed.

Lemma C4_buffer_decoding_witness :
  bufferGo "OpenEvent" 3 [x2f; x61; x00; x62] = Some "/a" /\
  bufferGo "ReadEvent" (-1) [x2f; x61; x00; x62] = Some "" /\
  bufferGo "ReadEvent" 3 [x2f; x61; x00; x62]
  = Some (string_of_list_byte [x2f; x61; x00]) /\
  GetArgN (SyscallEvent "WriteEvent"
             [mkField (mkParam 0 "Fd" "uint64" "" "" true) (VInt 5)
                (Some "/tmp/a");
              mkField (mkParam 0 "Buf" "[256]byte" "" "" false)
                (VBytes [x2f; x61; x00; x62]) None]) 1 9
  = Arg (string_of_list_byte [x2f; x61; x00; x62]).
Proof.
  destruct (C4_buffer_decoding "OpenEvent" 3 [x2f; x61; x00; x62])
    as (s1 & E1 & H1 & _).
  destruct (C4_buffer_decoding "ReadEvent" (-1) [x2f; x61; x00; x62])
    as (s2 & E2 & _ & H2 & _).
  destruct (C4_buffer_decoding "ReadEvent" 3 [x2f; x61; x00; x62])
    as (s3 & E3 & _ & H3 & _).
  destruct (C4_buffer_decoding "WriteEvent" 9 [x2f; x61; x00; x62])
    as (s4 & E4 & _ & _ & _ & H4 & _).
  split; [|split; [|split]].
  - rewrite E1. f_equal.
    destruct (H1 eq_refl) as (n & _ & Hn & Es).
    change (argLength "OpenEvent" 3 [x2f; x61; x00; x62]) with 2 in Hn.
    assert (n = 2%nat) as -> by lia. exact Es.
  - rewrite E2. f_equal.
    destruct (H2 eq_refl) as [H2a _]. apply H2a. lia.
  - rewrite E3. f_equal.
    destruct (H3 eq_refl) as [_ H3b]. apply H3b. lia.
  - erewrite H4; [|lia|reflexivity..].
    vm_compute in E4. by injection E4 as <-.
Defined.

(** *** Dispatch on the event name *)

Lemma find_no_case (name : string) goSyscalls :
  Forall (λ sc, RawName sc <> name) goSyscalls ->
  List.find (λ sc, String.eqb name (RawName sc)) goSyscalls = None.
Proof.
  induction 1 as [|sc l Hsc _ IH]; simpl; [done|].
  destruct (String.eqb_spec name (RawName sc)); [by subst|done].
Qed.

Lemma name_in_false (n : string) l : ~ In n l -> name_in n l = false.
Proof.
  unfold name_in. induction l as [|x l IH]; simpl; [done|].
  intros H. destruct (String.eqb_spec n x) as [->|Hne].
  - exfalso. apply H. by left.
  - apply IH. intros Hin. apply H. by right.
Qed.

(** C8: a name that is neither the raw name of a compiled syscall nor one
    of the names of the epilogue is decoded to [DefaultEvent] with a nil
    error; the buffer and the tracker are not touched. *)
Theorem C8_unrecognized_name_is_default Quote os ce goSyscalls f buf :
  Forall (λ sc, RawName sc <> CName ce) goSyscalls ->
  ~ In (CName ce) epilogue_names ->
  GetStruct Quote os ce goSyscalls f buf = (Done DefaultEvent, f, buf).
Proof.
  intros Hsc Hep. unfold GetStruct. rewrite (find_no_case _ _ Hsc).
  unfold epilogue_names in Hep. simpl in Hep.
  destruct (String.eqb_spec (CName ce) "fd_install") as [E|_];
    [exfalso; apply Hep; by left|].
  rewrite !name_in_false; [done|intros Hin; apply Hep; simpl in Hin..].
  - right. tauto.
  - right. tauto.
Qed.

Lemma C8_unrecognized_name_witness :
  GetStruct Samples.plain_Quote Samples.reused_os
    (mkCommonEvent 1 100 0 "execve") [Samples.FchmodEvent]
    Samples.tracked_fds Samples.fchmod_payload
  = (Done DefaultEvent, Samples.tracked_fds, Samples.fchmod_payload).
Proof.
  apply C8_unrecognized_name_is_default.
  - repeat constructor. discriminate.
  - simpl. intros H. decompose [or] H; discriminate || contradiction.
Defined.

(** *** Descriptor-install events *)

Lemma all_absolute_Put pid fd info f :
  Strings.HasPrefix (Path info) "/" = true ->
  all_absolute (items f) -> all_absolute (items (Put pid fd info f)).
Proof.
  intros Habs Hall pid' inner fd' info'. unfold Put. cbn [items].
  destruct (decide (pid = pid')) as [<-|Hne].
  - rewrite lookup_insert_eq. intros [= <-].
    destruct (decide (fd = fd')) as [<-|Hne].
    + rewrite lookup_insert_eq. by intros [= <-].
    + rewrite lookup_insert_ne by done.
      destruct (items f !! pid) as [inner|] eqn:E; cbn [default].
      * by apply (Hall pid inner fd').
      * by rewrite lookup_empty.
  - rewrite lookup_insert_ne by done. apply Hall.
Qed.

Lemma all_absolute_Delete pid fd f :
  all_absolute (items f) -> all_absolute (items (Delete pid fd f)).
Proof.
  intros Hall pid' inner fd' info'. unfold Delete.
  destruct (items f !! pid) as [m|] eqn:E; [|apply Hall].
  cbn [items]. destruct (decide (pid = pid')) as [<-|Hne].
  - rewrite lookup_insert_eq. intros [= <-].
    intros H. apply lookup_delete_Some in H as [_ H].
    by apply (Hall pid m fd').
  - rewrite lookup_insert_ne by done. apply Hall.
Qed.

Lemma all_absolute_DeletePid pid f :
  all_absolute (items f) -> all_absolute (items (DeletePid pid f)).
Proof.
  intros Hall pid' inner fd' info'. unfold DeletePid. cbn [items].
  intros H. apply lookup_delete_Some in H as [_ H].
  apply (Hall pid' inner fd' info' H).
Qed.

Lemma readParams_items Quote os ce ps :
  forall ev f buf,
    items (readParams Quote os ce ps ev f buf).1.2 = items f.
Proof.
  induction ps as [|p ps IH]; intros ev f buf; cbn [readParams]; [done|].
  destruct (String.eqb (Type_ p) ""); [done|].
  destruct (readField (Type_ p) buf) as [[v|] buf1]; [|done].
  destruct (NeedsPath p); [|apply IH].
  destruct (declared_fileName ev); [done|].
  destruct v as [b|fdv|]; try done.
  pose proof (resolvePath_items Quote os ce fdv f) as Hit.
  destruct (resolvePath Quote os ce fdv f) as [[fileName|] f1];
    cbn [snd] in Hit; [|done].
  by rewrite IH.
Qed.

Lemma decodeFdInstall_state os ce f buf :
  (decodeFdInstall os ce f buf).1.2 =
  if (length buf <? 32)%nat then f
  else
    let Fd := le (take 8 buf) in
    let name :=
      default "unknown"
        (Readlink os (Conv.uint32 (Pid ce)) (Conv.uint32 Fd)) in
    if Strings.HasPrefix name "/" then
      Put (Conv.uint32 (Pid ce)) (Conv.uint32 Fd)
        (mkFdInfo name (le (take 8 (drop 8 buf)))
           (le (take 8 (drop 16 buf))) (le (take 8 (drop 24 buf)))) f
    else f.
Proof.
  unfold decodeFdInstall. destruct (length buf <? 32)%nat; [done|].
  cbv zeta. cbn [fst snd Path].
  by destruct (Readlink os _ _).
Qed.

Lemma GetStruct_absolute Quote os ce goSyscalls f buf :
  all_absolute (items f) ->
  all_absolute (items (GetStruct Quote os ce goSyscalls f buf).1.2).
Proof.
  intros Hall. unfold GetStruct.
  destruct (List.find _ goSyscalls) as [sc|].
  - unfold decodeSyscall.
    pose proof (readParams_items Quote os ce (Params sc) [] f buf) as Hit.
    destruct (readParams Quote os ce (Params sc) [] f buf)
      as [[[ev|a] f1] buf1]; cbn [fst snd] in Hit |- *;
      [|by rewrite Hit].
    destruct (String.eqb (SName sc) "CloseEvent");
      [|cbn [fst snd]; by rewrite Hit].
    destruct (field_Fd ev); cbn [fst snd]; [|by rewrite Hit].
    apply all_absolute_Delete. by rewrite Hit.
  - destruct (String.eqb (CName ce) "fd_install").
    + rewrite decodeFdInstall_state.
      destruct (length buf <? 32)%nat; [done|]. cbv zeta.
      destruct (Strings.HasPrefix _ "/") eqn:E; [|done].
      by apply all_absolute_Put.
    + destruct (name_in (CName ce) connect_v4_names).
      * unfold decodeConnectV4. cbn.
        by repeat match goal with
                  | |- context [match ?x with _ => _ end] => destruct x
                  end.
      * destruct (name_in (CName ce) connect_v6_names); [|done].
        unfold decodeConnectV6. cbn.
        by repeat match goal with
                  | |- context [match ?x with _ => _ end] => destruct x
                  end.
Qed.

Lemma run_absolute Quote goSyscalls calls :
  forall f,
    all_absolute (items f) ->
    all_absolute (items (run Quote goSyscalls calls f)).
Proof.
  unfold run. induction calls as [|c calls IH]; intros f Hall; simpl;
    [done|].
  apply IH. destruct c as [os ce buf|pid|]; simpl.
  - by apply GetStruct_absolute.
  - by apply all_absolute_DeletePid.
  - intros pid inner fd info. by rewrite lookup_empty.
Qed.

(** C9: decoding [fd_install] stores the entry for (pid, fd) exactly when
    the path read back for the descriptor starts with a slash; when the
    path cannot be read, or is not absolute, the tracker stays as it
    was.  Hence, whatever is decoded and whichever processes exit, every
    path in a tracker that started empty is absolute. *)
Theorem C9_fd_install_tracks_absolute_paths Quote goSyscalls :
  (forall os ce f buf,
      CName ce = "fd_install" ->
      Forall (λ sc, RawName sc <> "fd_install") goSyscalls ->
      (32 <= length buf)%nat ->
      let pid := Conv.uint32 (Pid ce) in
      let fd := Conv.uint32 (le (take 8 buf)) in
      let f' := (GetStruct Quote os ce goSyscalls f buf).1.2 in
      match Readlink os pid fd with
      | Some name =>
          if Strings.HasPrefix name "/" then
            f' = Put pid fd
                   (mkFdInfo name (le (take 8 (drop 8 buf)))
                      (le (take 8 (drop 16 buf)))
                      (le (take 8 (drop 24 buf)))) f
            /\ lookup_fd pid fd f'
               = (Some (mkFdInfo name (le (take 8 (drop 8 buf)))
                          (le (take 8 (drop 16 buf)))
                          (le (take 8 (drop 24 buf)))), true)
          else f' = f
      | None => f' = f
      end) /\
  (forall calls,
      all_absolute (items (run Quote goSyscalls calls NewFdMap))).
Proof.
  split.
  - intros os ce f buf Hname Hsc Hlen pid fd f'.
    subst f'. unfold GetStruct.
    rewrite Hname, (find_no_case _ _ Hsc), String.eqb_refl.
    rewrite decodeFdInstall_state.
    destruct (length buf <? 32)%nat eqn:E;
      [apply Nat.ltb_lt in E; lia|].
    cbv zeta. fold pid fd.
    destruct (Readlink os pid fd) as [name|]; cbn [from_option id];
      [|done].
    destruct (Strings.HasPrefix name "/"); [|done].
    split; [done|]. apply lookup_fd_Put.
  - intros calls. apply run_absolute.
    intros pid inner fd info. cbn [items NewFdMap].
    by rewrite lookup_empty.
Qed.

Lemma C9_fd_install_witness :
  lookup_fd 100 5
    (GetStruct Samples.plain_Quote Samples.reused_os
       (mkCommonEvent 1 100 0 "fd_install") [Samples.FchmodEvent]
       NewFdMap Samples.fd_install_payload).1.2
  = (Some (mkFdInfo "/tmp/a" 42 8 1), true).
Proof.
  pose proof (proj1 (C9_fd_install_tracks_absolute_paths
                       Samples.plain_Quote [Samples.FchmodEvent])
                Samples.reused_os (mkCommonEvent 1 100 0 "fd_install")
                NewFdMap Samples.fd_install_payload eq_refl) as H.
  lazy zeta in H.
  change (Readlink Samples.reused_os _ _) with (Some "/tmp/a") in H.
  change (Strings.HasPrefix "/tmp/a" "/") with true in H.
  cbv iota in H.
  destruct H as [_ H].
  - repeat constructor. discriminate.
  - simpl. lia.
  - exact H.
Defined.

End TracerProps.

(** * Further properties of the descriptor table *)

Module FdMapExtra.

Import Metagenerator Tracer TracerNotions TracerProps.

(** X1: [Put] on one key leaves every other key as it was: the found flag
    of any other (pid, fd) is unchanged, a found entry keeps its value, and
    for another process the whole answer of [Get] is unchanged. *)
Theorem Put_frame pid fd info f pid' fd' :
  (pid', fd') <> (pid, fd) ->
  (lookup_fd pid' fd' (Put pid fd info f)).2 = (lookup_fd pid' fd' f).2 /\
  ((lookup_fd pid' fd' f).2 = true ->
   lookup_fd pid' fd' (Put pid fd info f) = lookup_fd pid' fd' f) /\
  (pid' <> pid ->
   lookup_fd pid' fd' (Put pid fd info f) = lookup_fd pid' fd' f).
Proof.
  intros Hne. rewrite !lookup_fd_items. unfold Put. cbn [items].
  destruct (decide (pid' = pid)) as [->|Hpid].
  - assert (Hfd : fd <> fd') by congruence.
    rewrite lookup_insert_eq, lookup_insert_ne by done.
    destruct (items f !! pid) as [inner|]; cbn [from_option id snd].
    + repeat split; done.
    + rewrite lookup_empty. repeat split; done.
  - rewrite lookup_insert_ne by done. repeat split; done.
Qed.

Lemma Put_frame_witness :
  lookup_fd 100 6 (Put 100 5 (mkFdInfo "/tmp/b" 1 2 3) Samples.tracked_fds)
  = (Some zeroFdInfo, false) /\
  lookup_fd 7 5 (Put 100 5 (mkFdInfo "/tmp/b" 1 2 3) Samples.tracked_fds)
  = (None, false).
Proof.
  destruct (Put_frame 100 5 (mkFdInfo "/tmp/b" 1 2 3) Samples.tracked_fds
              7 5) as (_ & _ & H); [intros [= ?]; lia|].
  split; [vm_compute; reflexivity|].
  rewrite H by lia. vm_compute. reflexivity.
Defined.

(** X2: a second [Put] on the same key replaces the first: the table is
    the one the second [Put] alone would give. *)
Theorem Put_overwrites pid fd info1 info2 f :
  items (Put pid fd info2 (Put pid fd info1 f))
  = items (Put pid fd info2 f).
Proof.
  unfold Put. cbn [items]. rewrite lookup_insert_eq. cbn [from_option id].
  by rewrite insert_insert_eq, insert_insert_eq.
Qed.

(** X3: [Delete] removes one entry and nothing else: [Get] on any other key
    answers as before; deleting a descriptor that is not tracked changes no
    answer; deleting twice is deleting once. *)
Theorem Delete_frame pid fd f :
  (forall pid' fd', (pid', fd') <> (pid, fd) ->
      lookup_fd pid' fd' (Delete pid fd f) = lookup_fd pid' fd' f) /\
  ((lookup_fd pid fd f).2 = false ->
   forall pid' fd',
     lookup_fd pid' fd' (Delete pid fd f) = lookup_fd pid' fd' f) /\
  items (Delete pid fd (Delete pid fd f)) = items (Delete pid fd f).
Proof.
  split; [|split].
  - intros pid' fd' Hne. rewrite !lookup_fd_items. unfold Delete.
    destruct (items f !! pid) as [m|] eqn:E; [|done]. cbn [items].
    destruct (decide (pid' = pid)) as [->|Hpid].
    + assert (Hfd : fd <> fd') by congruence.
      by rewrite lookup_insert_eq, E, lookup_delete_ne.
    + by rewrite lookup_insert_ne.
  - rewrite lookup_fd_items. intros Hmiss pid' fd'.
    rewrite !lookup_fd_items. unfold Delete.
    destruct (items f !! pid) as [m|] eqn:E; [|done]. cbn [items snd] in *.
    apply bool_decide_eq_false in Hmiss.
    assert (Hm : m !! fd = None).
    { destruct (m !! fd) eqn:E'; [exfalso; apply Hmiss; eauto|done]. }
    rewrite delete_id by done. by rewrite insert_id.
  - unfold Delete. destruct (items f !! pid) as [m|] eqn:E.
    + cbn [items]. rewrite lookup_insert_eq. cbn [items].
      by rewrite insert_insert_eq, delete_delete_eq.
    + by rewrite E.
Qed.

Lemma Delete_frame_witness :
  lookup_fd 100 5 (Delete 100 6 Samples.tracked_fds)
  = (Some (mkFdInfo "/tmp/a" 42 8 1), true).
Proof.
  destruct (Delete_frame 100 6 Samples.tracked_fds) as (H & _ & _).
  rewrite H by (intros [= ?]; lia). vm_compute. reflexivity.
Defined.

(** X4: [Get] returns a nil pointer exactly when the process has no map of
    its own.  [Delete] leaves the emptied map of the process behind, so
    after [Put] then [Delete] of the same key [Get] returns a pointer to a
    zero [FdInfo] with [false]; after [Clear], as in a new table, it
    returns nil for every key. *)
Theorem Get_missing_key pid fd info f :
  ((Get pid fd f).1.1 = None <-> items f !! pid = None) /\
  lookup_fd pid fd (Delete pid fd (Put pid fd info f))
  = (Some zeroFdInfo, false) /\
  (forall pid' fd', lookup_fd pid' fd' (Clear f) = (None, false)) /\
  (forall pid' fd', lookup_fd pid' fd' NewFdMap = (None, false)).
Proof.
  split; [|split; [|split]].
  - unfold Get. by destruct (items f !! pid).
  - rewrite lookup_fd_items. unfold Delete, Put. cbn [items].
    rewrite lookup_insert_eq. cbn [items].
    rewrite lookup_insert_eq, lookup_delete_eq. cbn [from_option id].
    reflexivity.
  - intros pid' fd'. rewrite lookup_fd_items. unfold Clear. cbn [items].
    by rewrite lookup_empty.
  - intros pid' fd'. rewrite lookup_fd_items. unfold NewFdMap. cbn [items].
    by rewrite lookup_empty.
Qed.

End FdMapExtra.

(** * Further properties of the generated decoder *)

Module DecoderExtra.

Import Metagenerator Tracer TracerNotions TracerMore TracerProps.

Lemma LittleEndian_Uint_take (w : nat) (buf : list byte) :
  LittleEndian_Uint w (take w buf) =
  if (length buf <? w)%nat then None else Some (le (take w buf)).
Proof.
  unfold LittleEndian_Uint. rewrite length_take, take_take, Nat.min_id.
  destruct (length buf <? w)%nat eqn:E.
  - apply Nat.ltb_lt in E.
    assert (H : (w `min` length buf <? w)%nat = true)
      by (apply Nat.ltb_lt; lia).
    by rewrite H.
  - apply Nat.ltb_ge in E.
    assert (H : (w `min` length buf <? w)%nat = false)
      by (apply Nat.ltb_ge; lia).
    by rewrite H.
Qed.

(** The three kinds of decoder type, as [readField] tells them apart. *)
Lemma readField_cases ty buf :
  (ty = "[256]byte" /\ width ty = 256%nat /\ numeric ty = false /\
   readField ty buf
   = (Some (VBytes (copy_into 256 (take 256 buf))), drop 256 buf)) \/
  (numeric ty = true /\ (width ty = 4%nat \/ width ty = 8%nat) /\
   exists conv,
     readField ty buf
     = (if (length buf <? width ty)%nat then None
        else Some (VInt (conv (le (take (width ty) buf)))),
        drop (width ty) buf)) \/
  (width ty = 0%nat /\ numeric ty = false /\ ty <> "[256]byte" /\
   readField ty buf = (Some VZero, buf)).
Proof.
  unfold readField, width, numeric, Next.
  destruct (String.eqb_spec ty "[256]byte") as [->|Hb].
  { left. done. }
  destruct (String.eqb_spec ty "uint32") as [->|H1].
  { right; left. cbn -[Nat.ltb]. rewrite LittleEndian_Uint_take.
    split; [done|]. split; [by left|]. exists Conv.uint32.
    by destruct (length buf <? 4)%nat. }
  destruct (String.eqb_spec ty "int32") as [->|H2].
  { right; left. cbn -[Nat.ltb]. rewrite LittleEndian_Uint_take.
    split; [done|]. split; [by left|]. exists Conv.int32.
    by destruct (length buf <? 4)%nat. }
  destruct (String.eqb_spec ty "uint64") as [->|H3].
  { right; left. cbn -[Nat.ltb]. rewrite LittleEndian_Uint_take.
    split; [done|]. split; [by right|]. exists Conv.uint64.
    by destruct (length buf <? 8)%nat. }
  destruct (String.eqb_spec ty "int64") as [->|H4].
  { right; left. cbn -[Nat.ltb]. rewrite LittleEndian_Uint_take.
    split; [done|]. split; [by right|]. exists Conv.int64.
    by destruct (length buf <? 8)%nat. }
  right; right. done.
Qed.

Lemma copy_into_length (n : nat) (src : list byte) :
  length (copy_into n (take n src)) = n.
Proof.
  unfold copy_into. rewrite length_app, length_replicate, take_take,
    Nat.min_id, !length_take. lia.
Qed.

Lemma drop_schema_width p ps (buf : list byte) :
  drop (schema_width ps) (drop (width (Type_ p)) buf)
  = drop (schema_width (p :: ps)) buf.
Proof. cbn [schema_width foldr]. rewrite drop_drop. f_equal. Qed.

Section Decoding.

Variable Quote : string -> string.
Variable os : OS.
Variable ce : CommonEvent.

Lemma resolvePath_annotation fdv f :
  (resolvePath Quote os ce fdv f).1
  = Some (annotation Quote os ce (items f) fdv).
Proof.
  unfold resolvePath, annotation, recorded.
  pose proof (lookup_fd_items (Conv.uint32 (Pid ce)) (Conv.uint32 fdv) f)
    as H.
  unfold lookup_fd in H.
  destruct (Get _ _ f) as [[p ok] f'].
  destruct (items f !! Conv.uint32 (Pid ce)) as [inner|];
    cbn [mbind option_bind]; [|by injection H as _ ->].
  destruct (inner !! Conv.uint32 fdv) as [info|]; cbn [from_option id] in H.
  - rewrite bool_decide_eq_true_2 in H by eauto.
    injection H as Hp ->. cbn [fst]. by rewrite Hp.
  - rewrite bool_decide_eq_false_2 in H by (by intros [? ?]).
    by injection H as _ ->.
Qed.




Lemma readField_value ty (buf : list byte) v buf' :
  readField ty buf = (Some v, buf') -> v = value_at ty buf.
Proof.
  unfold readField, value_at, Next, copy_into.
  destruct (String.eqb_spec ty "[256]byte") as [->|Hb].
  { intros [= <- _]. f_equal. rewrite take_take, Nat.min_id, length_take.
    f_equal. f_equal. lia. }
  destruct (String.eqb_spec ty "uint32") as [->|H1].
  { cbn -[Nat.ltb]. rewrite LittleEndian_Uint_take.
    destruct (length buf <? 4)%nat; [discriminate|].
    cbn. by intros [= <- _]. }
  destruct (String.eqb_spec ty "int32") as [->|H2].
  { cbn -[Nat.ltb]. rewrite LittleEndian_Uint_take.
    destruct (length buf <? 4)%nat; [discriminate|].
    cbn. by intros [= <- _]. }
  destruct (String.eqb_spec ty "uint64") as [->|H3].
  { cbn -[Nat.ltb]. rewrite LittleEndian_Uint_take.
    destruct (length buf <? 8)%nat; [discriminate|].
    cbn. by intros [= <- _]. }
  destruct (String.eqb_spec ty "int64") as [->|H4].
  { cbn -[Nat.ltb]. rewrite LittleEndian_Uint_take.
    destruct (length buf <? 8)%nat; [discriminate|].
    cbn. by intros [= <- _]. }
  cbn. by intros [= <- _].
Qed.

Lemma read_from_cons (buf : list byte) fld new :
  fvalue fld = value_at (Type_ (fparam fld)) buf ->
  read_from (drop (width (Type_ (fparam fld))) buf) new ->
  read_from buf (fld :: new).
Proof.
  intros Hv Hnew [|i] fld'.
  - intros [= <-]. by rewrite take_0, drop_0.
  - intros Hi. cbn [lookup list_lookup] in Hi.
    rewrite (Hnew i fld' Hi), fmap_cons, firstn_cons.
    by rewrite drop_schema_width.
Qed.

(** What a successful run of the parameter loop returns. *)
Lemma readParams_shape ps :
  forall ev f buf ev' f' buf',
    readParams Quote os ce ps ev f buf = (inl ev', f', buf') ->
    buf' = drop (schema_width ps) buf /\
    exists new,
      ev' = (ev ++ new)%list /\ fparam <$> new = ps /\
      Forall value_fits new /\
      Forall (annotated Quote os ce (items f)) new /\
      read_from buf new.
Proof.
  induction ps as [|p ps IH]; intros ev f buf ev' f' buf'.
  - cbn. intros [= <- _ <-]. split; [done|].
    exists []. rewrite app_nil_r. repeat split; done.
  - cbn [readParams].
    destruct (String.eqb (Type_ p) ""); [discriminate|].
    assert (Hfit : forall v path,
               (readField (Type_ p) buf).1 = Some v ->
               value_fits (mkField p v path)).
    { intros v path.
      destruct (readField_cases (Type_ p) buf) as
        [(Hty & _ & _ & ->)|[(Hn & _ & conv & ->)|(Hw & _ & _ & ->)]];
        cbn [fst].
      - intros [= <-]. unfold value_fits. cbn [fvalue fparam].
        split; [done|apply copy_into_length].
      - destruct (length buf <? _)%nat; [discriminate|].
        intros [= <-]. exact Hn.
      - intros [= <-]. exact Hw. }
    assert (Hbuf : (readField (Type_ p) buf).2
                   = drop (width (Type_ p)) buf).
    { destruct (readField_cases (Type_ p) buf) as
        [(_ & -> & _ & ->)|[(_ & _ & conv & ->)|(-> & _ & _ & ->)]];
        done. }
    pose proof (readField_value (Type_ p) buf) as Hval.
    destruct (readField (Type_ p) buf) as [[v|] buf1]; [|discriminate].
    cbn [fst snd] in Hfit, Hbuf. subst buf1.
    specialize (Hval v _ eq_refl).
    destruct (NeedsPath p) eqn:Hneeds.
    + destruct (declared_fileName ev); [discriminate|].
      destruct v as [b|fdv|]; try discriminate.
      pose proof (resolvePath_annotation fdv f) as Hann.
      pose proof (resolvePath_items Quote os ce fdv f) as Hit.
      destruct (resolvePath Quote os ce fdv f) as [[fileName|] f1];
        [|discriminate].
      cbn [fst snd] in Hann, Hit. injection Hann as ->.
      intros Hrun.
      apply IH in Hrun as (-> & new & -> & Hps & Hfits & Hanns & Hread).
      split; [apply drop_schema_width|].
      eexists (_ :: new). split; [by rewrite <- app_assoc|].
      split; [by rewrite fmap_cons, Hps|].
      split; [constructor; [by apply Hfit|done]|].
      split; [|by apply read_from_cons].
      constructor; [|by rewrite <- Hit].
      unfold annotated. cbn [fparam fvalue fpath]. rewrite Hneeds. eauto.
    + intros Hrun.
      apply IH in Hrun as (-> & new & -> & Hps & Hfits & Hanns & Hread).
      split; [apply drop_schema_width|].
      eexists (_ :: new). split; [by rewrite <- app_assoc|].
      split; [by rewrite fmap_cons, Hps|].
      split; [constructor; [by apply Hfit|done]|].
      split; [|by apply read_from_cons].
      constructor; [|done].
      unfold annotated. cbn [fparam fpath]. by rewrite Hneeds.
Qed.





Lemma decodeSyscall_done sc f buf ev f' buf' :
  decodeSyscall Quote os ce sc f buf = (Done ev, f', buf') ->
  exists fields f1,
    readParams Quote os ce (Params sc) [] f buf = (inl fields, f1, buf') /\
    ev = SyscallEvent (SName sc) fields /\
    (if String.eqb (SName sc) "CloseEvent" then
       exists fdv, field_Fd fields = Some fdv /\
                   f' = Delete (Conv.uint32 (Pid ce)) (Conv.uint32 fdv) f1
     else f' = f1).
Proof.
  unfold decodeSyscall.
  destruct (readParams Quote os ce (Params sc) [] f buf)
    as [[[fields|a] f1] buf1]; [|discriminate].
  destruct (String.eqb (SName sc) "CloseEvent").
  - destruct (field_Fd fields) as [fdv|] eqn:Hfd; [|discriminate].
    intros [= <- <- <-]. eexists _, _.
    split; [reflexivity|]. split; [reflexivity|].
    exists fdv. split; [exact Hfd|reflexivity].
  - intros [= <- <- <-]. eexists _, _.
    split; [reflexivity|]. split; reflexivity.
Qed.

(** X5: a syscall case that returns an event has read one field per
    parameter of the schema, in the order of the schema.  Every field
    holds what the buffer has at the offset of the field, the sum of the
    widths of the fields before it: a byte buffer holds the next 256
    bytes, or the bytes that are left followed by zero bytes, and an
    integer is the next 4 or 8 bytes, least significant first, converted
    to the type of the field.  Every value has the kind of its decoder
    type, a byte buffer being exactly 256 bytes long; a path annotation is
    present exactly on the parameters that need path resolution; and the
    case has taken from the buffer the sum of the widths of the fields, or
    all of it when it is shorter. *)
Theorem decodeSyscall_shape sc f buf ev f' buf' :
  decodeSyscall Quote os ce sc f buf = (Done ev, f', buf') ->
  exists fields,
    ev = SyscallEvent (SName sc) fields /\
    fparam <$> fields = Params sc /\
    read_from buf fields /\
    Forall value_fits fields /\
    Forall (annotated Quote os ce (items f)) fields /\
    buf' = drop (schema_width (Params sc)) buf.
Proof.
  intros H. apply decodeSyscall_done in H as (fields & f1 & Hread & -> & _).
  apply readParams_shape in Hread
    as (-> & new & Hnew & Hps & Hfit & Hann & Hrd).
  cbn [app] in Hnew. subst new. eauto 10.
Qed.



Lemma lookup_fd_same_items pid fd f1 f2 :
  items f1 = items f2 -> lookup_fd pid fd f1 = lookup_fd pid fd f2.
Proof. intros H. by rewrite !lookup_fd_items, H. Qed.

Lemma items_Delete pid fd f1 f2 :
  items f1 = items f2 ->
  items (Delete pid fd f1) = items (Delete pid fd f2).
Proof.
  intros H. unfold Delete. rewrite H.
  destruct (items f2 !! pid); cbn [items]; by rewrite ?H.
Qed.

Lemma lookup_fd_Delete pid fd f pid' fd' :
  lookup_fd pid' fd' (Delete pid fd f) =
  if decide ((pid', fd') = (pid, fd)) then
    ((lookup_fd pid fd f).1 ≫= (λ _, Some zeroFdInfo), false)
  else lookup_fd pid' fd' f.
Proof.
  rewrite !lookup_fd_items. unfold Delete.
  destruct (decide ((pid', fd') = (pid, fd))) as [[= -> ->]|Hne].
  - destruct (items f !! pid) as [m|] eqn:E; cbn [items fst].
    + rewrite lookup_insert_eq, lookup_delete_eq. done.
    + by rewrite E.
  - destruct (items f !! pid) as [m|] eqn:E; [|done]. cbn [items].
    destruct (decide (pid' = pid)) as [->|Hpid].
    + assert (Hfd : fd <> fd') by congruence.
      by rewrite lookup_insert_eq, E, lookup_delete_ne.
    + by rewrite lookup_insert_ne.
Qed.

(** X8: the case generated for [close] removes the entry of the closed
    descriptor, and only that one: after it, [Get] for the descriptor of
    the event's [Fd] field reports not found, and [Get] for any other key
    answers as before the event. *)
Theorem decodeSyscall_close_untracks sc f buf ev f' buf' :
  SName sc = "CloseEvent" ->
  decodeSyscall Quote os ce sc f buf = (Done ev, f', buf') ->
  exists fields fdv,
    ev = SyscallEvent "CloseEvent" fields /\
    field_Fd fields = Some fdv /\
    (lookup_fd (Conv.uint32 (Pid ce)) (Conv.uint32 fdv) f').2 = false /\
    forall pid' fd',
      (pid', fd') <> (Conv.uint32 (Pid ce), Conv.uint32 fdv) ->
      lookup_fd pid' fd' f' = lookup_fd pid' fd' f.
Proof.
  intros Hname H.
  apply decodeSyscall_done in H as (fields & f1 & Hread & -> & Hf').
  pose proof (readParams_items Quote os ce (Params sc) [] f buf) as Hit.
  rewrite Hread in Hit. cbn [fst snd] in Hit.
  rewrite Hname in Hf' |- *. rewrite String.eqb_refl in Hf'.
  destruct Hf' as (fdv & Hfd & ->).
  exists fields, fdv. split; [done|]. split; [done|]. split.
  - rewrite lookup_fd_Delete. by rewrite decide_True.
  - intros pid' fd' Hne. rewrite lookup_fd_Delete.
    rewrite decide_False by done. by apply lookup_fd_same_items.
Qed.

End Decoding.

Section Dispatch.

Variable Quote : string -> string.
Variable os : OS.
Variable ce : CommonEvent.

Lemma decodeSyscall_not_Failed sc f buf :
  (decodeSyscall Quote os ce sc f buf).1.1 <> Failed.
Proof.
  unfold decodeSyscall.
  destruct (readParams Quote os ce (Params sc) [] f buf)
    as [[[fields|a] f1] buf1]; [|done].
  destruct (String.eqb (SName sc) "CloseEvent"); [|done].
  by destruct (field_Fd fields).
Qed.

Lemma decodeSyscall_items sc f buf :
  SName sc <> "CloseEvent" ->
  items (decodeSyscall Quote os ce sc f buf).1.2 = items f.
Proof.
  intros Hname. unfold decodeSyscall.
  pose proof (readParams_items Quote os ce (Params sc) [] f buf) as Hit.
  destruct (readParams Quote os ce (Params sc) [] f buf)
    as [[[fields|a] f1] buf1]; cbn [fst snd] in *; [|done].
  by destruct (String.eqb_spec (SName sc) "CloseEvent").
Qed.

(** The layout of the IPv4 connection events. *)
Lemma decodeConnectV4_layout f buf :
  decodeConnectV4 f buf =
  if (16 <=? length buf)%nat then
    (Done (ConnectV4Event (le (take 4 buf)) (le (take 4 (drop 4 buf)))
             (le (take 2 (drop 8 buf))) (le (take 2 (drop 10 buf)))
             (le (take 4 (drop 12 buf)))), f, drop 16 buf)
  else (Aborted Panic, f, drop 16 buf).
Proof.
  unfold decodeConnectV4, Next. rewrite !LittleEndian_Uint_take.
  rewrite !drop_drop, !length_drop. cbn [Nat.add].
  destruct (Nat.leb_spec 16 (length buf));
    repeat match goal with
           | |- context [(?a <? ?b)%nat] => destruct (Nat.ltb_spec a b)
           end; try lia; reflexivity.
Qed.

(** The layout of the IPv6 connection events. *)
Lemma decodeConnectV6_layout f buf :
  decodeConnectV6 f buf =
  if (40 <=? length buf)%nat then
    (Done (ConnectV6Event (take 16 buf) (take 16 (drop 16 buf))
             (le (take 2 (drop 32 buf))) (le (take 2 (drop 34 buf)))
             (le (take 4 (drop 36 buf)))), f, drop 40 buf)
  else (Aborted Panic, f, drop 40 buf).
Proof.
  unfold decodeConnectV6, Next. rewrite !LittleEndian_Uint_take.
  rewrite !drop_drop, !length_drop. cbn [Nat.add].
  destruct (Nat.leb_spec 40 (length buf));
    repeat match goal with
           | |- context [(?a <? ?b)%nat] => destruct (Nat.ltb_spec a b)
           end; try lia; try reflexivity.
  unfold copy_into. rewrite !take_take, !length_take, !length_drop.
  replace (16 - 16 `min` length buf)%nat with 0%nat by lia.
  replace (16 - 16 `min` (length buf - 16))%nat with 0%nat by lia.
  cbn [replicate]. by rewrite !app_nil_r, !Nat.min_id.
Qed.

(** X9: apart from [fd_install] and the case generated for [close], no
    case of [GetStruct] changes the table: whatever the buffer and
    whatever the outcome, the entries after the call are the entries
    before it. *)
Theorem GetStruct_leaves_table goSyscalls f buf :
  CName ce <> "fd_install" ->
  Forall (λ sc, RawName sc = CName ce -> SName sc <> "CloseEvent")
    goSyscalls ->
  items (GetStruct Quote os ce goSyscalls f buf).1.2 = items f.
Proof.
  intros Hname Hclose. unfold GetStruct.
  destruct (List.find _ goSyscalls) as [sc|] eqn:Hfind.
  - apply find_some in Hfind as [Hin Heq].
    apply String.eqb_eq in Heq. rewrite Forall_forall in Hclose.
    apply decodeSyscall_items.
    apply Hclose; [by apply list_elem_of_In|done].
  - destruct (String.eqb_spec (CName ce) "fd_install"); [done|].
    destruct (name_in (CName ce) connect_v4_names).
    + rewrite decodeConnectV4_layout. by destruct (16 <=? length buf)%nat.
    + destruct (name_in (CName ce) connect_v6_names); [|done].
      rewrite decodeConnectV6_layout. by destruct (40 <=? length buf)%nat.
Qed.

(** X10: [GetStruct] returns an error in one situation only, an
    [fd_install] event with fewer than 32 bytes of payload; the table is
    then untouched and the buffer drained.  No generated syscall case and
    no connection case returns an error. *)
Theorem GetStruct_error_only_fd_install goSyscalls f buf :
  (forall f' buf',
      GetStruct Quote os ce goSyscalls f buf = (Failed, f', buf') ->
      CName ce = "fd_install" /\ (length buf < 32)%nat /\
      f' = f /\ buf' = []) /\
  (Forall (λ sc, RawName sc <> CName ce) goSyscalls ->
   CName ce = "fd_install" -> (length buf < 32)%nat ->
   GetStruct Quote os ce goSyscalls f buf = (Failed, f, [])).
Proof.
  split.
  - intros f' buf'. unfold GetStruct.
    destruct (List.find _ goSyscalls) as [sc|].
    { intros H. pose proof (decodeSyscall_not_Failed sc f buf) as Hn.
      by rewrite H in Hn. }
    destruct (String.eqb_spec (CName ce) "fd_install") as [Hname|_].
    + unfold decodeFdInstall.
      destruct (Nat.ltb_spec (length buf) 32); [|discriminate].
      by intros [= <- <-].
    + destruct (name_in (CName ce) connect_v4_names).
      { rewrite decodeConnectV4_layout.
        by destruct (16 <=? length buf)%nat. }
      destruct (name_in (CName ce) connect_v6_names); [|discriminate].
      rewrite decodeConnectV6_layout. by destruct (40 <=? length buf)%nat.
  - intros Hsc Hname Hlen. unfold GetStruct.
    rewrite (find_no_case _ _ Hsc), Hname, String.eqb_refl.
    unfold decodeFdInstall. apply Nat.ltb_lt in Hlen. by rewrite Hlen.
Qed.

(** X11: the connection cases read a fixed layout.  For the three IPv4
    names the case needs 16 bytes: source address at offset 0, destination
    address at 4, source port at 8, destination port at 10, network
    namespace at 12, all little-endian.  For the three IPv6 names it needs
    40 bytes: the two 16-byte addresses, then the ports at 32 and 34 and
    the namespace at 36.  With fewer bytes the case panics.  Neither
    touches the tracker. *)
Theorem GetStruct_connect_layout goSyscalls f buf :
  Forall (λ sc, RawName sc <> CName ce) goSyscalls ->
  (In (CName ce) connect_v4_names ->
   GetStruct Quote os ce goSyscalls f buf =
   if (16 <=? length buf)%nat then
     (Done (ConnectV4Event (le (take 4 buf)) (le (take 4 (drop 4 buf)))
              (le (take 2 (drop 8 buf))) (le (take 2 (drop 10 buf)))
              (le (take 4 (drop 12 buf)))), f, drop 16 buf)
   else (Aborted Panic, f, drop 16 buf)) /\
  (In (CName ce) connect_v6_names ->
   GetStruct Quote os ce goSyscalls f buf =
   if (40 <=? length buf)%nat then
     (Done (ConnectV6Event (take 16 buf) (take 16 (drop 16 buf))
              (le (take 2 (drop 32 buf))) (le (take 2 (drop 34 buf)))
              (le (take 4 (drop 36 buf)))), f, drop 40 buf)
   else (Aborted Panic, f, drop 40 buf)).
Proof.
  intros Hsc. unfold GetStruct. rewrite (find_no_case _ _ Hsc).
  split; intros Hin; cbn in Hin;
    decompose [or] Hin; try contradiction;
    match goal with H : _ = CName ce |- _ => rewrite <- H end;
    cbn -[decodeConnectV4 decodeConnectV6 Nat.leb le take drop];
    first [apply decodeConnectV4_layout | apply decodeConnectV6_layout].
Qed.

End Dispatch.

Lemma decoded_field_annotation Quote os ce sc f buf n fields f' buf'
  (i : nat) fld :
  decodeSyscall Quote os ce sc f buf
  = (Done (SyscallEvent n fields), f', buf') ->
  fields !! i = Some fld ->
  NeedsPath (fparam fld) = true ->
  exists fdv,
    fvalue fld = VInt fdv /\
    fpath fld = Some (annotation Quote os ce (items f) fdv).
Proof.
  intros H Hi Hneeds.
  apply decodeSyscall_done in H as (fields' & f1 & Hread & [= _ <-] & _).
  apply readParams_shape in Hread as (_ & new & Hnew & _ & _ & Hann & _).
  cbn [app] in Hnew. subst new.
  rewrite Forall_lookup in Hann. specialize (Hann i fld Hi).
  unfold annotated in Hann. by rewrite Hneeds in Hann.
Qed.

(** X12: a descriptor field whose descriptor the table does not track is
    annotated ["unknown"], whatever the file system says. *)
Theorem untracked_descriptor_is_unknown Quote os ce sc f buf n fields f'
  buf' (i : nat) fld fdv :
  decodeSyscall Quote os ce sc f buf
  = (Done (SyscallEvent n fields), f', buf') ->
  fields !! i = Some fld ->
  NeedsPath (fparam fld) = true ->
  fvalue fld = VInt fdv ->
  recorded ce (items f) fdv = None ->
  fpath fld = Some "unknown".
Proof.
  intros H Hi Hneeds Hv Hrec.
  destruct (decoded_field_annotation _ _ _ _ _ _ _ _ _ _ _ _ H Hi Hneeds)
    as (fdv' & Hv' & ->).
  assert (fdv' = fdv) as -> by congruence.
  unfold annotation. by rewrite Hrec.
Qed.

(** X13: when the stat of the recorded path of a tracked descriptor
    fails, the field is annotated ["[deleted] (<quoted path>)?"] for
    [ENOENT] and ["unknown"] for any other error, provided the recorded
    identity is not all zero; a recorded identity of inode 0 on device 0:0
    compares equal to the stat buffer the failed call left untouched, and
    the recorded path is reported. *)
Theorem stat_failure_annotation Quote os ce sc f buf n fields f' buf'
  (i : nat) fld fdv info enoent :
  decodeSyscall Quote os ce sc f buf
  = (Done (SyscallEvent n fields), f', buf') ->
  fields !! i = Some fld ->
  NeedsPath (fparam fld) = true ->
  fvalue fld = VInt fdv ->
  recorded ce (items f) fdv = Some info ->
  Stat os (Pid ce) (Path info) = StatErr enoent ->
  (~ zero_identity info ->
   fpath fld =
   Some (if enoent then "[deleted] (" ++ Quote (Path info) ++ ")?"
         else "unknown")) /\
  (zero_identity info -> fpath fld = Some (Path info)).
Proof.
  intros H Hi Hneeds Hv Hrec Hstat.
  destruct (decoded_field_annotation _ _ _ _ _ _ _ _ _ _ _ _ H Hi Hneeds)
    as (fdv' & Hv' & ->).
  assert (fdv' = fdv) as -> by congruence.
  unfold annotation. rewrite Hrec. unfold fileName_tracked. rewrite Hstat.
  assert (Hz : same_file info 0 0 = true <-> zero_identity info).
  { rewrite same_file_iff. unfold identity_matches, zero_identity.
    by rewrite Z.shiftr_0_l, Z.land_0_l. }
  split.
  - intros Hnz. destruct (same_file info 0 0); [tauto|].
    by destruct enoent.
  - intros Hzero. apply Hz in Hzero. by rewrite Hzero.
Qed.

(** X14: an [fd_install] event followed by an event on the same
    descriptor of the same process: when the descriptor reads back as an
    absolute path, and at the later event that path stats to the inode of
    the install event on the device whose number, shifted right by 8 and
    masked with 0xff, gives its major and minor, the descriptor field of
    the later event is annotated with that path. *)
Theorem fd_install_then_resolve Quote os1 ce1 os2 ce2 f buf1 sc buf2
  n fields f2 rest (i : nat) fld fdv name dev :
  (32 <= length buf1)%nat ->
  Readlink os1 (Conv.uint32 (Pid ce1)) (Conv.uint32 (le (take 8 buf1)))
  = Some name ->
  Strings.HasPrefix name "/" = true ->
  decodeSyscall Quote os2 ce2 sc (decodeFdInstall os1 ce1 f buf1).1.2 buf2
  = (Done (SyscallEvent n fields), f2, rest) ->
  Conv.uint32 (Pid ce2) = Conv.uint32 (Pid ce1) ->
  fields !! i = Some fld ->
  NeedsPath (fparam fld) = true ->
  fvalue fld = VInt fdv ->
  Conv.uint32 fdv = Conv.uint32 (le (take 8 buf1)) ->
  Stat os2 (Pid ce2) name = StatOk (le (take 8 (drop 8 buf1))) dev ->
  Z.shiftr dev 8 = le (take 8 (drop 16 buf1)) ->
  Z.land dev 255 = le (take 8 (drop 24 buf1)) ->
  fpath fld = Some name.
Proof.
  intros Hlen Hlink Habs H Hpid Hi Hneeds Hv Hfd Hstat Hmaj Hmin.
  destruct (decoded_field_annotation _ _ _ _ _ _ _ _ _ _ _ _ H Hi Hneeds)
    as (fdv' & Hv' & ->).
  assert (fdv' = fdv) as -> by congruence.
  rewrite decodeFdInstall_state.
  apply Nat.ltb_ge in Hlen. rewrite Hlen. cbv zeta.
  rewrite Hlink. cbn [from_option id]. rewrite Habs.
  unfold annotation, recorded, Put. cbn [items].
  rewrite Hpid, Hfd, !lookup_insert_eq. cbn [mbind option_bind].
  rewrite lookup_insert_eq.
  rewrite (fileName_tracked_stat_ok Quote os2 ce2
             (mkFdInfo name (le (take 8 (drop 8 buf1)))
                (le (take 8 (drop 16 buf1))) (le (take 8 (drop 24 buf1))))
             (le (take 8 (drop 8 buf1))) dev Hstat).
  cbn [Path].
  assert (Hsame : same_file
                    (mkFdInfo name (le (take 8 (drop 8 buf1)))
                       (le (take 8 (drop 16 buf1)))
                       (le (take 8 (drop 24 buf1))))
                    (le (take 8 (drop 8 buf1))) dev = true).
  { apply same_file_iff. unfold identity_matches. cbn. by rewrite Hmaj, Hmin. }
  by rewrite Hsame.
Qed.

Lemma printable_cases ty :
  printable ty = true ->
  (ty = "[256]byte" /\ printed_as_number ty = false /\
   numeric ty = false /\ width ty = 256%nat) \/
  (printed_as_number ty = true /\ numeric ty = true /\
   ty <> "[256]byte" /\ width ty <> 0%nat).
Proof.
  unfold printable, printed_as_number, numeric, width.
  destruct (String.eqb_spec ty "[256]byte") as [->|Hb]; [by left|].
  destruct (String.eqb_spec ty "uint64") as [->|H1]; [by right|].
  destruct (String.eqb_spec ty "int64") as [->|H2]; [by right|].
  destruct (String.eqb_spec ty "uint32") as [->|H3]; [by right|].
  discriminate.
Qed.

(** X15: on an event decoded from a schema whose decoder types are all
    among [[256]byte], [uint64], [int64] and [uint32], [GetArgN] returns a
    string for every index from 0 to the number of parameters less one, and
    an error for every other index. *)
Theorem GetArgN_decoded Quote os ce sc f buf ev f' buf' ret n :
  decodeSyscall Quote os ce sc f buf = (Done ev, f', buf') ->
  Forall (λ p, printable (Type_ p) = true) (Params sc) ->
  (0 <= n < Z.of_nat (length (Params sc)) ->
   exists s, GetArgN ev n ret = Arg s) /\
  (n < 0 \/ Z.of_nat (length (Params sc)) <= n ->
   GetArgN ev n ret = ArgError).
Proof.
  intros H Hprint.
  apply decodeSyscall_done in H as (fields & f1 & Hread & -> & _).
  apply readParams_shape in Hread
    as (_ & new & Hnew & Hps & Hfit & _ & _).
  cbn [app] in Hnew. subst new.
  assert (Hlen : length fields = length (Params sc))
    by (by rewrite <- Hps, length_fmap).
  unfold GetArgN. split.
  - intros Hn. destruct (Z.ltb_spec n 0); [lia|].
    destruct (fields !! Z.to_nat n) as [fld|] eqn:Hfld;
      [|apply lookup_ge_None in Hfld; lia].
    assert (Hp : printable (Type_ (fparam fld)) = true).
    { rewrite Forall_lookup in Hprint.
      apply (Hprint (Z.to_nat n)). by rewrite <- Hps, list_lookup_fmap, Hfld. }
    rewrite Forall_lookup in Hfit. specialize (Hfit _ _ Hfld).
    unfold value_fits in Hfit.
    destruct (printable_cases _ Hp) as
      [(Hty & -> & Hnum & Hw)|(-> & Hnum & Hty & Hw)];
      destruct (fvalue fld) as [b|z|].
    + rewrite bufferGo_defined. eauto.
    + congruence.
    + congruence.
    + by destruct Hfit.
    + by exists (format_int z).
    + contradiction.
  - intros Hn. destruct (Z.ltb_spec n 0); [done|].
    rewrite (proj2 (lookup_ge_None fields (Z.to_nat n))); [done|lia].
Qed.

(** X16: [inet_ntoa] of the little-endian reading of four bytes prints
    them in buffer order, so an address is shown as it is laid out in the
    captured event. *)
Theorem inet_ntoa_buffer_order (a b c d : byte) :
  TracerNet.inet_ntoa (le [a; b; c; d])
  = TracerNet.dec a ++ "." ++ TracerNet.dec b ++ "."
    ++ TracerNet.dec c ++ "." ++ TracerNet.dec d.
Proof.
  unfold TracerNet.inet_ntoa, TracerNet.dec, TracerNet.byte_of.
  cbn [le]. rewrite !Z.shiftr_div_pow2 by lia.
  pose proof (Byte.to_N_bounded a). pose proof (Byte.to_N_bounded b).
  pose proof (Byte.to_N_bounded c). pose proof (Byte.to_N_bounded d).
  set (A := Z.of_N (Byte.to_N a)) in *.
  set (B := Z.of_N (Byte.to_N b)) in *.
  set (C := Z.of_N (Byte.to_N c)) in *.
  set (D := Z.of_N (Byte.to_N d)) in *.
  assert (0 <= A <= 255 /\ 0 <= B <= 255 /\ 0 <= C <= 255 /\ 0 <= D <= 255)
    as (HA & HB & HC & HD) by (subst A B C D; lia).
  change (2 ^ 8) with 256. change (2 ^ 16) with 65536.
  change (2 ^ 24) with 16777216.
  replace ((A + 256 * (B + 256 * (C + 256 * (D + 256 * 0)))) mod 256)
    with A by (Z.to_euclidean_division_equations; lia).
  replace (((A + 256 * (B + 256 * (C + 256 * (D + 256 * 0)))) / 256)
             mod 256)
    with B by (Z.to_euclidean_division_equations; lia).
  replace (((A + 256 * (B + 256 * (C + 256 * (D + 256 * 0)))) / 65536)
             mod 256)
    with C by (Z.to_euclidean_division_equations; lia).
  replace (((A + 256 * (B + 256 * (C + 256 * (D + 256 * 0)))) / 16777216)
             mod 256)
    with D by (Z.to_euclidean_division_equations; lia).
  reflexivity.
Qed.

End DecoderExtra.

(** * Further properties of the schema compiler *)

Module MetagenExtra.

Import Metagenerator Samples MetagenNotions MetagenMore MetagenProps.

(** *** The type tables agree with one another *)

Lemma tables_rows :
  forallb go_row_ok goTypeConversions_entries = true /\
  forallb c_row_ok cTypeConversions_entries = true /\
  protoTypeConversions !! "" = None.
Proof. vm_compute. repeat split. Qed.

Lemma go_lookup_row ty v :
  goTypeConversions !! ty = Some v -> go_row_ok (ty, v) = true.
Proof.
  intros H. apply elem_of_list_to_map_2 in H.
  destruct tables_rows as (Hgo & _ & _).
  rewrite forallb_forall in Hgo. apply Hgo. by apply list_elem_of_In.
Qed.

Lemma c_lookup_row ty v :
  cTypeConversions !! ty = Some v -> c_row_ok (ty, v) = true.
Proof.
  intros H. apply elem_of_list_to_map_2 in H.
  destruct tables_rows as (_ & Hc & _).
  rewrite forallb_forall in Hc. apply Hc. by apply list_elem_of_In.
Qed.

(** The three derived types of one kernel type. *)
Lemma derived_types ty :
  (goTypeConversions !! ty = None /\ index goTypeConversions ty = "" /\
   index cTypeConversions ty = "" /\
   index protoTypeConversions (index goTypeConversions ty) = "") \/
  (index goTypeConversions ty <> "" /\ index cTypeConversions ty <> "" /\
   index protoTypeConversions (index goTypeConversions ty) <> "" /\
   (index cTypeConversions ty = "char"
    <-> index goTypeConversions ty = "[256]byte") /\
   (index goTypeConversions ty = "[256]byte"
    <-> index protoTypeConversions (index goTypeConversions ty) = "bytes")).
Proof.
  unfold index.
  destruct (goTypeConversions !! ty) as [v|] eqn:Hgo; cbn [from_option id].
  - right. apply go_lookup_row in Hgo. unfold go_row_ok in Hgo.
    destruct (cTypeConversions !! ty) as [cv|];
      [|by rewrite andb_false_r in Hgo].
    destruct (protoTypeConversions !! v) as [pv|];
      [|by rewrite andb_false_r in Hgo].
    cbn [from_option id].
    rewrite !andb_true_iff, !negb_true_iff, !Bool.eqb_true_iff in Hgo.
    destruct Hgo as [[Hv [Hcv Hchar]] [Hpv Hbytes]].
    apply String.eqb_neq in Hv, Hcv, Hpv.
    split; [exact Hv|]. split; [exact Hcv|]. split; [exact Hpv|].
    rewrite <- !String.eqb_eq. rewrite Hchar, Hbytes. split; reflexivity.
  - left. split; [reflexivity|]. split; [reflexivity|].
    destruct (cTypeConversions !! ty) as [cv|] eqn:Hc.
    + apply c_lookup_row in Hc. unfold c_row_ok in Hc.
      rewrite Hgo in Hc. discriminate.
    + destruct tables_rows as (_ & _ & ->). split; reflexivity.
Qed.

(** X17: the three tables list the same kernel types and no empty
    type, so the three parameters compiled from one field line are typed
    together: if one of them has the empty type, all three have. *)
Theorem variants_typed_together l idx g c p e :
  parseLine l idx = (Some g, Some c, Some p, e) ->
  (Type_ g = "" <-> Type_ c = "") /\ (Type_ g = "" <-> Type_ p = "").
Proof.
  rewrite parseLine_cases.
  destruct (line_fields l) as [[ty nm]|]; [|discriminate].
  destruct (String.eqb nm "__syscall_nr"); [discriminate|].
  intros [= <- <- <- _]. unfold goParam_of, cParam_of, protoParam_of.
  cbn [Type_].
  destruct (derived_types ty) as
    [(_ & -> & -> & ->)|(Hg & Hc & Hp & _)]; [split; reflexivity|].
  split; split; intros H; contradiction.
Qed.

(** X18: a parameter is a byte buffer in all three variants or in none:
    the kernel-record field is an array ([Suffix] is ["[256]"]) exactly
    when the decoder field is [[256]byte], and exactly then the wire field
    is [bytes]; so the probe writes 256 bytes where the decoder reads
    256. *)
Theorem variants_buffer_together l idx g c p e :
  parseLine l idx = (Some g, Some c, Some p, e) ->
  (Suffix c = "[256]" <-> Type_ g = "[256]byte") /\
  (Type_ c = "char" <-> Type_ g = "[256]byte") /\
  (Type_ g = "[256]byte" <-> Type_ p = "bytes").
Proof.
  rewrite parseLine_cases.
  destruct (line_fields l) as [[ty nm]|]; [|discriminate].
  destruct (String.eqb nm "__syscall_nr"); [discriminate|].
  intros [= <- <- <- _]. unfold goParam_of, cParam_of, protoParam_of.
  cbn [Type_ Suffix].
  assert (Hsuffix :
            (if String.eqb (index cTypeConversions ty) "char"
             then "[256]" else "") = "[256]"
            <-> index cTypeConversions ty = "char").
  { destruct (String.eqb_spec (index cTypeConversions ty) "char")
      as [E|E]; split; intros H.
    - exact E.
    - reflexivity.
    - discriminate H.
    - contradiction. }
  rewrite Hsuffix.
  destruct (derived_types ty) as
    [(_ & -> & -> & ->)|(_ & _ & _ & Hchar & Hbytes)];
    [|split; [exact Hchar|]; split; [exact Hchar|exact Hbytes]].
  repeat split; discriminate.
Qed.

(** *** Gathering *)

Lemma walkFn_compiled v G C P :
  match walkFn v (G, C, P) with
  | (acc', None) =>
      walk_err v = None /\
      acc' = match compiled v with
             | Some (g, c, p) =>
                 ((G ++ [g])%list, (C ++ [c])%list, (P ++ [p])%list)
             | None => (G, C, P)
             end
  | (_, Some _) => True
  end.
Proof.
  unfold walkFn, compiled, considered.
  destruct (walk_err v); [done|].
  destruct (String.eqb (path v) "syscalls"); [done|].
  destruct (f_IsDir v); [|done].
  destruct (Strings.HasPrefix (f_Name v) "sys_exit"); [done|].
  destruct (bool_decide _); [|done]. cbn [negb andb].
  destruct (format v) as [|e|formatBytes]; [done..|].
  destruct (parseSyscall _ formatBytes) as [[[g c] p]|]; done.
Qed.

Lemma Walk_compiled visits :
  forall G C P G' C' P',
    Walk visits (G, C, P) = ((G', C', P'), None) ->
    G' = (G ++ (unzip3 (omap compiled visits)).1.1)%list /\
    C' = (C ++ (unzip3 (omap compiled visits)).1.2)%list /\
    P' = (P ++ (unzip3 (omap compiled visits)).2)%list.
Proof.
  induction visits as [|v visits IH]; intros G C P G' C' P'.
  - cbn. intros [= <- <- <-]. by rewrite !app_nil_r.
  - cbn [Walk]. pose proof (walkFn_compiled v G C P) as Hv.
    destruct (walkFn v (G, C, P)) as [[[G1 C1] P1] [e|]]; [discriminate|].
    destruct Hv as [_ Hv]. intros Hrest.
    apply IH in Hrest as (-> & -> & ->).
    change (omap compiled (v :: visits))
      with (match compiled v with
            | Some y => y :: omap compiled visits
            | None => omap compiled visits
            end).
    destruct (compiled v) as [[[g c] p]|].
    + injection Hv as -> -> ->. unfold unzip3. cbn [fst snd].
      rewrite !fmap_cons, <- !app_assoc. done.
    + by injection Hv as -> -> ->.
Qed.

(** X19: what [GatherSyscalls] returns, when it succeeds, is the
    compilation of the traced entries of the walk, in the order of the
    walk: an entry contributes the three variants of its syscall when it is
    a directory named after a syscall of the allow-list (with or without
    the [sys_enter_] prefix) whose format file can be read, and nothing
    otherwise.  The three lists therefore go index by index. *)
Theorem GatherSyscalls_compiles_considered visits G C P :
  GatherSyscalls visits = inl (G, C, P) ->
  (G, C, P) = unzip3 (omap compiled visits).
Proof.
  unfold GatherSyscalls.
  destruct (Walk visits ([], [], [])) as [[[G' C'] P'] [e|]] eqn:HW;
    [discriminate|].
  intros [= <- <- <-].
  apply Walk_compiled in HW as (-> & -> & ->). reflexivity.
Qed.

Lemma compiled_names v g c p :
  compiled v = Some (g, c, p) ->
  RawName g ∈ consideredSyscalls /\
  SName g = ToCamel (RawName g) ++ "Event" /\
  RawName c = RawName g /\ SName c = RawName g /\
  RawName p = RawName g /\
  SName p = "Protobuf" ++ ToCamel (RawName g) ++ "Event".
Proof.
  unfold compiled, considered.
  destruct (negb _ && f_IsDir v && negb _) eqn:E1; [|discriminate].
  destruct (bool_decide _) eqn:E2; [|discriminate].
  apply bool_decide_eq_true in E2. cbn [andb].
  destruct (format v) as [|e|formatBytes]; [discriminate..|].
  unfold parseSyscall.
  destruct (parseSyscall_loop _ _ _ _ _ _) as [[[Gp Cp] Pp]|];
    [|discriminate].
  intros [= <- <- <-]. cbn [RawName SName]. by repeat split.
Qed.

(** The allow-list, one name at a time. *)
Lemma considered_cases (name : string) :
  name ∈ consideredSyscalls ->
  In name ["open"; "close"; "read"; "write"; "mkdir"; "mkdirat"; "chmod";
           "fchmod"; "fchmodat"; "chown"; "fchown"; "fchownat"].
Proof.
  unfold consideredSyscalls. rewrite elem_of_list_to_set.
  apply list_elem_of_In.
Qed.

(** X20: among the syscalls that [GatherSyscalls] compiles, the generated
    decoder cuts byte buffers at the returned count exactly for [read] and
    [write], and drops the tracker entry exactly for [close]; every
    compiled name is on the allow-list, and none of them is one of the
    names of the epilogue of [GetStruct], so no generated case hides the
    descriptor-install or connection cases. *)
Theorem gathered_special_cases visits G C P (i : nat) g :
  GatherSyscalls visits = inl (G, C, P) ->
  G !! i = Some g ->
  RawName g ∈ consideredSyscalls /\
  Tracer.size_bounded (SName g)
  = (String.eqb (RawName g) "read" || String.eqb (RawName g) "write") /\
  String.eqb (SName g) "CloseEvent" = String.eqb (RawName g) "close" /\
  ~ In (RawName g) TracerNotions.epilogue_names.
Proof.
  unfold GatherSyscalls.
  destruct (Walk visits ([], [], [])) as [[[G' C'] P'] [e|]] eqn:HW;
    [discriminate|].
  intros [= <- <- <-] Hi.
  apply Walk_compiled in HW as (-> & _ & _).
  cbn [app unzip3 fst] in Hi.
  rewrite list_lookup_fmap in Hi.
  destruct (omap compiled visits !! i) as [[[g' c] p]|] eqn:Hr;
    [|discriminate].
  injection Hi as <-. cbn [fst].
  apply list_elem_of_lookup_2, list_elem_of_omap in Hr
    as (v & _ & Hv).
  apply compiled_names in Hv as (Hin & Hname & _).
  split; [exact Hin|]. rewrite Hname.
  apply considered_cases in Hin. cbn [In] in Hin.
  decompose [or] Hin; try contradiction;
    match goal with H : _ = RawName g' |- _ => rewrite <- H end;
    (split; [vm_compute; reflexivity|]);
    (split; [vm_compute; reflexivity|]);
    cbn; intros Hep; decompose [or] Hep; congruence.
Qed.

(** X21: the three gathered lists go together: they have the same
    length, and at every index the three variants carry the same raw name,
    which is on the allow-list; the decoder variant is named by the
    camel-cased raw name followed by [Event], the kernel-record variant by
    the raw name, the wire variant by [Protobuf] followed by the decoder
    name. *)
Theorem gathered_lists_aligned visits G C P :
  GatherSyscalls visits = inl (G, C, P) ->
  length C = length G /\ length P = length G /\
  forall (i : nat) g,
    G !! i = Some g ->
    exists c p,
      C !! i = Some c /\ P !! i = Some p /\
      RawName c = RawName g /\ RawName p = RawName g /\
      SName g = ToCamel (RawName g) ++ "Event" /\
      SName c = RawName g /\
      SName p = "Protobuf" ++ SName g.
Proof.
  unfold GatherSyscalls.
  destruct (Walk visits ([], [], [])) as [[[G' C'] P'] [e|]] eqn:HW;
    [discriminate|].
  intros [= <- <- <-].
  apply Walk_compiled in HW as (-> & -> & ->).
  cbn [app unzip3 fst snd]. rewrite !length_fmap.
  split; [reflexivity|]. split; [reflexivity|].
  intros i g Hi. rewrite !list_lookup_fmap in *.
  destruct (omap compiled visits !! i) as [[[g' c] p]|] eqn:Hr;
    [|discriminate].
  injection Hi as <-. cbn [fst snd fmap option_fmap option_map].
  exists c, p.
  apply list_elem_of_lookup_2, list_elem_of_omap in Hr
    as (v & _ & Hv).
  apply compiled_names in Hv as (_ & Hg & Hc1 & Hc2 & Hp1 & Hp2).
  rewrite Hg at 2. by repeat split.
Qed.

(** *** The header of a format text *)

Lemma parseLine_blank idx : parseLine "" idx = (None, None, None, None).
Proof. rewrite parseLine_cases. reflexivity. Qed.

Lemma length_zero_empty (s : string) :
  (String.length s =? 0)%nat = true -> s = "".
Proof. by destruct s. Qed.

Lemma parseSyscall_loop_no_blank rest :
  forall idx G C P,
    Forall (λ l, l <> "") rest ->
    parseSyscall_loop rest idx false G C P = inl (G, C, P).
Proof.
  induction rest as [|line rest IH]; intros idx G C P Hne; [done|].
  inversion Hne as [|? ? Hline Hrest]; subst. cbn [parseSyscall_loop].
  destruct (String.length line =? 0)%nat eqn:E.
  - by apply length_zero_empty in E.
  - cbn [negb andb]. by apply IH.
Qed.

Lemma parseSyscall_loop_follows rest :
  forall pre skipped G C P G' C' P',
    (skipped = true ->
     exists b : nat, (b < length pre)%nat /\ pre !! b = Some "") ->
    Forall (follows_blank (pre ++ rest)) C ->
    parseSyscall_loop rest (Z.of_nat (length pre)) skipped G C P
    = inl (G', C', P') ->
    Forall (follows_blank (pre ++ rest)) C'.
Proof.
  induction rest as [|line rest IH];
    intros pre skipped G C P G' C' P' Hblank HF; cbn [parseSyscall_loop].
  - by intros [= _ <- _].
  - assert (Hnext : Z.of_nat (length pre) + 1
                    = Z.of_nat (length (pre ++ [line])%list))
      by (rewrite length_app; simpl; lia).
    assert (Hlines : (pre ++ line :: rest = (pre ++ [line]) ++ rest)%list)
      by (by rewrite <- app_assoc).
    destruct (negb skipped && negb (String.length line =? 0)%nat) eqn:Hskip.
    + apply andb_true_iff in Hskip as [Hs _].
      apply negb_true_iff in Hs. subst skipped.
      rewrite Hnext, Hlines. apply IH; [discriminate|].
      by rewrite <- Hlines.
    + assert (Hblank' : exists b : nat,
                 (b < length (pre ++ [line])%list)%nat /\
                 (pre ++ [line])%list !! b = Some "" /\
                 (skipped = false -> line = "")).
      { destruct skipped.
        - destruct (Hblank eq_refl) as (b & Hb & Hpre).
          exists b. rewrite length_app, lookup_app_l by done.
          split; [lia|]. split; [done|discriminate].
        - cbn [negb andb] in Hskip. apply negb_false_iff in Hskip.
          apply length_zero_empty in Hskip. subst line.
          exists (length pre). rewrite length_app, lookup_app_r by lia.
          rewrite Nat.sub_diag. cbn. split; [lia|done]. }
      destruct Hblank' as (b & Hb & Hlook & Hempty).
      destruct (parseLine line (Z.of_nat (length pre)))
        as [[[gp cp] pp] e] eqn:Hp.
      destruct e; [discriminate|].
      rewrite Hnext, Hlines. apply IH; [by eauto|].
      rewrite <- Hlines.
      destruct cp as [cp|]; cbn [append_if]; [|done].
      apply Forall_app. split; [done|]. constructor; [|constructor].
      destruct skipped.
      * destruct (Hblank eq_refl) as (b0 & Hb0 & Hpre).
        rewrite parseLine_cases in Hp.
        destruct (line_fields line) as [[ty nm]|] eqn:Hf; [|discriminate].
        destruct (String.eqb nm "__syscall_nr"); [discriminate|].
        injection Hp as _ <- _.
        exists b0, (length pre), line, ty.
        split; [done|]. split; [by rewrite lookup_app_l|].
        split; [rewrite lookup_app_r by lia; by rewrite Nat.sub_diag|].
        split; [done|reflexivity].
      * rewrite (Hempty eq_refl), parseLine_blank in Hp. discriminate.
Qed.

(** X22: the fields a format text declares before its first blank line
    (the common tracepoint header) never become parameters: every
    kernel-record parameter is read off a field line that has a blank line
    somewhere before it.  A format text without a blank line compiles to a
    schema without parameters, in all three variants. *)
Theorem header_fields_skipped name format g c p :
  parseSyscall name format = inl (g, c, p) ->
  Forall (follows_blank (Strings.Split_lines format)) (Params c) /\
  (Forall (λ l, l <> "") (Strings.Split_lines format) ->
   Params g = [] /\ Params c = [] /\ Params p = []).
Proof.
  unfold parseSyscall.
  destruct (parseSyscall_loop (Strings.Split_lines format) 0 false
              [] [] []) as [[[G C] P]|] eqn:Hloop; [|discriminate].
  intros [= <- <- <-]. cbn [Params]. split.
  - apply (parseSyscall_loop_follows _ [] false [] [] [] G C P);
      [discriminate|constructor|exact Hloop].
  - intros Hne.
    rewrite (parseSyscall_loop_no_blank _ 0 [] [] [] Hne) in Hloop.
    by injection Hloop as <- <- <-.
Qed.

(** *** Names *)

Lemma append_nil_l (t : string) : "" ++ t = t.
Proof. reflexivity. Qed.

Lemma append_cons c (s t : string) : String c s ++ t = String c (s ++ t).
Proof. reflexivity. Qed.

Lemma append_nil_r (s : string) : s ++ "" = s.
Proof.
  induction s as [|c s IH]; [done|]. by rewrite append_cons, IH.
Qed.

Lemma snoc_append n v t : snoc n v ++ t = n ++ String v t.
Proof.
  unfold snoc. induction n as [|c n IH].
  - by rewrite !append_nil_l, append_cons, append_nil_l.
  - by rewrite !append_cons, IH.
Qed.

Lemma all_chars_snoc p n v :
  all_chars p (snoc n v) = all_chars p n && p v.
Proof.
  unfold snoc. induction n as [|c n IH].
  - rewrite append_nil_l. cbn. by destruct (p v).
  - rewrite append_cons. cbn [all_chars]. rewrite IH. by destruct (p c).
Qed.

Lemma length_snoc n v : String.length (snoc n v) = S (String.length n).
Proof.
  unfold snoc. induction n as [|c n IH].
  - by rewrite append_nil_l.
  - rewrite append_cons. cbn [String.length]. by rewrite IH.
Qed.

Lemma upper_is_capital v :
  in_range 97 122 v = true -> in_range 65 90 (Strings.upper v) = true.
Proof.
  unfold in_range, Strings.upper. intros H.
  apply andb_true_iff in H as [H1 H2].
  apply Nat.leb_le in H1, H2.
  rewrite nat_ascii_embedding by lia.
  apply andb_true_iff. split; apply Nat.leb_le; lia.
Qed.

Lemma ranges_disjoint v :
  in_range 65 90 v || in_range 48 57 v = true -> in_range 97 122 v = false.
Proof.
  unfold in_range. intros H.
  apply andb_false_iff.
  apply orb_true_iff in H as [H|H]; apply andb_true_iff in H as [H1 H2];
    apply Nat.leb_le in H1, H2; left; apply Nat.leb_gt; lia.
Qed.

Lemma ToCamel_loop_alnum s :
  forall n capNext,
    all_chars alnum n = true ->
    all_chars alnum (ToCamel_loop s n capNext) = true /\
    (String.length (ToCamel_loop s n capNext)
     <= String.length n + String.length s)%nat /\
    exists t, ToCamel_loop s n capNext = n ++ t.
Proof.
  induction s as [|v s IH]; intros n capNext Hn; cbn [ToCamel_loop].
  - split; [done|]. split; [lia|]. exists "". by rewrite append_nil_r.
  - cbv zeta.
    destruct (in_range 65 90 v || in_range 48 57 v) eqn:Hup.
    + rewrite (ranges_disjoint v Hup).
      destruct (IH (snoc n v) (Ascii.eqb v "_" || Ascii.eqb v " "))
        as (Ha & Hl & t & Ht).
      { rewrite all_chars_snoc, Hn. unfold alnum.
        apply orb_true_iff in Hup as [-> | ->]; by rewrite ?orb_true_r. }
      split; [done|]. rewrite length_snoc in Hl.
      split; [cbn [String.length]; lia|].
      exists (String v t). by rewrite Ht, snoc_append.
    + destruct (in_range 97 122 v) eqn:Hlow.
      * assert (Hsn : forall c, alnum c = true ->
                   all_chars alnum (snoc n c) = true)
          by (intros c Hc; by rewrite all_chars_snoc, Hn, Hc).
        destruct capNext.
        -- destruct (IH (snoc n (Strings.upper v))
                       (Ascii.eqb v "_" || Ascii.eqb v " "))
             as (Ha & Hl & t & Ht).
           { apply Hsn. unfold alnum. by rewrite upper_is_capital. }
           split; [done|]. rewrite length_snoc in Hl.
           split; [cbn [String.length]; lia|].
           exists (String (Strings.upper v) t). by rewrite Ht, snoc_append.
        -- destruct (IH (snoc n v) (Ascii.eqb v "_" || Ascii.eqb v " "))
             as (Ha & Hl & t & Ht).
           { apply Hsn. unfold alnum. by rewrite Hlow, orb_true_r. }
           split; [done|]. rewrite length_snoc in Hl.
           split; [cbn [String.length]; lia|].
           exists (String v t). by rewrite Ht, snoc_append.
      * destruct (IH n (Ascii.eqb v "_" || Ascii.eqb v " ") Hn)
          as (Ha & Hl & t & Ht).
        split; [done|]. split; [cbn [String.length]; lia|]. by exists t.
Qed.

Lemma TrimLeft_length s :
  (String.length (Strings.TrimLeft_space s) <= String.length s)%nat.
Proof.
  induction s as [|c s IH]; cbn; [done|].
  destruct (Strings.is_space c); cbn; lia.
Qed.

Lemma TrimRight_length s :
  (String.length (Strings.TrimRight_space s) <= String.length s)%nat.
Proof.
  induction s as [|c s IH]; cbn; [done|].
  destruct (Strings.TrimRight_space s); [destruct (Strings.is_space c)|];
    cbn in *; lia.
Qed.

Lemma Trim_keeps_first c s :
  Strings.is_space c = false ->
  exists r, Strings.Trim_space (String c s) = String c r.
Proof.
  intros Hc. unfold Strings.Trim_space. cbn [Strings.TrimLeft_space].
  rewrite Hc. cbn [Strings.TrimRight_space].
  destruct (Strings.TrimRight_space s); rewrite ?Hc; eauto.
Qed.

(** X23: [ToCamel] returns letters and digits only, never more characters
    than it was given, and a string that begins with a lower-case letter
    comes out beginning with that letter in upper case; so the decoder
    field compiled from a kernel field name that starts with a letter is
    an exported identifier. *)
Theorem ToCamel_identifier s :
  all_chars alnum (ToCamel s) = true /\
  (String.length (ToCamel s) <= String.length s)%nat /\
  (forall c s', s = String c s' -> in_range 97 122 c = true ->
     exists t, ToCamel s = String (Strings.upper c) t).
Proof.
  unfold ToCamel.
  destruct (ToCamel_loop_alnum (Strings.Trim_space s) "" true eq_refl)
    as (Ha & Hl & _).
  split; [exact Ha|]. split.
  - cbn [String.length Nat.add] in Hl. etransitivity; [exact Hl|].
    unfold Strings.Trim_space. etransitivity; [apply TrimRight_length|].
    apply TrimLeft_length.
  - intros c s' -> Hc.
    assert (Hsp : Strings.is_space c = false).
    { unfold Strings.is_space. apply Ascii.eqb_neq. intros ->.
      discriminate. }
    destruct (Trim_keeps_first c s' Hsp) as [r ->].
    cbn [ToCamel_loop]. cbv zeta.
    assert (Hnot : in_range 65 90 c || in_range 48 57 c = false).
    { destruct (in_range 65 90 c || in_range 48 57 c) eqn:E; [|done].
      apply ranges_disjoint in E. congruence. }
    rewrite Hnot, Hc.
    destruct (ToCamel_loop_alnum r (snoc "" (Strings.upper c))
                (Ascii.eqb c "_" || Ascii.eqb c " "))
      as (_ & _ & t & ->).
    { rewrite all_chars_snoc. unfold alnum.
      by rewrite (upper_is_capital c Hc). }
    exists t. unfold snoc. by rewrite append_nil_l, append_cons, append_nil_l.
Qed.

(** *** What the pattern captures *)

Lemma append_assoc (s t u : string) : (s ++ t) ++ u = s ++ t ++ u.
Proof.
  induction s as [|c s IH]; [done|]. by rewrite !append_cons, IH.
Qed.

Lemma length_append (s t : string) :
  String.length (s ++ t) = (String.length s + String.length t)%nat.
Proof.
  induction s as [|c s IH]; [done|].
  rewrite append_cons. cbn [String.length]. by rewrite IH.
Qed.

Lemma exec_Star_eq p k s pos m :
  Regexp.exec (Regexp.Star p :: k) s pos m =
  match s with
  | String a s' =>
      if p a then
        match Regexp.exec (Regexp.Star p :: k) s' (S pos) m with
        | Some r => Some r
        | None => Regexp.exec k s pos m
        end
      else Regexp.exec k s pos m
  | EmptyString => Regexp.exec k s pos m
  end.
Proof. by destruct s. Qed.

Lemma exec_StarLazy_eq p k s pos m :
  Regexp.exec (Regexp.StarLazy p :: k) s pos m =
  match Regexp.exec k s pos m with
  | Some r => Some r
  | None =>
      match s with
      | String a s' =>
          if p a then Regexp.exec (Regexp.StarLazy p :: k) s' (S pos) m
          else None
      | EmptyString => None
      end
  end.
Proof. by destruct s. Qed.

(** A greedy repetition takes a run of the class and hands over the
    rest. *)
Lemma exec_Star_run p k s :
  forall pos m r,
    Regexp.exec (Regexp.Star p :: k) s pos m = Some r ->
    exists w s0,
      s = w ++ s0 /\ all_chars p w = true /\
      Regexp.exec k s0 (pos + String.length w) m = Some r.
Proof.
  induction s as [|a s IH]; intros pos m r; rewrite exec_Star_eq.
  - intros H. exists "", "". rewrite Nat.add_0_r. by repeat split.
  - assert (Hstop : Regexp.exec k (String a s) pos m = Some r ->
              exists w s0,
                String a s = w ++ s0 /\ all_chars p w = true /\
                Regexp.exec k s0 (pos + String.length w) m = Some r).
    { intros H. exists "", (String a s). rewrite Nat.add_0_r.
      by repeat split. }
    destruct (p a) eqn:Hp; [|exact Hstop].
    destruct (Regexp.exec (Regexp.Star p :: k) s (S pos) m) as [r'|] eqn:E;
      [|exact Hstop].
    intros [= <-]. apply IH in E as (w & s0 & -> & Hw & He).
    exists (String a w), s0. rewrite append_cons. cbn [all_chars].
    rewrite Hp, Hw. split; [done|]. split; [done|].
    cbn [String.length]. by rewrite Nat.add_succ_r.
Qed.

Lemma exec_StarLazy_run p k s :
  forall pos m r,
    Regexp.exec (Regexp.StarLazy p :: k) s pos m = Some r ->
    exists w s0,
      s = w ++ s0 /\
      Regexp.exec k s0 (pos + String.length w) m = Some r.
Proof.
  induction s as [|a s IH]; intros pos m r; rewrite exec_StarLazy_eq.
  - destruct (Regexp.exec k "" pos m) as [r'|] eqn:E; [|discriminate].
    intros [= <-]. exists "", "". rewrite Nat.add_0_r. by split.
  - destruct (Regexp.exec k (String a s) pos m) as [r'|] eqn:E.
    + intros [= <-]. exists "", (String a s). rewrite Nat.add_0_r.
      by split.
    + destruct (p a); [|discriminate].
      intros H. apply IH in H as (w & s0 & -> & He).
      exists (String a w), s0. rewrite append_cons. split; [done|].
      cbn [String.length]. by rewrite Nat.add_succ_r.
Qed.

(** Running [prog ++ k] runs [k] on what [prog] leaves. *)
Lemma exec_through prog k :
  forall s pos m r,
    Regexp.exec (prog ++ k) s pos m = Some r ->
    exists w s0 m0,
      s = w ++ s0 /\
      Regexp.exec k s0 (pos + String.length w) m0 = Some r.
Proof.
  induction prog as [|i prog IH]; intros s pos m r.
  - intros H. exists "", s, m. rewrite Nat.add_0_r. by split.
  - rewrite <- app_comm_cons. destruct i as [c|p|p|p|slot].
    + cbn [Regexp.exec]. destruct s as [|a s]; [discriminate|].
      destruct (Ascii.eqb a c); [|discriminate].
      intros H. apply IH in H as (w & s0 & m0 & -> & He).
      exists (String a w), s0, m0. rewrite append_cons. split; [done|].
      cbn [String.length]. by rewrite Nat.add_succ_r.
    + cbn [Regexp.exec]. destruct s as [|a s]; [discriminate|].
      destruct (p a); [|discriminate].
      intros H. apply IH in H as (w & s0 & m0 & -> & He).
      exists (String a w), s0, m0. rewrite append_cons. split; [done|].
      cbn [String.length]. by rewrite Nat.add_succ_r.
    + intros H. apply exec_Star_run in H as (w & s0 & -> & _ & H).
      apply IH in H as (w' & s1 & m0 & -> & He).
      exists (w ++ w'), s1, m0.
      split; [by rewrite append_assoc|].
      by rewrite length_append, Nat.add_assoc.
    + intros H. apply exec_StarLazy_run in H as (w & s0 & -> & H).
      apply IH in H as (w' & s1 & m0 & -> & He).
      exists (w ++ w'), s1, m0.
      split; [by rewrite append_assoc|].
      by rewrite length_append, Nat.add_assoc.
    + cbn [Regexp.exec]. intros H. by apply IH in H.
Qed.

(** A slot that the program does not mark keeps its value. *)
Lemma exec_slot_stable prog :
  forall s pos m e m' i,
    Regexp.exec prog s pos m = Some (e, m') ->
    ~ In (Regexp.Mark i) prog ->
    Regexp.slot m' i = Regexp.slot m i.
Proof.
  induction prog as [|ins prog IH]; intros s pos m e m' i.
  - cbn. by intros [= _ <-].
  - intros H Hin.
    assert (Hin' : ~ In (Regexp.Mark i) prog)
      by (intros ?; apply Hin; by right).
    destruct ins as [c|p|p|p|j].
    + cbn [Regexp.exec] in H. destruct s as [|a s]; [discriminate|].
      destruct (Ascii.eqb a c); [|discriminate]. eauto.
    + cbn [Regexp.exec] in H. destruct s as [|a s]; [discriminate|].
      destruct (p a); [|discriminate]. eauto.
    + apply exec_Star_run in H as (w & s0 & _ & _ & H). eauto.
    + apply exec_StarLazy_run in H as (w & s0 & _ & H). eauto.
    + cbn [Regexp.exec] in H. rewrite (IH _ _ _ _ _ _ H Hin').
      cbn [Regexp.slot].
      destruct (Nat.eqb_spec i j) as [->|]; [|done].
      exfalso. apply Hin. by left.
Qed.

Lemma search_found prog s :
  forall pos r,
    Regexp.search prog s pos = Some r ->
    exists w s0,
      s = w ++ s0 /\
      Regexp.exec (Regexp.Mark 0 :: prog ++ [Regexp.Mark 1]) s0
        (pos + String.length w) [] = Some r.
Proof.
  induction s as [|a s IH]; intros pos r; cbn [Regexp.search].
  - destruct (Regexp.exec _ "" pos []) as [r'|] eqn:E; [|discriminate].
    intros [= <-]. exists "", "". rewrite Nat.add_0_r. by split.
  - destruct (Regexp.exec _ (String a s) pos []) as [r'|] eqn:E.
    + intros [= <-]. exists "", (String a s). rewrite Nat.add_0_r.
      by split.
    + intros H. apply IH in H as (w & s0 & -> & He).
      exists (String a w), s0. rewrite append_cons. split; [done|].
      cbn [String.length]. by rewrite Nat.add_succ_r.
Qed.

Lemma substring_skip (u t : string) k :
  String.substring (String.length u) k (u ++ t) = String.substring 0 k t.
Proof.
  induction u as [|c u IH]; [done|].
  rewrite append_cons. cbn [String.length String.substring]. exact IH.
Qed.

Lemma substring_take (v rest : string) :
  String.substring 0 (String.length v) (v ++ rest) = v.
Proof.
  induction v as [|c v IH].
  - rewrite append_nil_l. by destruct rest.
  - rewrite append_cons. cbn [String.length String.substring].
    by rewrite IH.
Qed.

Lemma re_split :
  Regexp.Mark 0 :: re ++ [Regexp.Mark 1] = (re_head ++ re_tail)%list.
Proof. reflexivity. Qed.

Lemma exec_Mark_eq j k s pos m :
  Regexp.exec (Regexp.Mark j :: k) s pos m
  = Regexp.exec k s pos ((j, pos) :: m).
Proof. reflexivity. Qed.

Lemma exec_Class_eq p k s pos m :
  Regexp.exec (Regexp.Class p :: k) s pos m =
  match s with
  | String a s' => if p a then Regexp.exec k s' (S pos) m else None
  | EmptyString => None
  end.
Proof. reflexivity. Qed.

(** What the name group holds when the end of the pattern matches. *)
Lemma re_tail_name s pos m e m' :
  Regexp.exec re_tail s pos m = Some (e, m') ->
  exists nm rest,
    s = nm ++ rest /\ kernel_name nm /\
    Regexp.slot m' 4 = Some pos /\
    Regexp.slot m' 5 = Some (pos + String.length nm)%nat.
Proof.
  unfold re_tail. rewrite exec_Mark_eq, exec_Class_eq.
  destruct s as [|a s]; [discriminate|].
  destruct (name_char a) eqn:Ha; [|discriminate].
  intros H. apply exec_Star_run in H as (w & s0 & -> & Hw & H).
  rewrite exec_Mark_eq in H.
  exists (String a w), s0. rewrite append_cons.
  split; [done|]. split.
  { split; [discriminate|]. cbn [all_chars]. by rewrite Ha, Hw. }
  split.
  - rewrite (exec_slot_stable _ _ _ _ _ _ 4%nat H).
    + reflexivity.
    + cbn. intros Hin. decompose [or] Hin; discriminate || done.
  - rewrite (exec_slot_stable _ _ _ _ _ _ 5%nat H).
    + cbn [Regexp.slot Nat.eqb String.length]. f_equal. lia.
    + cbn. intros Hin. decompose [or] Hin; discriminate || done.
Qed.

(** The name the pattern captures on a field line is never empty and
    consists of lower-case letters, digits and underscores only. *)
Lemma line_fields_name l ty nm :
  line_fields l = Some (ty, nm) -> kernel_name nm.
Proof.
  unfold line_fields, Regexp.FindStringSubmatch.
  destruct (Regexp.search re l 0) as [[e m]|] eqn:Hs; [|discriminate].
  cbn [List.map seq].
  destruct (fill_groups (Regexp.group l m 0) (Regexp.group l m 1)
              (Regexp.group l m 2)) as [_ Hnm].
  cbv zeta in Hnm. unfold index at 2. rewrite Hnm. cbn [from_option id].
  intros [= _ <-].
  apply search_found in Hs as (w & s0 & -> & Hs).
  rewrite re_split in Hs.
  apply exec_through in Hs as (w' & s1 & m0 & -> & Hs).
  apply re_tail_name in Hs as (nm & rest & -> & Hk & H4 & H5).
  unfold Regexp.group.
  change (2 * 2 + 1)%nat with 5%nat. change (2 * 2)%nat with 4%nat.
  rewrite H4, H5.
  replace (0 + String.length w + String.length w' + String.length nm
           - (0 + String.length w + String.length w'))%nat
    with (String.length nm) by lia.
  rewrite <- append_assoc.
  replace (0 + String.length w + String.length w')%nat
    with (String.length (w ++ w')) by (rewrite length_append; lia).
  by rewrite substring_skip, substring_take.
Qed.

(** The parameter loop appends, to each of the three lists, the
    parameter of one and the same row for every field line that is not
    the syscall number. *)
Lemma parseSyscall_loop_rows lines :
  forall idx skipped G C P G' C' P',
    parseSyscall_loop lines idx skipped G C P = inl (G', C', P') ->
    exists rows : list row,
      G' = (G ++ (go_of_row <$> rows))%list /\
      C' = (C ++ (c_of_row <$> rows))%list /\
      P' = (P ++ (proto_of_row <$> rows))%list /\
      Forall (λ r : row, kernel_name r.2 /\ r.2 <> "__syscall_nr") rows.
Proof.
  induction lines as [|line rest IH];
    intros idx skipped G C P G' C' P'; cbn [parseSyscall_loop].
  - intros [= <- <- <-]. exists []. by rewrite !app_nil_r.
  - destruct (negb skipped && negb (String.length line =? 0)%nat);
      [apply IH|].
    rewrite parseLine_cases.
    destruct (line_fields line) as [[ty nm]|] eqn:Hf; [|apply IH].
    destruct (String.eqb_spec nm "__syscall_nr") as [|Hnr]; [apply IH|].
    cbn [append_if]. intros H.
    apply IH in H as (rows & -> & -> & -> & Hrows).
    exists ((idx, ty, nm) :: rows). rewrite !fmap_cons, <- !app_assoc.
    split; [done|]. split; [done|]. split; [done|].
    constructor; [|done]. split; [|done].
    by apply (line_fields_name line ty).
Qed.

Lemma parseSyscall_rows name format g c p :
  parseSyscall name format = inl (g, c, p) ->
  exists rows : list row,
    Params g = go_of_row <$> rows /\
    Params c = c_of_row <$> rows /\
    Params p = proto_of_row <$> rows /\
    Forall (λ r : row, kernel_name r.2 /\ r.2 <> "__syscall_nr") rows.
Proof.
  unfold parseSyscall.
  destruct (parseSyscall_loop (Strings.Split_lines format) 0 false
              [] [] []) as [[[G C] P]|] eqn:Hloop; [|discriminate].
  intros [= <- <- <-]. cbn [Params].
  apply parseSyscall_loop_rows in Hloop as (rows & -> & -> & -> & Hrows).
  by exists rows.
Qed.

(** X24: every kernel-record parameter of a compiled syscall is named by
    one or more lower-case letters, digits and underscores, and none is
    the syscall-number field; every decoder parameter is named by letters
    and digits only. *)
Theorem parameter_names_valid name format g c p :
  parseSyscall name format = inl (g, c, p) ->
  Forall (λ cp, kernel_name (Name cp) /\ Name cp <> "__syscall_nr")
    (Params c) /\
  Forall (λ gp, all_chars alnum (Name gp) = true) (Params g).
Proof.
  intros H. apply parseSyscall_rows in H as (rows & -> & -> & _ & Hrows).
  split.
  - apply Forall_fmap. eapply Forall_impl; [exact Hrows|].
    intros [[idx ty] nm] Hr. exact Hr.
  - apply Forall_fmap, Forall_true. intros [[idx ty] nm].
    unfold go_of_row, goParam_of. cbn [fst snd Name compose].
    unfold ToCamel.
    by destruct (ToCamel_loop_alnum (Strings.Trim_space nm) "" true
                   eq_refl) as (Ha & _).
Qed.

(** X25: the wire variant goes index by index with the decoder variant:
    same number of parameters, the wire parameter carries the kernel name
    of which the decoder name is the camel-cased form, and its type is the
    wire type of the decoder type.  Path resolution is marked in the
    decoder variant only, and there exactly on the parameters named [Fd]
    or [Dfd]. *)
Theorem wire_variant_aligned name format g c p :
  parseSyscall name format = inl (g, c, p) ->
  length (Params p) = length (Params g) /\
  (forall (i : nat) gp pp,
      Params g !! i = Some gp -> Params p !! i = Some pp ->
      Name gp = ToCamel (Name pp) /\
      Type_ pp = index protoTypeConversions (Type_ gp) /\
      NeedsPath pp = false /\
      (NeedsPath gp = true <-> Name gp = "Fd" \/ Name gp = "Dfd") /\
      exists cp, Params c !! i = Some cp /\ Name cp = Name pp /\
                 NeedsPath cp = false).
Proof.
  intros H. apply parseSyscall_rows in H as (rows & -> & -> & -> & _).
  rewrite !length_fmap. split; [reflexivity|].
  intros i gp pp. rewrite !list_lookup_fmap.
  destruct (rows !! i) as [[[idx ty] nm]|]; [|discriminate].
  cbn [fmap option_fmap option_map]. intros [= <-] [= <-].
  unfold go_of_row, proto_of_row, c_of_row, goParam_of, protoParam_of,
    cParam_of.
  cbn [fst snd Name Type_ NeedsPath].
  split; [reflexivity|]. split; [reflexivity|]. split; [reflexivity|].
  split.
  - rewrite orb_true_iff, !String.eqb_eq. reflexivity.
  - eexists. split; [reflexivity|]. split; reflexivity.
Qed.

End MetagenExtra.

(** * The further properties on concrete inputs *)

Module ExtraWitnesses.

Import Metagenerator Tracer TracerNotions TracerMore MetagenNotions
  MetagenMore Samples MoreSamples DecoderExtra MetagenExtra.

Lemma fchmod_decoded :
  decodeSyscall plain_Quote reused_os fchmod_header FchmodEvent tracked_fds
    fchmod_payload
  = (Done (SyscallEvent "FchmodEvent" (fchmod_fields "unknown")),
     (decodeSyscall plain_Quote reused_os fchmod_header FchmodEvent
        tracked_fds fchmod_payload).1.2, []).
Proof. vm_compute. reflexivity. Defined.

Lemma decodeSyscall_shape_witness :
  exists fields,
    fparam <$> fields = Params FchmodEvent /\
    read_from fchmod_payload fields /\
    Forall value_fits fields.
Proof.
  destruct (decodeSyscall_shape _ _ _ _ _ _ _ _ _ fchmod_decoded)
    as (fields & _ & Hps & Hread & Hfit & _).
  by exists fields.
Defined.



Lemma close_decoded :
  decodeSyscall plain_Quote steady_os (mkCommonEvent 2 100 0 "close")
    CloseEvent tracked_fds close_payload
  = (Done (SyscallEvent "CloseEvent"
             [mkField (mkParam 0 "Fd" "uint64" "" "" true) (VInt 5)
                (Some "/tmp/a")]),
     (decodeSyscall plain_Quote steady_os (mkCommonEvent 2 100 0 "close")
        CloseEvent tracked_fds close_payload).1.2, []).
Proof. vm_compute. reflexivity. Defined.

Lemma decodeSyscall_close_witness :
  exists fdv,
    (lookup_fd (Conv.uint32 100) (Conv.uint32 fdv)
       (decodeSyscall plain_Quote steady_os
          (mkCommonEvent 2 100 0 "close") CloseEvent tracked_fds
          close_payload).1.2).2 = false.
Proof.
  destruct (decodeSyscall_close_untracks plain_Quote steady_os
              (mkCommonEvent 2 100 0 "close") CloseEvent tracked_fds
              close_payload _ _ _ eq_refl close_decoded)
    as (fields & fdv & _ & _ & H & _).
  by exists fdv.
Defined.

Lemma GetStruct_leaves_table_witness :
  items (GetStruct plain_Quote reused_os fchmod_header
           [CloseEvent; FchmodEvent] tracked_fds fchmod_payload).1.2
  = items tracked_fds.
Proof.
  apply GetStruct_leaves_table.
  - discriminate.
  - repeat constructor; cbn; discriminate.
Defined.

Lemma GetStruct_error_witness :
  GetStruct plain_Quote reused_os (mkCommonEvent 1 100 0 "fd_install")
    [FchmodEvent] tracked_fds close_payload
  = (Failed, tracked_fds, []).
Proof.
  apply (proj2 (GetStruct_error_only_fd_install plain_Quote reused_os
                  (mkCommonEvent 1 100 0 "fd_install") [FchmodEvent]
                  tracked_fds close_payload)).
  - repeat constructor. discriminate.
  - reflexivity.
  - vm_compute. lia.
Defined.

Lemma GetStruct_connect_witness :
  GetStruct plain_Quote reused_os (mkCommonEvent 1 100 0 "accept_v4")
    [FchmodEvent] tracked_fds connect_v4_payload
  = (Done (ConnectV4Event 16777226 33554442 8080 443 7), tracked_fds, []).
Proof.
  rewrite (proj1 (GetStruct_connect_layout plain_Quote reused_os
                    (mkCommonEvent 1 100 0 "accept_v4") [FchmodEvent]
                    tracked_fds connect_v4_payload
                    ltac:(repeat constructor; discriminate))).
  - vm_compute. reflexivity.
  - cbn. tauto.
Defined.

Lemma untracked_descriptor_witness :
  fpath (mkField (mkParam 0 "Fd" "uint64" "" "" true) (VInt 5)
           (Some "unknown")) = Some "unknown".
Proof.
  assert (H : decodeSyscall plain_Quote steady_os fchmod_header FchmodEvent
                NewFdMap fchmod_payload
              = (Done (SyscallEvent "FchmodEvent" (fchmod_fields "unknown")),
                 NewFdMap, []))
    by (vm_compute; reflexivity).
  apply (untracked_descriptor_is_unknown _ _ _ _ _ _ _ _ _ _ 0%nat _ 5 H);
    reflexivity.
Defined.

Lemma stat_failure_witness :
  fpath (mkField (mkParam 0 "Fd" "uint64" "" "" true) (VInt 5)
           (Some ("[deleted] (" ++ plain_Quote "/tmp/a" ++ ")?")))
  = Some ("[deleted] (" ++ plain_Quote "/tmp/a" ++ ")?").
Proof.
  assert (H : decodeSyscall plain_Quote gone_os fchmod_header FchmodEvent
                tracked_fds fchmod_payload
              = (Done (SyscallEvent "FchmodEvent"
                         (fchmod_fields
                            ("[deleted] (" ++ plain_Quote "/tmp/a" ++ ")?"))),
                 (decodeSyscall plain_Quote gone_os fchmod_header
                    FchmodEvent tracked_fds fchmod_payload).1.2, []))
    by (vm_compute; reflexivity).
  refine (proj1 (stat_failure_annotation _ _ _ _ _ _ _ _ _ _ 0%nat _ 5
                   (mkFdInfo "/tmp/a" 42 8 1) true H _ _ _ _ _) _).
  - reflexivity.
  - reflexivity.
  - reflexivity.
  - vm_compute. reflexivity.
  - reflexivity.
  - intros (Hino & _). discriminate Hino.
Defined.

Lemma fd_install_then_resolve_witness :
  fpath (mkField (mkParam 0 "Fd" "uint64" "" "" true) (VInt 5)
           (Some "/tmp/a")) = Some "/tmp/a".
Proof.
  assert (H : decodeSyscall plain_Quote steady_os fchmod_header FchmodEvent
                (decodeFdInstall steady_os
                   (mkCommonEvent 1 100 0 "fd_install") NewFdMap
                   fd_install_payload).1.2 fchmod_payload
              = (Done (SyscallEvent "FchmodEvent" (fchmod_fields "/tmp/a")),
                 (decodeSyscall plain_Quote steady_os fchmod_header
                    FchmodEvent
                    (decodeFdInstall steady_os
                       (mkCommonEvent 1 100 0 "fd_install") NewFdMap
                       fd_install_payload).1.2 fchmod_payload).1.2, []))
    by (vm_compute; reflexivity).
  refine (fd_install_then_resolve plain_Quote steady_os
            (mkCommonEvent 1 100 0 "fd_install") steady_os fchmod_header
            NewFdMap fd_install_payload FchmodEvent fchmod_payload _ _ _ _
            0%nat _ 5 "/tmp/a" 2049 _ _ _ H _ _ _ _ _ _ _ _).
  all: reflexivity.
Defined.

Lemma GetArgN_decoded_witness :
  (exists s, GetArgN (SyscallEvent "FchmodEvent" (fchmod_fields "unknown"))
               1 0 = Arg s) /\
  GetArgN (SyscallEvent "FchmodEvent" (fchmod_fields "unknown")) 2 0
  = ArgError.
Proof.
  pose proof (GetArgN_decoded _ _ _ _ _ _ _ _ _ 0 1 fchmod_decoded
                ltac:(repeat constructor)) as [H1 _].
  pose proof (GetArgN_decoded _ _ _ _ _ _ _ _ _ 0 2 fchmod_decoded
                ltac:(repeat constructor)) as [_ H2].
  split; [apply H1; cbn; lia|apply H2; cbn; lia].
Defined.

Lemma open_compiled :
  parseSyscall "open" open_format = inl (open_go, open_c, open_proto).
Proof. vm_compute. reflexivity. Defined.

Lemma sample_walk_gathered :
  GatherSyscalls sample_walk = inl ([open_go], [open_c], [open_proto]).
Proof. vm_compute. reflexivity. Defined.

Lemma flags_line_parsed :
  parseLine (field_line "int flags" "24" "8" "0") 10
  = (Some (mkParam 0 "Flags" "int64" "" "" false),
     Some (mkParam 2 "flags" "s64" "" "" false),
     Some (mkParam 0 "flags" "int64" "" "" false), None).
Proof. vm_compute. reflexivity. Defined.

Lemma variants_typed_together_witness :
  Type_ (mkParam 0 "Flags" "int64" "" "" false) = ""
  <-> Type_ (mkParam 2 "flags" "s64" "" "" false) = "".
Proof.
  exact (proj1 (variants_typed_together _ _ _ _ _ _ flags_line_parsed)).
Defined.

Lemma variants_buffer_together_witness :
  Suffix (mkParam 2 "flags" "s64" "" "" false) = "[256]"
  <-> Type_ (mkParam 0 "Flags" "int64" "" "" false) = "[256]byte".
Proof.
  exact (proj1 (variants_buffer_together _ _ _ _ _ _ flags_line_parsed)).
Defined.

Lemma GatherSyscalls_compiles_witness :
  ([open_go], [open_c], [open_proto]) = unzip3 (omap compiled sample_walk).
Proof.
  exact (GatherSyscalls_compiles_considered _ _ _ _ sample_walk_gathered).
Defined.

Lemma gathered_special_cases_witness :
  Tracer.size_bounded (SName open_go) = false /\
  ~ In (RawName open_go) epilogue_names.
Proof.
  destruct (gathered_special_cases _ _ _ _ 0%nat open_go
              sample_walk_gathered eq_refl) as (_ & H1 & _ & H2).
  split; [exact H1|exact H2].
Defined.

Lemma gathered_lists_aligned_witness :
  length [open_c] = length [open_go] /\
  length [open_proto] = length [open_go].
Proof.
  destruct (gathered_lists_aligned _ _ _ _ sample_walk_gathered)
    as (H1 & H2 & _).
  split; [exact H1|exact H2].
Defined.

Lemma header_fields_skipped_witness :
  Forall (follows_blank (Strings.Split_lines open_format)) (Params open_c).
Proof.
  exact (proj1 (header_fields_skipped _ _ _ _ _ open_compiled)).
Defined.

Lemma ToCamel_identifier_witness :
  exists t, ToCamel "filename" = String (Strings.upper "f") t.
Proof.
  exact (proj2 (proj2 (ToCamel_identifier "filename")) "f"%char "ilename"
           eq_refl eq_refl).
Defined.

Lemma parameter_names_valid_witness :
  Forall (λ cp, kernel_name (Name cp) /\ Name cp <> "__syscall_nr")
    (Params open_c).
Proof.
  exact (proj1 (parameter_names_valid _ _ _ _ _ open_compiled)).
Defined.

Lemma wire_variant_aligned_witness :
  Name (mkParam 0 "Flags" "int64" "" "" false)
  = ToCamel (Name (mkParam 0 "flags" "int64" "" "" false)).
Proof.
  destruct (wire_variant_aligned _ _ _ _ _ open_compiled) as [_ H].
  destruct (H 1%nat _ _ eq_refl eq_refl) as (Hn & _).
  exact Hn.
Defined.

End ExtraWitnesses.
